(** * earth_data_fetcher: a shallow embedding of the temporal fetch-and-cache engine

    The development follows the three source files:
    - [download_https.py]  : class [DownloaderFsspec]  (module [Fsspec])
    - [download_xarray.py] : class [DownloaderXarray] (module [Xarray])
    - [utils.py]           : [make_downloader]        (module [Utils])

    Timestamps are integers (nanoseconds since the epoch, as in pandas),
    dictionaries are association lists in insertion order, and every
    method that touches the remote archive, the local disk or the object
    is a computation in a small state-and-exception monad. *)

From Stdlib Require Import ZArith List String Ascii Bool Lia Sorted.
Import ListNotations.

Local Open Scope string_scope.
Local Open Scope list_scope.
Local Open Scope Z_scope.

(** ** Python exceptions and the state-and-exception monad *)

Inductive exn : Type :=
| ValueError (msg : string)
| AssertionError (msg : string)
| TypeError (msg : string)
| IndexError (msg : string)
| KeyError (msg : string)
| AttributeError (msg : string).

Inductive result (A : Type) : Type :=
| Ok (a : A)
| Raise (e : exn).
Arguments Ok {A} a.
Arguments Raise {A} e.

Definition M (S A : Type) : Type := S -> result A * S.

Definition ret {S A} (a : A) : M S A := fun s => (Ok a, s).
Definition raise {S A} (e : exn) : M S A := fun s => (Raise e, s).
Definition bind {S A B} (m : M S A) (k : A -> M S B) : M S B :=
  fun s => match m s with
           | (Ok a, s') => k a s'
           | (Raise e, s') => (Raise e, s')
           end.
Definition get {S} : M S S := fun s => (Ok s, s).
Definition modify {S} (f : S -> S) : M S unit := fun s => (Ok tt, f s).

Declare Scope monad_scope.
Delimit Scope monad_scope with monad.
Notation "x <- m ;; k" := (bind m (fun x => k))
  (at level 61, m at next level, right associativity) : monad_scope.
Notation "m ;;; k" := (bind m (fun _ => k))
  (at level 61, right associativity) : monad_scope.
Local Open Scope monad_scope.

(** [assert cond, msg] *)
Definition py_assert {S} (cond : bool) (msg : string) : M S unit :=
  if cond then ret tt else raise (AssertionError msg).

(** A [for] loop whose body is run for its effect on every element. *)
Fixpoint for_each {S A} (body : A -> M S unit) (l : list A) : M S unit :=
  match l with
  | [] => ret tt
  | a :: l' => body a ;;; for_each body l'
  end.

(** ** Time: [pd.Timestamp], [pd.Timedelta], [pd.date_range] *)

Definition Timestamp := Z.
Definition Timedelta := Z.

Definition one_day : Timedelta := 86400000000000.
Definition days (n : Z) : Timedelta := n * one_day.

(** [pd.date_range(start=start, end=stop, freq=freq)] for a positive
    [freq]: [start], [start + freq], ... while not after [stop]. *)
Definition date_range (start stop : Timestamp) (freq : Timedelta) : list Timestamp :=
  if stop <? start then []
  else map (fun k => start + Z.of_nat k * freq)
           (seq 0 (S (Z.to_nat ((stop - start) / freq)))).

(** ** Strings *)

Fixpoint prefixb (p s : string) : bool :=
  match p, s with
  | EmptyString, _ => true
  | String a p', String b s' => Ascii.eqb a b && prefixb p' s'
  | String _ _, EmptyString => false
  end.

(** [sub in s] *)
Fixpoint str_in (sub s : string) : bool :=
  prefixb sub s ||
  match s with
  | EmptyString => false
  | String _ s' => str_in sub s'
  end.

(** [s.replace(old, new)] for a non-empty [old]; [fuel] bounds the scan
    and [String.length s] is always enough. *)
Fixpoint drop (n : nat) (s : string) : string :=
  match n, s with
  | O, _ => s
  | S n', String _ s' => drop n' s'
  | S _, EmptyString => EmptyString
  end.

Fixpoint replace_fuel (fuel : nat) (old new s : string) : string :=
  match fuel with
  | O => s
  | S fuel' =>
      match s with
      | EmptyString => EmptyString
      | String c s' =>
          if prefixb old s
          then (new ++ replace_fuel fuel' old new (drop (String.length old) s))%string
          else String c (replace_fuel fuel' old new s')
      end
  end.

Definition str_replace (old new s : string) : string :=
  replace_fuel (String.length s) old new s.

(** ** Dictionaries with string keys, in insertion order *)

Definition dict (V : Type) : Type := list (string * V).

Fixpoint dict_get {V} (d : dict V) (k : string) : option V :=
  match d with
  | [] => None
  | (k', v) :: d' => if String.eqb k k' then Some v else dict_get d' k
  end.

(** [d[k] = v]: an existing key keeps its position, a new key goes last. *)
Fixpoint dict_set {V} (d : dict V) (k : string) (v : V) : dict V :=
  match d with
  | [] => [(k, v)]
  | (k', v') :: d' =>
      if String.eqb k k' then (k', v) :: d' else (k', v') :: dict_set d' k v
  end.

(** [a | b] *)
Definition dict_union {V} (a b : dict V) : dict V :=
  fold_left (fun acc kv => dict_set acc (fst kv) (snd kv)) b a.

Definition dict_keys {V} (d : dict V) : list string := map fst d.

Definition dict_get_default {V} (d : dict V) (k : string) (dflt : V) : V :=
  match dict_get d k with
  | Some v => v
  | None => dflt
  end.

(** ** Regular expressions ([re.compile], [re.match])

    Only the constructs of the two patterns of the package are needed:
    literals, [.], alternation, concatenation, [*] and [+].  Matching is
    by derivatives; [re_match] succeeds when some prefix of the subject
    is in the language, which is when [pattern.match(s) is not None]. *)

Inductive regex : Type :=
| Void
| Eps
| Chr (c : ascii)
| Dot
| Cat (r1 r2 : regex)
| Alt (r1 r2 : regex)
| Star (r : regex).

Definition Plus (r : regex) : regex := Cat r (Star r).

Fixpoint Lit (s : string) : regex :=
  match s with
  | EmptyString => Eps
  | String c s' => Cat (Chr c) (Lit s')
  end.

Fixpoint nullable (r : regex) : bool :=
  match r with
  | Void => false
  | Eps => true
  | Chr _ => false
  | Dot => false
  | Cat r1 r2 => nullable r1 && nullable r2
  | Alt r1 r2 => nullable r1 || nullable r2
  | Star _ => true
  end.

Definition newline : ascii := Ascii.ascii_of_nat 10.

Definition cat (r1 r2 : regex) : regex :=
  match r1, r2 with
  | Void, _ => Void
  | _, Void => Void
  | Eps, _ => r2
  | _, _ => Cat r1 r2
  end.

Definition alt (r1 r2 : regex) : regex :=
  match r1, r2 with
  | Void, _ => r2
  | _, Void => r1
  | _, _ => Alt r1 r2
  end.

Fixpoint deriv (a : ascii) (r : regex) : regex :=
  match r with
  | Void => Void
  | Eps => Void
  | Chr c => if Ascii.eqb a c then Eps else Void
  | Dot => if Ascii.eqb a newline then Void else Eps
  | Cat r1 r2 =>
      if nullable r1
      then alt (cat (deriv a r1) r2) (deriv a r2)
      else cat (deriv a r1) r2
  | Alt r1 r2 => alt (deriv a r1) (deriv a r2)
  | Star r1 => cat (deriv a r1) (Star r1)
  end.

Fixpoint re_match (r : regex) (s : string) : bool :=
  nullable r ||
  match s with
  | EmptyString => false
  | String a s' => re_match (deriv a r) s'
  end.

(** The strings a regular expression denotes. *)
Inductive matches : regex -> string -> Prop :=
| MEps : matches Eps ""
| MChr (c : ascii) : matches (Chr c) (String c "")
| MDot (c : ascii) : c <> newline -> matches Dot (String c "")
| MCat (r1 r2 : regex) (s1 s2 : string) :
    matches r1 s1 -> matches r2 s2 -> matches (Cat r1 r2) (s1 ++ s2)
| MAltL (r1 r2 : regex) (s : string) :
    matches r1 s -> matches (Alt r1 r2) s
| MAltR (r1 r2 : regex) (s : string) :
    matches r2 s -> matches (Alt r1 r2) s
| MStarNil (r : regex) : matches (Star r) ""
| MStarApp (r : regex) (s1 s2 : string) :
    matches r s1 -> matches (Star r) s2 -> matches (Star r) (s1 ++ s2).

(** The group "(http|https|ftp|sftp)". *)
Definition protocol : regex :=
  Alt (Lit "http") (Alt (Lit "https") (Alt (Lit "ftp") (Lit "sftp"))).

(** The pattern "filecache::(http|https|ftp|sftp)+://.*({t:.*}).*" of
    [make_downloader]; the copy in [_check_url_valid] starts with a
    caret, which changes nothing under [match]. *)
Definition protocol_pattern : regex :=
  Cat (Lit "filecache::")
   (Cat (Plus protocol)
    (Cat (Lit "://")
     (Cat (Star Dot)
      (Cat (Cat (Lit "{t:") (Cat (Star Dot) (Lit "}")))
           (Star Dot))))).

(** ** The configuration mapping ([**kwargs], [config]) *)

Record TimeProps : Type := mkTimeProps {
  freq : option Timedelta   (* [time.freq], after [pd.to_timedelta] *)
}.

Record Config : Type := mkConfig {
  cfg_url : option string;
  storage_options : option (dict string);
  metadata : option (dict string);
  time : option TimeProps;
  variables : option (list string)
}.

(** [kwargs] of [__init__(self, url, **kwargs)] called with the whole
    configuration unpacked:
    the [url] entry is bound to the parameter and leaves the mapping. *)
Definition without_url (c : Config) : Config :=
  mkConfig None (storage_options c) (metadata c) (time c) (variables c).

(** ** The world: the local disk and a log of what the collaborators did *)

Inductive event : Type :=
| EvGlob (url : string)
| EvExists (url : string)
| EvTransfer (url local : string)
| EvOpenDataset (url : string)
| EvCompute (t : Timestamp)
| EvToNetcdf (path : string).

Record world : Type := mkWorld {
  log : list event;
  disk : list string
}.

Definition on_disk (w : world) (path : string) : bool :=
  existsb (String.eqb path) (disk w).

Definition emit (e : event) (w : world) : world :=
  mkWorld (log w ++ [e]) (disk w).

Definition create_file (path : string) (w : world) : world :=
  mkWorld (log w) (if on_disk w path then disk w else disk w ++ [path]).

(** The remote filesystem object ([fsspec.AbstractFileSystem]): what its
    [glob] lists and what [exists] answers. *)
Record RemoteFS : Type := mkRemoteFS {
  fs_glob : string -> list string;
  fs_exists : string -> bool
}.

(** A dataset as far as the fetcher looks at it: its source and the
    samples of its time axis. *)
Record Dataset : Type := mkDataset {
  ds_source : string;
  ds_vars : list string;
  ds_time : list Timestamp
}.

(** The library functions the package calls. *)
Record Collaborators : Type := mkCollaborators {
  (** [template.format(t=t, **(kwargs | kwargs.get('metadata', {})))],
      for the templates that [str.format] renders; a template with an
      unknown field or an unclosed brace, on which it raises, is not
      covered *)
  format : Config -> string -> Timestamp -> string;
  (** [pd.Timestamp(s)] *)
  pd_Timestamp : string -> Timestamp;
  (** [fsspec.url_to_fs(url, **storage_options)]; it raises when it
      cannot resolve the URL, on a protocol it does not know among
      other things *)
  url_to_fs : string -> dict string -> result (RemoteFS * string);
  (** the file a caching filesystem keeps for a remote reference, under
      the given options (among them [cache_storage] and [same_names]) *)
  cached_name : dict string -> string -> string;
  (** [str(pathlib.Path(s))] *)
  path_str : string -> string;
  (** [xr.open_dataset(url, engine='pydap')] *)
  xr_open_dataset : string -> result Dataset;
  (** [cmems_opener]: [dotenv] and [copernicusmarine.open_dataset] *)
  cm_open_dataset : string -> result Dataset
}.

(** Modelled from the spec: the caching remote filesystem behind
    [fsspec.open_local], a library outside the package.  Each remote
    reference is copied unless its cached file is there already, and
    the cached files are returned in the order asked. *)
Definition ensure_local (env : Collaborators) (opts : dict string) (url : string)
  : M world string :=
  fun w =>
    let p := cached_name env opts url in
    if on_disk w p then (Ok p, w)
    else (Ok p, create_file p (emit (EvTransfer url p) w)).

Fixpoint open_local (env : Collaborators) (urls : list string) (opts : dict string)
  : M world (list string) :=
  match urls with
  | [] => ret []
  | u :: us =>
      p <- ensure_local env opts u ;;
      ps <- open_local env us opts ;;
      ret (p :: ps)
  end.

(** What [download] accepts as [times]. *)
Inductive times_arg : Type :=
| TimesStr (s : string)
| TimesTimestamp (t : Timestamp)
| TimesList (l : list Timestamp)
| TimesIndex (l : list Timestamp)
| TimesOther.

(** [times[0]] and [times[-1]] *)
Definition first_item {S} (l : list Timestamp) : M S Timestamp :=
  match l with
  | [] => raise (IndexError "list index out of range")
  | t :: _ => ret t
  end.

Definition last_item {S} (l : list Timestamp) : M S Timestamp :=
  match l with
  | [] => raise (IndexError "list index out of range")
  | t :: l' => ret (last l' t)
  end.

(** * download_https.py *)

Module Fsspec.

Record DownloaderFsspec : Type := mkDownloaderFsspec {
  url : string;
  _kwargs : Config;
  _fs : RemoteFS;
  _url : string
}.

Section Methods.
Variable env : Collaborators.

Definition _check_url_valid {S} (u : string) : M S unit :=
  py_assert (negb (String.eqb u "")) "url must be defined in the kwargs" ;;;
  py_assert (re_match protocol_pattern u)
    "url must have the format filecache::[protocol]://[path that contains {t:...}]".

Definition _get_fs {S} (kwargs : Config) (u : string)
  : M S (RemoteFS * string) :=
  let so := match storage_options kwargs with
            | Some d => d
            | None => []
            end in
  match url_to_fs env u so with
  | Ok r => ret r
  | Raise e => raise e
  end.

(** The filesystem is resolved first, the URL validated after. *)
Definition __init__ {S} (u : string) (kwargs : Config) : M S DownloaderFsspec :=
  r <- _get_fs kwargs u ;;
  _check_url_valid u ;;;
  ret (mkDownloaderFsspec u kwargs (fst r) (snd r)).

Definition _get_remote_path_if_exists (self : DownloaderFsspec)
    (u prefix : string) (force_check : bool) : M world (option string) :=
  if str_in "*" u then
    modify (emit (EvGlob u)) ;;;
    match fs_glob (_fs self) u with
    | [] => ret None
    | f :: _ => ret (Some (prefix ++ f)%string)
    end
  else if force_check then
    modify (emit (EvExists u)) ;;;
    if fs_exists (_fs self) u then ret (Some (prefix ++ u)%string)
    else ret None
  else ret (Some (prefix ++ u)%string).

Definition _make_path (self : DownloaderFsspec) (t : Timestamp)
    (check_exists : bool) : M world (option string * string) :=
  let remote :=
    str_replace "filecache::" "" (format env (_kwargs self) (url self) t) in
  remote <- _get_remote_path_if_exists self remote "filecache::" check_exists ;;
  match storage_options (_kwargs self) with
  | None | Some [] =>
      raise (ValueError "storage_options must be defined in the kwargs")
  | Some so =>
      let local :=
        format env (_kwargs self) (dict_get_default so "cache_storage" "") t in
      if String.eqb local "" then
        raise (ValueError
                 "storage_options.cache_storage must be defined in the kwargs")
      else ret (remote, local)
  end.

(** The loop of [_get_t0_for_strided_dates]: the first probed day whose
    remote reference is not [None] is returned at once. *)
Fixpoint probe_dates (self : DownloaderFsspec) (dates : list Timestamp)
  : M world (option Timestamp) :=
  match dates with
  | [] => ret None
  | t :: dates' =>
      rl <- _make_path self t true ;;
      match fst rl with
      | Some _ => ret (Some t)
      | None => probe_dates self dates'
      end
  end.

Definition _get_t0_for_strided_dates (self : DownloaderFsspec) (t0 : Timestamp)
  : M world Timestamp :=
  match time (_kwargs self) with
  | None => raise (ValueError "time must be defined in the kwargs")
  | Some time_props =>
      match freq time_props with
      | None => raise (ValueError "time.freq must be defined in the kwargs")
      | Some f =>
          let dt := f * 2 in
          let dates := date_range t0 (t0 + dt) one_day in
          found <- probe_dates self dates ;;
          match found with
          | Some t => ret t
          | None => raise (ValueError "No data found between")
          end
      end
  end.

Definition _make_times_strided (self : DownloaderFsspec) (t0 t1 : Timestamp)
  : M world (list Timestamp) :=
  match time (_kwargs self) with
  | None => raise (TypeError "argument of type 'NoneType' is not iterable")
  | Some time_props =>
      match freq time_props with
      | None => raise (ValueError "time.freq must be defined in the kwargs")
      | Some f =>
          if f <? one_day then
            raise (ValueError "time.freq must be at least 1 day")
          else if f =? one_day then
            ret (date_range t0 t1 one_day)
          else
            t0' <- _get_t0_for_strided_dates self t0 ;;
            ret (date_range t0' t1 f)
      end
  end.

(** The loop of [_download_batches]; [storage_options] is the one
    mapping that every round updates in place. *)
Fixpoint fetch_groups (batches : dict (list string)) (so : dict string)
    (flist : list string) : M world (list string) :=
  match batches with
  | [] => ret flist
  | (local, urls) :: rest =>
      let so' := dict_set so "cache_storage" local in
      got <- open_local env urls so' ;;
      fetch_groups rest so' (flist ++ got)
  end.

Definition _download_batches (self : DownloaderFsspec)
    (batches : dict (list string)) : M world (list string) :=
  match storage_options (_kwargs self) with
  | None => raise (ValueError "storage_options must be defined in the kwargs")
  | Some so =>
      let storage_default := [("same_names", "True")] in
      fetch_groups batches (dict_union storage_default so) []
  end.

(** The loop of [_make_batch] over the enumerated timestamps. *)
Fixpoint group_by_local (self : DownloaderFsspec) (times : list Timestamp)
    (batch : dict (list string)) : M world (dict (list string)) :=
  match times with
  | [] => ret batch
  | t :: times' =>
      rl <- _make_path self t false ;;
      match rl with
      | (Some remote, local) =>
          group_by_local self times'
            (dict_set batch local (dict_get_default batch local [] ++ [remote]))
      | (None, _) => group_by_local self times' batch
      end
  end.

Definition normalise_times {S} (times : times_arg) : M S (list Timestamp) :=
  match times with
  | TimesStr s => ret [pd_Timestamp env s]
  | TimesTimestamp t => ret [t]
  | TimesList l => ret l
  | TimesIndex l => ret l
  | TimesOther =>
      raise (ValueError
               "times must be a string, a pd.Timestamp or a list of pd.Timestamp")
  end.

Definition _make_batch (self : DownloaderFsspec) (times : times_arg)
  : M world (dict (list string)) :=
  times <- normalise_times times ;;
  t0 <- first_item times ;;
  t1 <- last_item times ;;
  times <- _make_times_strided self t0 t1 ;;
  group_by_local self times [].

Definition download (self : DownloaderFsspec) (times : times_arg)
  : M world (list string) :=
  batch <- _make_batch self times ;;
  _download_batches self batch.

End Methods.
End Fsspec.

(** * download_xarray.py *)

Module Xarray.

(** The [data_opener] argument; the package passes one of its two
    openers, a caller may pass any function. *)
Inductive Callable : Type :=
| pydap_opener
| cmems_opener
| callable (f : string -> result Dataset).

(** What [self._previous_fname] can hold: the string [''] or a
    [pathlib.Path]. *)
Inductive fname_value : Type :=
| EmptyStr
| PathValue (p : string).

Record DownloaderXarray : Type := mkDownloaderXarray {
  data_opener : Callable;
  _kwargs : Config;
  _data : option Dataset;
  _data_all_vars : option Dataset;
  _previous_fname : option fname_value   (* [None]: attribute not set *)
}.

(** The object and the world it runs in. *)
Record state : Type := mkState {
  self : DownloaderXarray;
  outside : world
}.

Definition set_data_all_vars (d : Dataset) (s : state) : state :=
  let o := self s in
  mkState (mkDownloaderXarray (data_opener o) (_kwargs o) (_data o) (Some d)
             (_previous_fname o)) (outside s).

Definition set_data (d : Dataset) (s : state) : state :=
  let o := self s in
  mkState (mkDownloaderXarray (data_opener o) (_kwargs o) (Some d)
             (_data_all_vars o) (_previous_fname o)) (outside s).

Definition set_previous_fname (v : fname_value) (s : state) : state :=
  let o := self s in
  mkState (mkDownloaderXarray (data_opener o) (_kwargs o) (_data o)
             (_data_all_vars o) (Some v)) (outside s).

Definition in_world (f : world -> world) (s : state) : state :=
  mkState (self s) (f (outside s)).

(** 2000-01-01 and 2000-01-09, the bounds of the validation range. *)
Definition t_2000_01_01 : Timestamp := days 10957.
Definition t_2000_01_09 : Timestamp := days 10965.

(** Modelled from the spec: nearest-neighbour selection along the time
    axis, which the package leaves to [ds.sel(time=[t],
    method='nearest')].  The sample at the least distance is taken, on
    a sorted axis the later one of two at equal distance. *)
Definition closer (t a b : Timestamp) : Timestamp :=
  if Z.abs (b - t) <? Z.abs (a - t) then b
  else if (Z.abs (b - t) =? Z.abs (a - t)) && (a <? b) then b
  else a.

Definition nearest (axis : list Timestamp) (t : Timestamp) : option Timestamp :=
  match axis with
  | [] => None
  | a :: axis' => Some (fold_left (closer t) axis' a)
  end.

Section Methods.
Variable env : Collaborators.

Definition call_opener (f : Callable) (u : string) : result Dataset :=
  match f with
  | pydap_opener => xr_open_dataset env u
  | cmems_opener => cm_open_dataset env u
  | callable g => g u
  end.

Definition _check_cache_storage_path_valid {S} (kwargs : Config) : M S unit :=
  match storage_options kwargs with
  | None | Some [] =>
      raise (ValueError "storage_options must be defined in the kwargs")
  | Some so =>
      let fname := dict_get_default so "cache_storage" "" in
      py_assert (negb (String.eqb fname ""))
        "storage_options.cache_storage must be defined in the kwargs" ;;;
      py_assert (str_in "{t:" fname)
        "storage_options.cache_storage must contain '{t:...}'" ;;;
      let dates := date_range t_2000_01_01 t_2000_01_09 one_day in
      let flist := nodup string_dec (map (format env kwargs fname) dates) in
      py_assert (Nat.eqb (List.length flist) (List.length dates))
        "storage_options.cache_storage must return a unique file for each day"
  end.

Definition __init__ {S} (opener : Callable) (kwargs : Config)
  : M S DownloaderXarray :=
  _check_cache_storage_path_valid kwargs ;;;
  ret (mkDownloaderXarray opener kwargs None None None).

(** The result is the string of the [pathlib.Path]. *)
Definition _make_local_path (t : Timestamp) : M state string :=
  s <- get ;;
  let kwargs := _kwargs (self s) in
  match storage_options kwargs with
  | None | Some [] =>
      raise (ValueError "storage_options must be defined in the kwargs")
  | Some so =>
      let fname :=
        format env kwargs (dict_get_default so "cache_storage" "") t in
      if String.eqb fname "" then
        raise (ValueError
                 "storage_options.cache_storage must be defined in the kwargs")
      else ret (path_str env fname)
  end.

(** [self._data_all_vars[vars]] *)
Definition subset {S} (d : Dataset) (vars : list string) : M S Dataset :=
  if forallb (fun v => existsb (String.eqb v) (ds_vars d)) vars
  then ret (mkDataset (ds_source d) vars (ds_time d))
  else raise (KeyError "No variable named").

(** The property [data]. *)
Definition data : M state Dataset :=
  s <- get ;;
  match _data (self s) with
  | Some d => ret d
  | None =>
      let kwargs := _kwargs (self s) in
      match cfg_url kwargs with
      | None => raise (KeyError "url")
      | Some u =>
          modify (in_world (emit (EvOpenDataset u))) ;;;
          match call_opener (data_opener (self s)) u with
          | Raise e => raise e
          | Ok all_vars =>
              modify (set_data_all_vars all_vars) ;;;
              let vars := match variables kwargs with
                          | Some l => l
                          | None => []
                          end in
              py_assert (Nat.ltb 0 (List.length vars))
                "variables must be defined in config" ;;;
              d <- subset all_vars vars ;;
              modify (set_data d) ;;;
              ret d
          end
      end
  end.

Definition _get_data (t : Timestamp) : M state Dataset :=
  d <- data ;;
  match nearest (ds_time d) t with
  | None => raise (KeyError "not all values found in index 'time'")
  | Some t' => ret (mkDataset (ds_source d) (ds_vars d) [t'])
  end.

(** [fname != self._previous_fname] for a [pathlib.Path] on the left: a
    path is never equal to a string. *)
Definition path_differs (fname : string) (prev : fname_value) : bool :=
  match prev with
  | EmptyStr => true
  | PathValue p => negb (String.eqb fname p)
  end.

Definition _download_single_timestep (t : Timestamp) : M state string :=
  modify (set_previous_fname EmptyStr) ;;;
  ds <- _get_data t ;;
  t_out <- first_item (ds_time ds) ;;
  fname <- _make_local_path t_out ;;
  s <- get ;;
  match _previous_fname (self s) with
  | None => raise (AttributeError "_previous_fname")
  | Some prev =>
      (if on_disk (outside s) fname && path_differs fname prev
       then ret tt
       else
         modify (in_world (emit (EvCompute t_out))) ;;;
         modify (in_world (emit (EvToNetcdf fname))) ;;;
         modify (in_world (create_file fname))) ;;;
      modify (set_previous_fname (PathValue fname)) ;;;
      ret fname
  end.

Definition normalise_times {S} (times : times_arg) : M S (list Timestamp) :=
  match times with
  | TimesStr s => ret [pd_Timestamp env s]
  | TimesTimestamp t => ret [t]
  | TimesList l => ret l
  | TimesIndex l => ret l
  | TimesOther =>
      raise (ValueError
               "times must be a string, a pd.Timestamp or a list of pd.Timestamp")
  end.

Fixpoint download_each (times : list Timestamp) (flist : list string)
  : M state (list string) :=
  match times with
  | [] => ret flist
  | t :: times' =>
      fname <- _download_single_timestep t ;;
      download_each times' (flist ++ [fname])
  end.

Definition download (times : times_arg) : M state (list string) :=
  times <- normalise_times times ;;
  download_each times [].

End Methods.
End Xarray.

(** * utils.py *)

Module Utils.

Inductive Downloader : Type :=
| IsFsspec (d : Fsspec.DownloaderFsspec)
| IsXarray (d : Xarray.DownloaderXarray).

Section Dispatch.
Variable env : Collaborators.

Definition make_downloader {S} (config : Config) : M S Downloader :=
  match cfg_url config with
  | None => raise (ValueError "config must contain the key 'url'")
  | Some u =>
      match storage_options config with
      | None =>
          raise (ValueError "config must contain the key 'storage_options'")
      | Some _ =>
          let is_fsspec_compatible := re_match protocol_pattern u in
          let is_thredds_compatible := str_in "thredds" u in
          let is_cmems_dataset := negb (str_in "/" u) in
          if is_fsspec_compatible then
            d <- Fsspec.__init__ env u (without_url config) ;;
            ret (IsFsspec d)
          else if is_thredds_compatible || is_cmems_dataset then
            if is_thredds_compatible then
              d <- Xarray.__init__ env Xarray.pydap_opener config ;;
              ret (IsXarray d)
            else if is_cmems_dataset then
              d <- Xarray.__init__ env Xarray.cmems_opener config ;;
              ret (IsXarray d)
            else raise (ValueError "An impossible situation has occured")
          else
            raise (TypeError "URL is not compatible with any known downloader")
      end
  end.

End Dispatch.
End Utils.

(** * A concrete set of collaborators

    Enough of the libraries to run the package on examples: calendar
    dates, templates whose replacement fields are [{t:...}] with the
    directives %Y, %m, %d, %H and %j, a remote archive given by the list
    of its files, and a cache that keeps a file under its own name. *)

Module Demo.

(** Days since the epoch to (year, month, day) and back, in the
    proleptic Gregorian calendar. *)
Definition civil_of_days (z : Z) : Z * Z * Z :=
  let z := z + 719468 in
  let era := z / 146097 in
  let doe := z - era * 146097 in
  let yoe := (doe - doe / 1460 + doe / 36524 - doe / 146096) / 365 in
  let y := yoe + era * 400 in
  let doy := doe - (365 * yoe + yoe / 4 - yoe / 100) in
  let mp := (5 * doy + 2) / 153 in
  let d := doy - (153 * mp + 2) / 5 + 1 in
  let m := if mp <? 10 then mp + 3 else mp - 9 in
  (if m <=? 2 then y + 1 else y, m, d).

Definition days_of_civil (y m d : Z) : Z :=
  let y := if m <=? 2 then y - 1 else y in
  let era := y / 400 in
  let yoe := y - era * 400 in
  let doy := (153 * (if 2 <? m then m - 3 else m + 9) + 2) / 5 + d - 1 in
  let doe := yoe * 365 + yoe / 4 - yoe / 100 + doy in
  era * 146097 + doe - 719468.

(** A timestamp from its calendar fields. *)
Definition at_time (y m d h : Z) : Timestamp :=
  days (days_of_civil y m d) + h * 3600000000000.

Definition on_day (y m d : Z) : Timestamp := at_time y m d 0.

Fixpoint zero_padded (width : nat) (n : Z) : string :=
  match width with
  | O => ""
  | S w =>
      (zero_padded w (n / 10)
       ++ String (Ascii.ascii_of_nat (48 + Z.to_nat (n mod 10))) "")%string
  end.

Definition directive (c : ascii) (t : Timestamp) : string :=
  let dn := t / one_day in
  let '(y, m, d) := civil_of_days dn in
  if Ascii.eqb c "Y" then zero_padded 4 y
  else if Ascii.eqb c "m" then zero_padded 2 m
  else if Ascii.eqb c "d" then zero_padded 2 d
  else if Ascii.eqb c "H" then zero_padded 2 ((t mod one_day) / 3600000000000)
  else if Ascii.eqb c "j" then zero_padded 3 (dn - days_of_civil y 1 1 + 1)
  else String "%" (String c "").

(** [t.strftime(spec)] up to the closing brace; the rest of the
    template is returned with the text. *)
Fixpoint strftime (spec : string) (t : Timestamp) : string * string :=
  match spec with
  | EmptyString => ("", "")
  | String "}" rest => ("", rest)
  | String "%" (String c rest) =>
      let (out, rest') := strftime rest t in
      ((directive c t ++ out)%string, rest')
  | String c rest =>
      let (out, rest') := strftime rest t in
      (String c out, rest')
  end.

Fixpoint format_fuel (fuel : nat) (template : string) (t : Timestamp) : string :=
  match fuel with
  | O => ""
  | S fuel' =>
      match template with
      | EmptyString => ""
      | String c rest =>
          if prefixb "{t:" template then
            let (out, rest') := strftime (drop 3 template) t in
            (out ++ format_fuel fuel' rest' t)%string
          else String c (format_fuel fuel' rest t)
      end
  end.

Definition format (_ : Config) (template : string) (t : Timestamp) : string :=
  format_fuel (String.length template) template t.

Definition digit (c : ascii) : Z := Z.of_nat (Ascii.nat_of_ascii c) - 48.

(** [pd.Timestamp] of a date written YYYY-MM-DD. *)
Definition pd_Timestamp (s : string) : Timestamp :=
  match s with
  | String y1 (String y2 (String y3 (String y4 (String _
      (String m1 (String m2 (String _ (String d1 (String d2 _))))))))) =>
      on_day (1000 * digit y1 + 100 * digit y2 + 10 * digit y3 + digit y4)
             (10 * digit m1 + digit m2) (10 * digit d1 + digit d2)
  | _ => 0
  end.

(** Shell-style patterns: [*] stands for any run of characters. *)
Fixpoint glob_regex (pattern : string) : regex :=
  match pattern with
  | EmptyString => Eps
  | String c rest =>
      Cat (if Ascii.eqb c "*" then Star Dot else Chr c) (glob_regex rest)
  end.

Fixpoint re_fullmatch (r : regex) (s : string) : bool :=
  match s with
  | EmptyString => nullable r
  | String a s' => re_fullmatch (deriv a r) s'
  end.

(** The remote filesystem over an archive holding [files]. *)
Definition remote_fs (files : list string) : RemoteFS :=
  mkRemoteFS
    (fun pattern => filter (re_fullmatch (glob_regex pattern)) files)
    (fun u => existsb (String.eqb u) files).

Fixpoint basename_from (s acc : string) : string :=
  match s with
  | EmptyString => acc
  | String c rest =>
      if Ascii.eqb c "/" then basename_from rest rest else basename_from rest acc
  end.

Definition basename (s : string) : string := basename_from s s.

(** With [same_names] the cached file keeps the name of the remote one,
    inside the directory [cache_storage]. *)
Definition cached_name (opts : dict string) (u : string) : string :=
  (dict_get_default opts "cache_storage" "" ++ "/" ++ basename u)%string.

(** What stands before the first [://] of a URL, if there is one. *)
Fixpoint protocol_of (u : string) : option string :=
  match u with
  | EmptyString => None
  | String c u' =>
      if prefixb "://" u then Some ""
      else option_map (String c) (protocol_of u')
  end.

(** The protocols this stand-in for fsspec knows. *)
Definition known_protocols : list string :=
  ["http"; "https"; "ftp"; "sftp"; "file"].

(** [fsspec.url_to_fs] over an archive holding [files]: a URL without a
    protocol is a local path, a protocol that is not known raises. *)
Definition url_to_fs (files : list string) (u : string) (so : dict string)
  : result (RemoteFS * string) :=
  let target := str_replace "filecache::" "" u in
  match protocol_of target with
  | Some p =>
      if existsb (String.eqb p) known_protocols
      then Ok (remote_fs files, target)
      else Raise (ValueError "Protocol not known")
  | None => Ok (remote_fs files, target)
  end.

(** A dataset with the variable [sst] on the given time axis. *)
Definition dataset (axis : list Timestamp) (u : string) : result Dataset :=
  Ok (mkDataset u ["sst"] axis).

Definition env (files : list string) (axis : list Timestamp) : Collaborators :=
  mkCollaborators
    format
    pd_Timestamp
    (url_to_fs files)
    cached_name
    (fun s => s)
    (dataset axis)
    (dataset axis).

(** A descriptor with the given templates and cadence. *)
Definition config (u cache : string) (f : option Timedelta) : Config :=
  mkConfig (Some u) (Some [("cache_storage", cache)]) None
           (option_map (fun d => mkTimeProps (Some d)) f) (Some ["sst"]).

(** The Path-Template fetcher built from that descriptor over an
    archive holding [files]. *)
Definition fsspec (files : list string) (u cache : string)
    (f : option Timedelta) : Fsspec.DownloaderFsspec :=
  Fsspec.mkDownloaderFsspec u (without_url (config u cache f))
    (remote_fs files) (str_replace "filecache::" "" u).

(** The Dataset-Slice fetcher built from that descriptor, not yet
    opened. *)
Definition xarray (u cache : string) : Xarray.DownloaderXarray :=
  Xarray.mkDownloaderXarray Xarray.pydap_opener (config u cache None)
    None None None.

Definition empty_world : world := mkWorld [] [].

(** An archive of eight-day composites whose first file is that of
    3 January 2021. *)
Definition composites : list string :=
  ["https://host/20210103.nc"; "https://host/20210111.nc";
   "https://host/20210119.nc"; "https://host/20210127.nc"].

Definition composite_fetcher : Fsspec.DownloaderFsspec :=
  fsspec composites "filecache::https://host/{t:%Y%m%d}.nc" "/cache/{t:%Y}"
         (Some (days 8)).

(** A daily archive, one versioned file a day, with no file for
    31 January 2021. *)
Definition dailies : list string :=
  ["https://host/20210130_v2.nc"; "https://host/20210130_v1.nc";
   "https://host/20210201_v1.nc"].

Definition daily_fetcher : Fsspec.DownloaderFsspec :=
  fsspec dailies "filecache::https://host/{t:%Y%m%d}_*.nc" "/cache/{t:%Y%m}"
         (Some one_day).

End Demo.

(** * Pure views of what the methods compute

    The methods run in the monad; the functions below say what they
    return and what they ask of the remote filesystem, as plain
    functions of the object.  The section on properties proves that the
    methods agree with them. *)

Definition add_events (evs : list event) (w : world) : world :=
  mkWorld (log w ++ evs) (disk w).

(** Listing and existence probes move no data. *)
Definition is_probe (e : event) : Prop :=
  match e with
  | EvGlob _ | EvExists _ => True
  | _ => False
  end.

(** A computation that only consults the remote filesystem: its result
    and the probes it makes are the same from every world. *)
Definition only_probes {A} (m : M world A) : Prop :=
  exists (r : result A) (evs : list event),
    Forall is_probe evs /\ forall w, m w = (r, add_events evs w).

Definition is_some {A} (o : option A) : bool :=
  match o with
  | Some _ => true
  | None => false
  end.

Module FsspecView.
Import Fsspec.

Section Views.
Variable env : Collaborators.
Variable self : DownloaderFsspec.

Definition has_storage_options : bool :=
  match storage_options (_kwargs self) with
  | None | Some [] => false
  | Some _ => true
  end.

Definition cache_template : string :=
  match storage_options (_kwargs self) with
  | Some so => dict_get_default so "cache_storage" ""
  | None => ""
  end.

(** The local path rendered for [t]. *)
Definition local_path (t : Timestamp) : string :=
  format env (_kwargs self) cache_template t.

(** The remote path rendered for [t], without the [filecache::] prefix. *)
Definition rendered_remote (t : Timestamp) : string :=
  str_replace "filecache::" "" (format env (_kwargs self) (url self) t).

(** The remote reference of [t], [None] when absent. *)
Definition remote_ref (check_exists : bool) (t : Timestamp) : option string :=
  let u := rendered_remote t in
  if str_in "*" u then
    option_map (append "filecache::") (hd_error (fs_glob (_fs self) u))
  else if check_exists && negb (fs_exists (_fs self) u) then None
  else Some ("filecache::" ++ u)%string.

(** The calls to the remote filesystem made to resolve [t]. *)
Definition remote_calls (check_exists : bool) (t : Timestamp) : list event :=
  let u := rendered_remote t in
  if str_in "*" u then [EvGlob u]
  else if check_exists then [EvExists u]
  else [].

Definition present (t : Timestamp) : bool := is_some (remote_ref false t).

(** The remote references, in the order of [times], of the timestamps
    that are present and whose local path is [k]. *)
Definition refs_for (times : list Timestamp) (k : string) : list string :=
  flat_map (fun t =>
              match remote_ref false t with
              | Some r => if String.eqb (local_path t) k then [r] else []
              | None => []
              end) times.

(** One round of the loop of [_make_batch]. *)
Definition add_ref (batch : dict (list string)) (t : Timestamp)
  : dict (list string) :=
  match remote_ref false t with
  | Some r =>
      dict_set batch (local_path t)
        (dict_get_default batch (local_path t) [] ++ [r])
  | None => batch
  end.

(** The cached files of the groups, under the options of the loop. *)
Definition group_files (so : dict string) (batches : dict (list string))
  : list string :=
  flat_map (fun kv =>
              map (cached_name env (dict_set so "cache_storage" (fst kv)))
                  (snd kv)) batches.

(** The cached files of a batch as [_download_batches] asks for them:
    the options of the descriptor on top of the default
    [same_names], each group under its own [cache_storage]. *)
Definition cached_files (batch : dict (list string)) : list string :=
  let so := match storage_options (_kwargs self) with
            | Some so => so
            | None => []
            end in
  group_files (dict_union [("same_names", "True")] so) batch.

(** The days probed by cadence detection from [t0] at cadence [f]. *)
Definition probe_window (t0 : Timestamp) (f : Timedelta) : list Timestamp :=
  date_range t0 (t0 + f * 2) one_day.

Definition resolves (t : Timestamp) : bool := is_some (remote_ref true t).

(** The days the probing loop visits: up to the first that resolves. *)
Fixpoint probed (dates : list Timestamp) : list Timestamp :=
  match dates with
  | [] => []
  | t :: dates' => t :: (if resolves t then [] else probed dates')
  end.

End Views.

(** The number of remote references in a batch. *)
Definition total_refs (batch : dict (list string)) : nat :=
  List.length (List.concat (map snd batch)).
End FsspecView.

Module XarrayView.
Import Xarray.

Section Views.
Variable env : Collaborators.

Definition has_storage_options (kwargs : Config) : bool :=
  match storage_options kwargs with
  | None | Some [] => false
  | Some _ => true
  end.

Definition cache_template (kwargs : Config) : string :=
  match storage_options kwargs with
  | Some so => dict_get_default so "cache_storage" ""
  | None => ""
  end.

(** The cache-storage template rendered for [t]. *)
Definition rendered (kwargs : Config) (t : Timestamp) : string :=
  format env kwargs (cache_template kwargs) t.

(** The nine days on which the constructor renders the template. *)
Definition nine_days : list Timestamp :=
  date_range t_2000_01_01 t_2000_01_09 one_day.

(** The events of one materialization: the slice is computed, then
    written. *)
Definition is_materialization (e : event) : Prop :=
  match e with
  | EvCompute _ | EvToNetcdf _ | EvTransfer _ _ => True
  | _ => False
  end.

Definition quiet (evs : list event) : Prop :=
  Forall (fun e => ~ is_materialization e) evs.

(** The dataset the fetcher works on in state [s]: the one it holds,
    or the one it would open. *)
Definition source (s : state) : result Dataset := fst (data env s).

(** What a request for [t] returns, given the dataset and the
    descriptor: the path rendered for the nearest sample. *)
Definition target (d : result Dataset) (kwargs : Config) (t : Timestamp)
  : result string :=
  match d with
  | Raise e => Raise e
  | Ok d =>
      match nearest (ds_time d) t with
      | None => Raise (KeyError "not all values found in index 'time'")
      | Some t_out =>
          if has_storage_options kwargs then
            if String.eqb (rendered kwargs t_out) "" then
              Raise (ValueError
                "storage_options.cache_storage must be defined in the kwargs")
            else Ok (path_str env (rendered kwargs t_out))
          else Raise (ValueError "storage_options must be defined in the kwargs")
      end
  end.

(** The list [download] returns from the outcomes of its requests: the
    paths in request order, or the first exception. *)
Fixpoint collect (outcomes : list (result string)) (flist : list string)
  : result (list string) :=
  match outcomes with
  | [] => Ok flist
  | Ok p :: rest => collect rest (flist ++ [p])
  | Raise e :: _ => Raise e
  end.

(** The paths of the requests served before the first exception. *)
Fixpoint served (outcomes : list (result string)) : list string :=
  match outcomes with
  | Ok p :: rest => p :: served rest
  | _ => []
  end.

End Views.
End XarrayView.

(** * Further views

    Plain descriptions used by the properties of the functions around
    the ones above: what an accepted URL looks like, what the log
    holds, what a dictionary of options answers. *)

(** The options [_get_fs] hands to [fsspec.url_to_fs]. *)
Definition fs_options (kwargs : Config) : dict string :=
  match storage_options kwargs with
  | Some d => d
  | None => []
  end.

(** The alternatives of the group [protocol]. *)
Definition protocol_names : list string := ["http"; "https"; "ftp"; "sftp"].

Fixpoint no_newline (s : string) : bool :=
  match s with
  | EmptyString => true
  | String c s' => negb (Ascii.eqb c newline) && no_newline s'
  end.

(** The strings of a list, one after the other. *)
Fixpoint join (l : list string) : string :=
  match l with
  | [] => ""
  | s :: l' => (s ++ join l')%string
  end.

(** The URLs that [_check_url_valid] lets through, spelled out. *)
Definition url_shape (u : string) : Prop :=
  exists (names : list string) (a b rest : string),
    names <> [] /\
    Forall (fun n => In n protocol_names) names /\
    no_newline a = true /\
    no_newline b = true /\
    u = ("filecache::" ++ join names ++ "://" ++ a ++ "{t:" ++ b ++ "}" ++ rest)%string.

Definition is_transfer (e : event) : Prop :=
  match e with
  | EvTransfer _ _ => True
  | _ => False
  end.

Definition is_open (e : event) : bool :=
  match e with
  | EvOpenDataset _ => true
  | _ => false
  end.

(** How many times the log shows a dataset being opened. *)
Definition opens (w : world) : nat := List.length (filter is_open (log w)).

(** ** Further views of the batch *)

Module BatchView.
Import Fsspec FsspecView.

(** What the loop of [_make_batch] keeps true of every group. *)
Definition well_formed_group (kv : string * list string) : Prop :=
  fst kv <> "" /\ snd kv <> [] /\
  Forall (fun r => prefixb "filecache::" r = true) (snd kv).

Section Views.
Variable env : Collaborators.
Variable self : DownloaderFsspec.

(** The batch when no two timestamps share a local path: one group per
    present timestamp. *)
Definition singles (times : list Timestamp) : dict (list string) :=
  flat_map (fun t =>
              match remote_ref env self false t with
              | Some r => [(local_path env self t, [r])]
              | None => []
              end) times.

End Views.
End BatchView.

(** * Properties *)

(** ** The monad and the containers *)

Lemma bind_ok {S A B} (m : M S A) (k : A -> M S B) (s s' : S) (a : A) :
  m s = (Ok a, s') -> bind m k s = k a s'.
Proof. intros H. unfold bind. now rewrite H. Qed.

Lemma bind_raise {S A B} (m : M S A) (k : A -> M S B) (s s' : S) (e : exn) :
  m s = (Raise e, s') -> bind m k s = (Raise e, s').
Proof. intros H. unfold bind. now rewrite H. Qed.

Lemma dict_get_set_same {V} (d : dict V) (k : string) (v : V) :
  dict_get (dict_set d k v) k = Some v.
Proof.
  induction d as [|[k' v'] d IH]; simpl.
  - now rewrite String.eqb_refl.
  - destruct (String.eqb k k') eqn:E; simpl; rewrite E; auto.
Qed.

Lemma dict_get_set_other {V} (d : dict V) (k k0 : string) (v : V) :
  k0 <> k -> dict_get (dict_set d k v) k0 = dict_get d k0.
Proof.
  intros Hne. induction d as [|[k' v'] d IH]; simpl.
  - destruct (String.eqb k0 k) eqn:E; auto.
    apply String.eqb_eq in E. contradiction.
  - destruct (String.eqb k k') eqn:E; simpl.
    + apply String.eqb_eq in E. subst k'.
      destruct (String.eqb k0 k) eqn:E0; auto.
      apply String.eqb_eq in E0. contradiction.
    + now rewrite IH.
Qed.

Lemma dict_set_set {V} (d : dict V) (k : string) (v v' : V) :
  dict_set (dict_set d k v) k v' = dict_set d k v'.
Proof.
  induction d as [|[k' v0] d IH]; simpl.
  - now rewrite String.eqb_refl.
  - destruct (String.eqb k k') eqn:E; simpl; rewrite E; auto.
    now rewrite IH.
Qed.

Lemma dict_get_default_set_same {V} (d : dict V) (k : string) (v dflt : V) :
  dict_get_default (dict_set d k v) k dflt = v.
Proof. unfold dict_get_default. now rewrite dict_get_set_same. Qed.

Lemma dict_get_default_set_other {V} (d : dict V) (k k0 : string) (v dflt : V) :
  k0 <> k -> dict_get_default (dict_set d k v) k0 dflt = dict_get_default d k0 dflt.
Proof. intros H. unfold dict_get_default. now rewrite dict_get_set_other. Qed.

Lemma add_events_nil (w : world) : add_events [] w = w.
Proof. destruct w. unfold add_events. simpl. now rewrite app_nil_r. Qed.

Lemma add_events_app (e1 e2 : list event) (w : world) :
  add_events e2 (add_events e1 w) = add_events (e1 ++ e2) w.
Proof. unfold add_events. simpl. now rewrite app_assoc. Qed.

Lemma last_cons {A} (l : list A) (a d : A) : last (a :: l) d = last l a.
Proof.
  revert a d. induction l as [|b l IH]; intros a d; [reflexivity|].
  change (last (a :: b :: l) d) with (last (b :: l) d).
  rewrite IH. symmetry. apply IH.
Qed.

(** ** [pd.date_range] *)

Lemma date_range_In (a b f x : Z) :
  0 < f ->
  In x (date_range a b f) <->
  exists k : nat, x = a + Z.of_nat k * f /\ x <= b.
Proof.
  intros Hf. unfold date_range. destruct (b <? a) eqn:E.
  - apply Z.ltb_lt in E. split; [intros []|].
    intros [k [-> Hk]]. nia.
  - apply Z.ltb_ge in E. rewrite in_map_iff. split.
    + intros [k [<- Hk]]. exists k. split; [reflexivity|].
      apply in_seq in Hk.
      assert (Hq : Z.of_nat k <= (b - a) / f).
      { assert (0 <= (b - a) / f) by (apply Z.div_pos; lia). lia. }
      assert (Hm : f * ((b - a) / f) <= b - a) by (apply Z.mul_div_le; lia).
      nia.
    + intros [k [-> Hk]]. exists k. split; [reflexivity|].
      apply in_seq. split; [lia|].
      assert (Hq : Z.of_nat k <= (b - a) / f).
      { apply Z.div_le_lower_bound; lia. }
      lia.
Qed.

Lemma date_range_sorted (a b f : Z) :
  0 < f -> StronglySorted Z.lt (date_range a b f).
Proof.
  intros Hf. unfold date_range. destruct (b <? a); [constructor|].
  generalize (S (Z.to_nat ((b - a) / f))) as n. generalize 0%nat as i.
  intros i n. revert i. induction n as [|n IH]; intros i; simpl.
  - constructor.
  - constructor; [apply IH|].
    apply Forall_forall. intros x Hx. apply in_map_iff in Hx.
    destruct Hx as [k [<- Hk]]. apply in_seq in Hk. nia.
Qed.

Lemma find_split {A} (p : A -> bool) (l : list A) (d : A) :
  find p l = Some d ->
  exists l1 l2, l = l1 ++ d :: l2 /\ p d = true /\
                Forall (fun x => p x = false) l1.
Proof.
  induction l as [|a l IH]; simpl; [discriminate|].
  destruct (p a) eqn:E.
  - intros [= ->]. exists [], l. auto.
  - intros H. destruct (IH H) as [l1 [l2 [-> [Hd Hl1]]]].
    exists (a :: l1), l2. auto.
Qed.

(** ** The local disk and the caching filesystem *)

Lemma on_disk_add_events (evs : list event) (w : world) (p : string) :
  on_disk (add_events evs w) p = on_disk w p.
Proof. reflexivity. Qed.

Lemma on_disk_create_same (w : world) (p : string) :
  on_disk (create_file p w) p = true.
Proof.
  unfold create_file. destruct (on_disk w p) eqn:E.
  - exact E.
  - unfold on_disk. simpl. rewrite existsb_app. simpl.
    rewrite String.eqb_refl. apply orb_true_r.
Qed.

Lemma on_disk_create_mono (w : world) (p q : string) :
  on_disk w q = true -> on_disk (create_file p w) q = true.
Proof.
  intros H. unfold create_file. destruct (on_disk w p); [exact H|].
  unfold on_disk in *. simpl. rewrite existsb_app, H. reflexivity.
Qed.

Lemma ensure_local_result (env : Collaborators) (opts : dict string)
    (u : string) (w : world) :
  fst (ensure_local env opts u w) = Ok (cached_name env opts u).
Proof. unfold ensure_local. now destruct (on_disk w _). Qed.

Lemma ensure_local_keeps (env : Collaborators) (opts : dict string)
    (u q : string) (w : world) :
  on_disk w q = true -> on_disk (snd (ensure_local env opts u w)) q = true.
Proof.
  intros H. unfold ensure_local.
  destruct (on_disk w (cached_name env opts u)); simpl; [exact H|].
  apply on_disk_create_mono. exact H.
Qed.

Lemma ensure_local_stores (env : Collaborators) (opts : dict string)
    (u : string) (w : world) :
  on_disk (snd (ensure_local env opts u w)) (cached_name env opts u) = true.
Proof.
  unfold ensure_local. destruct (on_disk w _) eqn:E; simpl; [exact E|].
  apply on_disk_create_same.
Qed.

Lemma open_local_result (env : Collaborators) (opts : dict string)
    (urls : list string) :
  forall w, fst (open_local env urls opts w)
            = Ok (map (cached_name env opts) urls).
Proof.
  induction urls as [|u urls IH]; intros w; [reflexivity|].
  cbn [open_local map]. unfold bind at 1.
  pose proof (ensure_local_result env opts u w) as H1.
  destruct (ensure_local env opts u w) as [r1 w1]. simpl in H1. subst r1.
  unfold bind. specialize (IH w1).
  destruct (open_local env urls opts w1) as [r2 w2]. simpl in IH. now subst r2.
Qed.

Lemma open_local_keeps (env : Collaborators) (opts : dict string)
    (urls : list string) (q : string) :
  forall w, on_disk w q = true ->
            on_disk (snd (open_local env urls opts w)) q = true.
Proof.
  induction urls as [|u urls IH]; intros w H; [exact H|].
  cbn [open_local]. unfold bind at 1.
  pose proof (ensure_local_result env opts u w) as H1.
  pose proof (ensure_local_keeps env opts u q w H) as H2.
  destruct (ensure_local env opts u w) as [r1 w1]. simpl in H1, H2. subst r1.
  unfold bind. specialize (IH w1 H2).
  pose proof (open_local_result env opts urls w1) as H3.
  destruct (open_local env urls opts w1) as [r2 w2]. simpl in *. now subst r2.
Qed.

Lemma open_local_stores (env : Collaborators) (opts : dict string)
    (urls : list string) :
  forall w p, In p (map (cached_name env opts) urls) ->
              on_disk (snd (open_local env urls opts w)) p = true.
Proof.
  induction urls as [|u urls IH]; intros w p Hp; [destruct Hp|].
  cbn [open_local]. unfold bind at 1.
  pose proof (ensure_local_result env opts u w) as H1.
  pose proof (ensure_local_stores env opts u w) as H2.
  destruct (ensure_local env opts u w) as [r1 w1]. simpl in H1, H2. subst r1.
  unfold bind.
  pose proof (open_local_result env opts urls w1) as H3.
  pose proof (open_local_keeps env opts urls (cached_name env opts u) w1 H2) as H4.
  specialize (IH w1).
  destruct (open_local env urls opts w1) as [r2 w2]. simpl in *. subst r2.
  simpl. destruct Hp as [<- | Hp]; [exact H4 | now apply IH].
Qed.

(** Asking again for what is cached changes nothing. *)
Lemma open_local_cached (env : Collaborators) (opts : dict string)
    (urls : list string) (w : world) :
  (forall p, In p (map (cached_name env opts) urls) -> on_disk w p = true) ->
  open_local env urls opts w = (Ok (map (cached_name env opts) urls), w).
Proof.
  induction urls as [|u urls IH]; intros H; [reflexivity|].
  cbn [open_local map]. unfold bind at 1. unfold ensure_local at 1.
  rewrite (H (cached_name env opts u)) by now left.
  unfold bind. rewrite IH; [reflexivity|].
  intros p Hp. apply H. now right.
Qed.

(** ** Computations that only probe *)

Lemma only_probes_ret {A} (a : A) : only_probes (ret a).
Proof.
  exists (Ok a), []. split; [constructor|].
  intros w. unfold ret. now rewrite add_events_nil.
Qed.

Lemma only_probes_raise {A} (e : exn) : only_probes (@raise world A e).
Proof.
  exists (Raise e), []. split; [constructor|].
  intros w. unfold raise. now rewrite add_events_nil.
Qed.

Lemma only_probes_bind {A B} (m : M world A) (k : A -> M world B) :
  only_probes m -> (forall a, only_probes (k a)) -> only_probes (bind m k).
Proof.
  intros [r [evs [Hevs Hm]]] Hk. destruct r as [a|e].
  - destruct (Hk a) as [r' [evs' [Hevs' Hka]]].
    exists r', (evs ++ evs'). split; [now apply Forall_app|].
    intros w. unfold bind. now rewrite Hm, Hka, add_events_app.
  - exists (Raise e), evs. split; [assumption|].
    intros w. unfold bind. now rewrite Hm.
Qed.

Lemma only_probes_emit (e : event) :
  is_probe e -> only_probes (modify (emit e)).
Proof.
  intros He. exists (Ok tt), [e]. split; [now constructor|]. reflexivity.
Qed.

(** ** Matching by derivatives is matching *)

Lemma append_nil_r (s : string) : (s ++ "")%string = s.
Proof. induction s as [|c s IH]; simpl; [reflexivity | now rewrite IH]. Qed.

Lemma append_assoc (s1 s2 s3 : string) :
  ((s1 ++ s2) ++ s3)%string = (s1 ++ s2 ++ s3)%string.
Proof. induction s1 as [|c s1 IH]; simpl; [reflexivity | now rewrite IH]. Qed.

Lemma append_eq_nil (s1 s2 : string) :
  (s1 ++ s2)%string = "" -> s1 = "" /\ s2 = "".
Proof. destruct s1; simpl; [auto | discriminate]. Qed.

Lemma matches_cat_inv (r1 r2 : regex) (s : string) :
  matches (Cat r1 r2) s ->
  exists s1 s2, s = (s1 ++ s2)%string /\ matches r1 s1 /\ matches r2 s2.
Proof. intros H. inversion H; subst. eauto. Qed.

Lemma matches_alt_inv (r1 r2 : regex) (s : string) :
  matches (Alt r1 r2) s -> matches r1 s \/ matches r2 s.
Proof. intros H. inversion H; subst; auto. Qed.

Lemma nullable_spec (r : regex) : nullable r = true <-> matches r "".
Proof.
  induction r as [| | c | | r1 IH1 r2 IH2 | r1 IH1 r2 IH2 | r IH]; simpl.
  - split; [discriminate | intros H; inversion H].
  - split; [constructor | reflexivity].
  - split; [discriminate | intros H; inversion H].
  - split; [discriminate | intros H; inversion H].
  - rewrite andb_true_iff, IH1, IH2. split.
    + intros [H1 H2]. change "" with ("" ++ "")%string. now constructor.
    + intros H. destruct (matches_cat_inv _ _ _ H) as [s1 [s2 [E [H1 H2]]]].
      symmetry in E. now destruct (append_eq_nil _ _ E) as [-> ->].
  - rewrite orb_true_iff, IH1, IH2. split.
    + intros [H | H]; [now apply MAltL | now apply MAltR].
    + intros H. now apply matches_alt_inv in H.
  - split; [constructor | reflexivity].
Qed.

Lemma cat_spec (r1 r2 : regex) (s : string) :
  matches (cat r1 r2) s <-> matches (Cat r1 r2) s.
Proof.
  assert (Hvoid : forall s, ~ matches Void s) by (intros s' H; inversion H).
  assert (HcatL : forall r s, ~ matches (Cat Void r) s).
  { intros r s' H. destruct (matches_cat_inv _ _ _ H) as [s1 [s2 [_ [H1 _]]]].
    now apply (Hvoid s1). }
  assert (HcatR : forall r s, ~ matches (Cat r Void) s).
  { intros r s' H. destruct (matches_cat_inv _ _ _ H) as [s1 [s2 [_ [_ H2]]]].
    now apply (Hvoid s2). }
  assert (Heps : forall r s, matches r s <-> matches (Cat Eps r) s).
  { intros r s'. split.
    - intros H. change s' with ("" ++ s')%string. constructor; [constructor | exact H].
    - intros H. destruct (matches_cat_inv _ _ _ H) as [s1 [s2 [-> [H1 H2]]]].
      inversion H1; subst. exact H2. }
  destruct r1, r2; simpl; try tauto;
    try (split; intros H; exfalso;
         solve [ now apply Hvoid in H | now apply HcatL in H
               | now apply HcatR in H ]);
    try apply Heps.
Qed.

Lemma alt_spec (r1 r2 : regex) (s : string) :
  matches (alt r1 r2) s <-> matches (Alt r1 r2) s.
Proof.
  assert (Hvoid : forall s, ~ matches Void s) by (intros s' H; inversion H).
  assert (HL : forall r, matches r s <-> matches (Alt Void r) s).
  { intros r. split; [apply MAltR|].
    intros H. destruct (matches_alt_inv _ _ _ H) as [H' | H'];
      [now apply Hvoid in H' | assumption]. }
  assert (HR : forall r, matches r s <-> matches (Alt r Void) s).
  { intros r. split; [apply MAltL|].
    intros H. destruct (matches_alt_inv _ _ _ H) as [H' | H'];
      [assumption | now apply Hvoid in H']. }
  destruct r1, r2; simpl; try tauto; try apply HL; try apply HR.
Qed.

(** A non-empty match of a starred expression starts with a non-empty
    match of the expression. *)
Lemma star_cons (r : regex) (a : ascii) (s : string) :
  matches (Star r) (String a s) ->
  exists s1 s2, s = (s1 ++ s2)%string /\ matches r (String a s1)
                /\ matches (Star r) s2.
Proof.
  intros H. remember (Star r) as r' eqn:Er. remember (String a s) as s' eqn:Es.
  revert s Es. induction H as [| | | | | | |r0 s1 s2 H1 _ H2 IH2];
    intros tl Etl; try discriminate.
  injection Er as ->. destruct s1 as [|b s1]; simpl in Etl.
  - now apply IH2.
  - injection Etl as -> <-. exists s1, s2. auto.
Qed.

Lemma deriv_spec (r : regex) :
  forall (a : ascii) (s : string),
    matches (deriv a r) s <-> matches r (String a s).
Proof.
  induction r as [| | c | | r1 IH1 r2 IH2 | r1 IH1 r2 IH2 | r IH];
    intros a s; simpl.
  - split; intros H; inversion H.
  - split; intros H; inversion H.
  - destruct (Ascii.eqb a c) eqn:E.
    + apply Ascii.eqb_eq in E. subst c. split; intros H; inversion H; constructor.
    + split; intros H; inversion H; subst.
      now rewrite Ascii.eqb_refl in E.
  - destruct (Ascii.eqb a newline) eqn:E.
    + apply Ascii.eqb_eq in E. subst a. split; intros H; inversion H; subst.
      contradiction.
    + split; intros H; inversion H; subst; constructor.
      intros ->. now rewrite Ascii.eqb_refl in E.
  - assert (Hfirst : matches (cat (deriv a r1) r2) s ->
                     matches (Cat r1 r2) (String a s)).
    { intros H. apply cat_spec in H.
      destruct (matches_cat_inv _ _ _ H) as [s1 [s2 [-> [H1 H2]]]].
      apply IH1 in H1. change (String a (s1 ++ s2)) with (String a s1 ++ s2)%string.
      now constructor. }
    assert (Hsecond : matches r1 "" -> matches (deriv a r2) s ->
                      matches (Cat r1 r2) (String a s)).
    { intros H1 H2. apply IH2 in H2.
      change (String a s) with ("" ++ String a s)%string. now constructor. }
    assert (Hback : matches (Cat r1 r2) (String a s) ->
                    matches (cat (deriv a r1) r2) s \/
                    (matches r1 "" /\ matches (deriv a r2) s)).
    { intros H. destruct (matches_cat_inv _ _ _ H) as [s1 [s2 [E [H1 H2]]]].
      destruct s1 as [|b s1]; simpl in E.
      - subst s2. right. split; [assumption | now apply IH2].
      - injection E as <- ->. left. apply cat_spec. constructor; [|assumption].
        now apply IH1. }
    destruct (nullable r1) eqn:En.
    + rewrite alt_spec. split.
      * intros H. destruct (matches_alt_inv _ _ _ H) as [H' | H'];
          [now apply Hfirst|].
        apply Hsecond; [now apply nullable_spec | assumption].
      * intros H. destruct (Hback H) as [H' | [_ H']];
          [now apply MAltL | now apply MAltR].
    + split; [exact Hfirst|].
      intros H. destruct (Hback H) as [H' | [H' _]]; [assumption|].
      apply nullable_spec in H'. congruence.
  - rewrite alt_spec. split.
    + intros H. destruct (matches_alt_inv _ _ _ H) as [H' | H'];
        [apply MAltL; now apply IH1 | apply MAltR; now apply IH2].
    + intros H. destruct (matches_alt_inv _ _ _ H) as [H' | H'];
        [apply MAltL; now apply IH1 | apply MAltR; now apply IH2].
  - rewrite cat_spec. split.
    + intros H. destruct (matches_cat_inv _ _ _ H) as [s1 [s2 [-> [H1 H2]]]].
      apply IH in H1. change (String a (s1 ++ s2)) with (String a s1 ++ s2)%string.
      now constructor.
    + intros H. destruct (star_cons _ _ _ H) as [s1 [s2 [-> [H1 H2]]]].
      constructor; [now apply IH | assumption].
Qed.

(** [re_match] finds a match at the start of the subject exactly when
    there is one. *)
Lemma re_match_spec (s : string) :
  forall r : regex,
    re_match r s = true <->
    exists p rest, s = (p ++ rest)%string /\ matches r p.
Proof.
  induction s as [|a s IH]; intros r; simpl.
  - rewrite orb_false_r, nullable_spec. split.
    + intros H. exists "", "". auto.
    + intros [p [rest [E H]]]. symmetry in E.
      now destruct (append_eq_nil _ _ E) as [-> _].
  - rewrite orb_true_iff, nullable_spec, IH. split.
    + intros [H | [p [rest [-> H]]]].
      * exists "", (String a s). auto.
      * exists (String a p), rest. split; [reflexivity | now apply deriv_spec].
    + intros [p [rest [E H]]]. destruct p as [|b p]; simpl in E.
      * now left.
      * injection E as <- ->. right. exists p, rest.
        split; [reflexivity | now apply deriv_spec].
Qed.

Lemma matches_lit (l p : string) : matches (Lit l) p <-> p = l.
Proof.
  revert p. induction l as [|c l IH]; intros p; simpl.
  - split; [intros H; now inversion H | intros ->; constructor].
  - split.
    + intros H. destruct (matches_cat_inv _ _ _ H) as [s1 [s2 [-> [H1 H2]]]].
      inversion H1; subst. apply IH in H2. now subst.
    + intros ->. change (String c l) with (String c "" ++ l)%string.
      constructor; [constructor | now apply IH].
Qed.

(** What the URLs accepted by the pattern look like. *)
Lemma protocol_pattern_shape (u : string) :
  re_match protocol_pattern u = true <->
  exists proto a b rest,
    u = ("filecache::" ++ proto ++ "://" ++ a ++ "{t:" ++ b ++ "}" ++ rest)%string
    /\ matches (Plus protocol) proto
    /\ matches (Star Dot) a
    /\ matches (Star Dot) b.
Proof.
  rewrite re_match_spec. unfold protocol_pattern. split.
  - intros [p [rest [-> Ha]]].
    destruct (matches_cat_inv _ _ _ Ha) as [p1 [q1 [-> [H1 Hb]]]].
    destruct (matches_cat_inv _ _ _ Hb) as [p2 [q2 [-> [H2 Hc]]]].
    destruct (matches_cat_inv _ _ _ Hc) as [p3 [q3 [-> [H3 Hd]]]].
    destruct (matches_cat_inv _ _ _ Hd) as [p4 [q4 [-> [H4 He]]]].
    destruct (matches_cat_inv _ _ _ He) as [p5 [q5 [-> [H5 H6]]]].
    destruct (matches_cat_inv _ _ _ H5) as [p6 [q6 [-> [H7 Hf]]]].
    destruct (matches_cat_inv _ _ _ Hf) as [p7 [q7 [-> [H8 H9]]]].
    apply matches_lit in H1, H3, H7, H9. subst.
    exists p2, p4, p7, (q5 ++ rest)%string.
    repeat split; auto. now rewrite !append_assoc.
  - intros [proto [a [b [rest [-> [H1 [H2 H3]]]]]]].
    exists ("filecache::" ++ proto ++ "://" ++ a ++ "{t:" ++ b ++ "}")%string, rest.
    split; [now rewrite !append_assoc|].
    constructor; [now apply matches_lit|].
    constructor; [assumption|].
    constructor; [now apply matches_lit|].
    constructor; [assumption|].
    rewrite <- (append_nil_r ("{t:" ++ b ++ "}")).
    constructor; [|constructor].
    constructor; [now apply matches_lit|].
    constructor; [assumption | now apply matches_lit].
Qed.

(** ** Existence resolution and the batch of [DownloaderFsspec] *)

Module FsspecFacts.
Import Fsspec FsspecView.

Section Facts.
Variable env : Collaborators.
Variable self : DownloaderFsspec.

Lemma get_remote_path_view (check : bool) (t : Timestamp) (w : world) :
  _get_remote_path_if_exists self (rendered_remote env self t) "filecache::" check w
  = (Ok (remote_ref env self check t), add_events (remote_calls env self check t) w).
Proof.
  unfold _get_remote_path_if_exists, remote_ref, remote_calls.
  destruct (str_in "*" (rendered_remote env self t)).
  - unfold bind, modify.
    destruct (fs_glob (_fs self) (rendered_remote env self t)); reflexivity.
  - destruct check; simpl.
    + unfold bind, modify.
      destruct (fs_exists (_fs self) (rendered_remote env self t)); reflexivity.
    + now rewrite add_events_nil.
Qed.

Lemma make_path_view (check : bool) (t : Timestamp) (w : world) :
  has_storage_options self = true ->
  local_path env self t <> "" ->
  _make_path env self t check w
  = (Ok (remote_ref env self check t, local_path env self t),
     add_events (remote_calls env self check t) w).
Proof.
  intros Hso Hloc. unfold _make_path.
  erewrite bind_ok by apply get_remote_path_view.
  unfold has_storage_options in Hso.
  unfold local_path, cache_template in *.
  destruct (storage_options (_kwargs self)) as [[|kv so]|]; try discriminate.
  destruct (String.eqb _ "") eqn:E.
  - apply String.eqb_eq in E. contradiction.
  - reflexivity.
Qed.

Lemma group_by_local_view (times : list Timestamp) :
  has_storage_options self = true ->
  Forall (fun t => local_path env self t <> "") times ->
  forall batch w,
    group_by_local env self times batch w
    = (Ok (fold_left (add_ref env self) times batch),
       add_events (flat_map (remote_calls env self false) times) w).
Proof.
  intros Hso Hall. induction Hall as [|t times Ht Hall IH]; intros batch w.
  - simpl. now rewrite add_events_nil.
  - cbn [group_by_local].
    erewrite bind_ok by (apply make_path_view; assumption).
    cbn [fold_left flat_map]. rewrite <- add_events_app.
    unfold add_ref at 2.
    destruct (remote_ref env self false t); apply IH.
Qed.

Lemma refs_for_cons (t : Timestamp) (times : list Timestamp) (k : string) :
  refs_for env self (t :: times) k
  = (match remote_ref env self false t with
     | Some r => if String.eqb (local_path env self t) k then [r] else []
     | None => []
     end) ++ refs_for env self times k.
Proof. reflexivity. Qed.

(** Looking a key up after the loop: what was there, then the
    references the loop added for that key. *)
Lemma fold_add_ref_get (times : list Timestamp) :
  forall batch k,
    dict_get (fold_left (add_ref env self) times batch) k
    = match refs_for env self times k with
      | [] => dict_get batch k
      | rs => Some (dict_get_default batch k [] ++ rs)
      end.
Proof.
  induction times as [|t times IH]; intros batch k; [reflexivity|].
  cbn [fold_left]. rewrite IH, refs_for_cons. unfold add_ref.
  destruct (remote_ref env self false t) as [r|]; [|reflexivity].
  destruct (String.eqb (local_path env self t) k) eqn:E.
  - apply String.eqb_eq in E. subst k.
    rewrite dict_get_set_same, dict_get_default_set_same.
    destruct (refs_for env self times (local_path env self t)); simpl.
    + reflexivity.
    + now rewrite <- app_assoc.
  - assert (Hne : k <> local_path env self t).
    { intros ->. now rewrite String.eqb_refl in E. }
    rewrite dict_get_set_other, dict_get_default_set_other by assumption.
    reflexivity.
Qed.

Lemma fold_add_ref_filter (times : list Timestamp) :
  forall batch,
    fold_left (add_ref env self) (filter (present env self) times) batch
    = fold_left (add_ref env self) times batch.
Proof.
  induction times as [|t times IH]; intros batch; [reflexivity|].
  cbn [filter fold_left]. unfold present at 1.
  destruct (remote_ref env self false t) as [r|] eqn:E; cbn [is_some].
  - cbn [fold_left]. apply IH.
  - rewrite IH. unfold add_ref at 3. now rewrite E.
Qed.

Lemma total_refs_set (batch : dict (list string)) (k r : string) :
  total_refs (dict_set batch k (dict_get_default batch k [] ++ [r]))
  = S (total_refs batch).
Proof.
  unfold total_refs, dict_get_default.
  induction batch as [|[k' v'] batch IH]; simpl.
  - reflexivity.
  - destruct (String.eqb k k') eqn:E; simpl.
    + rewrite !length_app. simpl. now rewrite <- Nat.add_assoc.
    + rewrite !length_app, IH. now rewrite Nat.add_succ_r.
Qed.

Lemma fold_add_ref_total (times : list Timestamp) :
  forall batch,
    total_refs (fold_left (add_ref env self) times batch)
    = (total_refs batch + List.length (filter (present env self) times))%nat.
Proof.
  induction times as [|t times IH]; intros batch; cbn [fold_left filter].
  - simpl. now rewrite Nat.add_0_r.
  - rewrite IH. unfold add_ref, present.
    destruct (remote_ref env self false t); cbn [is_some].
    + rewrite total_refs_set. simpl. now rewrite Nat.add_succ_r.
    + reflexivity.
Qed.

Lemma make_batch_cons (a : Timestamp) (l : list Timestamp) (w : world) :
  _make_batch env self (TimesList (a :: l)) w
  = bind (_make_times_strided env self a (last l a))
         (fun times => group_by_local env self times []) w.
Proof. reflexivity. Qed.

(** C7. Existence resolution of a rendered remote path: with a wildcard
    in the path the remote filesystem expands it (one [glob] call) and
    the first match, behind the prefix, is the answer, [None] when
    nothing matches; without a wildcard and with [force_check] one
    [exists] probe decides between the prefixed path and [None];
    otherwise the prefixed path is returned and the world, so also the
    log of remote calls, is left as it was. *)
Theorem get_remote_path_if_exists_cases
    (u prefix : string) (force_check : bool) (w : world) :
  let out := _get_remote_path_if_exists self u prefix force_check w in
  (str_in "*" u = true ->
     fst out = Ok (option_map (append prefix) (hd_error (fs_glob (_fs self) u)))
     /\ snd out = emit (EvGlob u) w) /\
  (str_in "*" u = false -> force_check = true ->
     fst out = Ok (if fs_exists (_fs self) u
                   then Some (prefix ++ u)%string else None)
     /\ snd out = emit (EvExists u) w) /\
  (str_in "*" u = false -> force_check = false ->
     out = (Ok (Some (prefix ++ u)%string), w)).
Proof.
  unfold _get_remote_path_if_exists. cbv zeta.
  destruct (str_in "*" u) eqn:Hstar.
  - split; [intros _ | split; intros H; discriminate H].
    unfold bind, modify.
    destruct (fs_glob (_fs self) u) as [|f fl]; simpl; auto.
  - split; [intros H; discriminate H|].
    destruct force_check.
    + split; [intros _ _ | intros _ H; discriminate H].
      unfold bind, modify.
      destruct (fs_exists (_fs self) u); simpl; auto.
    + split; [intros _ H; discriminate H | intros _ _; reflexivity].
Qed.

Lemma probe_dates_view (dates : list Timestamp) :
  has_storage_options self = true ->
  Forall (fun t => local_path env self t <> "") dates ->
  forall w,
    probe_dates env self dates w
    = (Ok (find (resolves env self) dates),
       add_events (flat_map (remote_calls env self true)
                            (probed env self dates)) w).
Proof.
  intros Hso Hall. induction Hall as [|t dates Ht Hall IH]; intros w.
  - simpl. now rewrite add_events_nil.
  - cbn [probe_dates find probed].
    erewrite bind_ok by (apply make_path_view; assumption).
    cbn [fst]. unfold resolves at 1 3.
    destruct (remote_ref env self true t); cbn [is_some flat_map].
    + now rewrite app_nil_r.
    + rewrite IH, add_events_app. reflexivity.
Qed.

Lemma probed_found (dates l1 l2 : list Timestamp) (d : Timestamp) :
  dates = l1 ++ d :: l2 -> resolves env self d = true ->
  Forall (fun x => resolves env self x = false) l1 ->
  probed env self dates = l1 ++ [d].
Proof.
  intros -> Hd Hl1. induction Hl1 as [|x l1 Hx Hl1 IH]; simpl.
  - now rewrite Hd.
  - now rewrite Hx, IH.
Qed.

Lemma probed_none (dates : list Timestamp) :
  find (resolves env self) dates = None -> probed env self dates = dates.
Proof.
  induction dates as [|t dates IH]; simpl; [reflexivity|].
  destruct (resolves env self t); [discriminate|].
  intros H. now rewrite IH.
Qed.

Section Cadence.
Variables (time_props : TimeProps) (f : Timedelta).
Hypothesis Htime : time (_kwargs self) = Some time_props.
Hypothesis Hfreq : freq time_props = Some f.
Hypothesis Hso : has_storage_options self = true.

Lemma get_t0_view (t0 : Timestamp) (w : world) :
  Forall (fun t => local_path env self t <> "") (probe_window t0 f) ->
  _get_t0_for_strided_dates env self t0 w
  = (match find (resolves env self) (probe_window t0 f) with
     | Some d => Ok d
     | None => Raise (ValueError "No data found between")
     end,
     add_events (flat_map (remote_calls env self true)
                          (probed env self (probe_window t0 f))) w).
Proof.
  intros Hall. unfold _get_t0_for_strided_dates. rewrite Htime, Hfreq.
  erewrite bind_ok by (apply probe_dates_view; assumption).
  now destruct (find _ _).
Qed.

Lemma make_times_strided_view (t0 t1 : Timestamp) (w : world) :
  one_day < f ->
  Forall (fun t => local_path env self t <> "") (probe_window t0 f) ->
  _make_times_strided env self t0 t1 w
  = (match find (resolves env self) (probe_window t0 f) with
     | Some d => Ok (date_range d t1 f)
     | None => Raise (ValueError "No data found between")
     end,
     add_events (flat_map (remote_calls env self true)
                          (probed env self (probe_window t0 f))) w).
Proof.
  intros Hf Hall. unfold _make_times_strided. rewrite Htime, Hfreq.
  destruct (f <? one_day) eqn:E1; [apply Z.ltb_lt in E1; lia|].
  destruct (f =? one_day) eqn:E2; [apply Z.eqb_eq in E2; lia|].
  unfold bind. rewrite get_t0_view by assumption.
  now destruct (find _ _).
Qed.

Lemma find_all_false {A} (p : A -> bool) (l : list A) :
  (forall x, In x l -> p x = false) -> find p l = None.
Proof.
  induction l as [|a l IH]; intros H; simpl; [reflexivity|].
  rewrite (H a) by now left. apply IH. intros x Hx. apply H. now right.
Qed.

(** C2. With a cadence above one day, detection probes the days
    [t0], [t0 + 1 day], ... up to [t0 + 2 * freq] in ascending order,
    each with a forced check, stops at the first day [d] whose remote
    reference resolves and returns it; the timestamps enumerated are
    then [d], [d + freq], [d + 2 * freq], ... up to and including the
    end of the request. *)
Theorem cadence_detection_aligns (t0 t1 d : Timestamp) (w : world) :
  one_day < f ->
  Forall (fun t => local_path env self t <> "") (probe_window t0 f) ->
  find (resolves env self) (probe_window t0 f) = Some d ->
  (forall x, In x (probe_window t0 f) <->
             exists k : nat, x = t0 + Z.of_nat k * one_day /\ x <= t0 + f * 2) /\
  StronglySorted Z.lt (probe_window t0 f) /\
  (forall x, str_in "*" (rendered_remote env self x) = false ->
             remote_calls env self true x = [EvExists (rendered_remote env self x)]) /\
  (exists before after,
      probe_window t0 f = before ++ d :: after /\
      Forall (fun x => resolves env self x = false) before /\
      resolves env self d = true /\
      _get_t0_for_strided_dates env self t0 w
      = (Ok d, add_events (flat_map (remote_calls env self true)
                                    (before ++ [d])) w) /\
      _make_times_strided env self t0 t1 w
      = (Ok (date_range d t1 f),
         add_events (flat_map (remote_calls env self true)
                              (before ++ [d])) w)) /\
  (forall x, In x (date_range d t1 f) <->
             exists k : nat, x = d + Z.of_nat k * f /\ x <= t1) /\
  StronglySorted Z.lt (date_range d t1 f).
Proof.
  intros Hf Hall Hfind.
  assert (Hday : 0 < one_day) by reflexivity.
  split; [intros x; apply date_range_In; assumption|].
  split; [apply date_range_sorted; assumption|].
  split.
  { intros x Hx. unfold remote_calls. now rewrite Hx. }
  split.
  { destruct (find_split _ _ _ Hfind) as [before [after [Hw [Hd Hb]]]].
    exists before, after. repeat split; try assumption.
    - rewrite get_t0_view, Hfind by assumption.
      now rewrite (probed_found _ _ _ _ Hw Hd Hb).
    - rewrite make_times_strided_view, Hfind by assumption.
      now rewrite (probed_found _ _ _ _ Hw Hd Hb). }
  split; [intros x; apply date_range_In; lia|].
  apply date_range_sorted. lia.
Qed.

(** C4. With a cadence above one day, when no day of the probe window
    resolves, detection raises (the code's [ValueError] with the
    message that no data was found) after probing every day of the
    window once; the enumeration, the batch and [download] end with
    that same exception, so nothing is fetched and nothing is tried
    again. *)
Theorem cadence_detection_exhausted
    (t0 : Timestamp) (l : list Timestamp) (w : world) :
  one_day < f ->
  Forall (fun t => local_path env self t <> "") (probe_window t0 f) ->
  (forall x, In x (probe_window t0 f) -> resolves env self x = false) ->
  let w' := add_events (flat_map (remote_calls env self true)
                                 (probe_window t0 f)) w in
  _get_t0_for_strided_dates env self t0 w
  = (Raise (ValueError "No data found between"), w') /\
  (forall t1, _make_times_strided env self t0 t1 w
              = (Raise (ValueError "No data found between"), w')) /\
  _make_batch env self (TimesList (t0 :: l)) w
  = (Raise (ValueError "No data found between"), w') /\
  download env self (TimesList (t0 :: l)) w
  = (Raise (ValueError "No data found between"), w') /\
  disk w' = disk w.
Proof.
  intros Hf Hall Hnone w'.
  apply find_all_false in Hnone.
  assert (Ht0 : _get_t0_for_strided_dates env self t0 w
                = (Raise (ValueError "No data found between"), w')).
  { rewrite get_t0_view, Hnone by assumption.
    now rewrite (probed_none _ Hnone). }
  assert (Hts : forall t1, _make_times_strided env self t0 t1 w
                = (Raise (ValueError "No data found between"), w')).
  { intros t1. rewrite make_times_strided_view, Hnone by assumption.
    now rewrite (probed_none _ Hnone). }
  assert (Hb : _make_batch env self (TimesList (t0 :: l)) w
                = (Raise (ValueError "No data found between"), w')).
  { rewrite make_batch_cons. apply bind_raise. apply Hts. }
  repeat split; try assumption.
  unfold download. apply bind_raise. exact Hb.
Qed.

End Cadence.

Lemma get_remote_path_only_probes (u prefix : string) (force_check : bool) :
  only_probes (_get_remote_path_if_exists self u prefix force_check).
Proof.
  unfold _get_remote_path_if_exists. destruct (str_in "*" u).
  - apply only_probes_bind; [now apply only_probes_emit|]. intros _.
    destruct (fs_glob (_fs self) u); apply only_probes_ret.
  - destruct force_check; [|apply only_probes_ret].
    apply only_probes_bind; [now apply only_probes_emit|]. intros _.
    destruct (fs_exists (_fs self) u); apply only_probes_ret.
Qed.

Lemma make_path_only_probes (t : Timestamp) (check_exists : bool) :
  only_probes (_make_path env self t check_exists).
Proof.
  unfold _make_path.
  apply only_probes_bind; [apply get_remote_path_only_probes|]. intros remote.
  destruct (storage_options (_kwargs self)) as [[|kv so]|];
    try apply only_probes_raise.
  destruct (String.eqb _ ""); [apply only_probes_raise | apply only_probes_ret].
Qed.

Lemma probe_dates_only_probes (dates : list Timestamp) :
  only_probes (probe_dates env self dates).
Proof.
  induction dates as [|t dates IH]; [apply only_probes_ret|].
  cbn [probe_dates].
  apply only_probes_bind; [apply make_path_only_probes|]. intros rl.
  destruct (fst rl); [apply only_probes_ret | exact IH].
Qed.

Lemma get_t0_only_probes (t0 : Timestamp) :
  only_probes (_get_t0_for_strided_dates env self t0).
Proof.
  unfold _get_t0_for_strided_dates.
  destruct (time (_kwargs self)) as [tp|]; [|apply only_probes_raise].
  destruct (freq tp) as [f|]; [|apply only_probes_raise].
  apply only_probes_bind; [apply probe_dates_only_probes|]. intros found.
  destruct found; [apply only_probes_ret | apply only_probes_raise].
Qed.

Lemma make_times_strided_only_probes (t0 t1 : Timestamp) :
  only_probes (_make_times_strided env self t0 t1).
Proof.
  unfold _make_times_strided.
  destruct (time (_kwargs self)) as [tp|]; [|apply only_probes_raise].
  destruct (freq tp) as [f|]; [|apply only_probes_raise].
  destruct (f <? one_day); [apply only_probes_raise|].
  destruct (f =? one_day); [apply only_probes_ret|].
  apply only_probes_bind; [apply get_t0_only_probes|]. intros t0'.
  apply only_probes_ret.
Qed.

Lemma group_by_local_only_probes (times : list Timestamp) :
  forall batch, only_probes (group_by_local env self times batch).
Proof.
  induction times as [|t times IH]; intros batch; [apply only_probes_ret|].
  cbn [group_by_local].
  apply only_probes_bind; [apply make_path_only_probes|].
  intros [[remote|] local]; apply IH.
Qed.

Lemma make_batch_only_probes (times : times_arg) :
  only_probes (_make_batch env self times).
Proof.
  unfold _make_batch.
  apply only_probes_bind.
  { destruct times; try apply only_probes_ret. apply only_probes_raise. }
  intros l. apply only_probes_bind.
  { destruct l; [apply only_probes_raise | apply only_probes_ret]. }
  intros t0. apply only_probes_bind.
  { destruct l; [apply only_probes_raise | apply only_probes_ret]. }
  intros t1. apply only_probes_bind; [apply make_times_strided_only_probes|].
  intros ts. apply group_by_local_only_probes.
Qed.

Lemma group_files_set (so : dict string) (local : string)
    (batches : dict (list string)) :
  group_files env (dict_set so "cache_storage" local) batches
  = group_files env so batches.
Proof.
  unfold group_files. induction batches as [|kv batches IH]; [reflexivity|].
  simpl. now rewrite dict_set_set, IH.
Qed.

Lemma fetch_groups_result (batches : dict (list string)) :
  forall so flist w,
    fst (fetch_groups env batches so flist w)
    = Ok (flist ++ group_files env so batches).
Proof.
  induction batches as [|[local urls] batches IH]; intros so flist w.
  - simpl. now rewrite app_nil_r.
  - cbn [fetch_groups]. unfold bind.
    pose proof (open_local_result env (dict_set so "cache_storage" local) urls w) as H.
    destruct (open_local env urls _ w) as [r w1]. simpl in H. subst r.
    rewrite IH, group_files_set. unfold group_files at 2. simpl.
    now rewrite app_assoc.
Qed.

Lemma fetch_groups_keeps (batches : dict (list string)) (q : string) :
  forall so flist w,
    on_disk w q = true ->
    on_disk (snd (fetch_groups env batches so flist w)) q = true.
Proof.
  induction batches as [|[local urls] batches IH]; intros so flist w Hq.
  - exact Hq.
  - cbn [fetch_groups]. unfold bind.
    pose proof (open_local_result env (dict_set so "cache_storage" local) urls w) as H.
    pose proof (open_local_keeps env (dict_set so "cache_storage" local) urls q w Hq) as H'.
    destruct (open_local env urls _ w) as [r w1]. simpl in H, H'. subst r.
    now apply IH.
Qed.

Lemma fetch_groups_stores (batches : dict (list string)) :
  forall so flist w p,
    In p (group_files env so batches) ->
    on_disk (snd (fetch_groups env batches so flist w)) p = true.
Proof.
  induction batches as [|[local urls] batches IH]; intros so flist w p Hp.
  - destruct Hp.
  - cbn [fetch_groups]. unfold bind.
    pose proof (open_local_result env (dict_set so "cache_storage" local) urls w) as H.
    pose proof (open_local_stores env (dict_set so "cache_storage" local) urls w) as H'.
    destruct (open_local env urls _ w) as [r w1]. simpl in H, H'. subst r.
    unfold group_files in Hp. simpl in Hp. apply in_app_or in Hp.
    destruct Hp as [Hp | Hp].
    + apply fetch_groups_keeps. now apply H'.
    + apply IH. rewrite group_files_set. exact Hp.
Qed.

Lemma fetch_groups_cached (batches : dict (list string)) :
  forall so flist w,
    (forall p, In p (group_files env so batches) -> on_disk w p = true) ->
    fetch_groups env batches so flist w
    = (Ok (flist ++ group_files env so batches), w).
Proof.
  induction batches as [|[local urls] batches IH]; intros so flist w H.
  - simpl. now rewrite app_nil_r.
  - cbn [fetch_groups]. unfold bind.
    rewrite open_local_cached.
    + rewrite IH.
      * rewrite group_files_set. unfold group_files at 2. simpl.
        now rewrite app_assoc.
      * intros p Hp. apply H. rewrite group_files_set in Hp.
        unfold group_files. simpl. apply in_or_app. now right.
    + intros p Hp. apply H. unfold group_files. simpl.
      apply in_or_app. now left.
Qed.

(** Calling [download] again with the same request: the same result,
    the same disk, and nothing but probes in between. *)
Lemma fsspec_download_again (times : times_arg) (w : world) :
  let first := download env self times w in
  let second := download env self times (snd first) in
  fst second = fst first /\
  exists evs, Forall is_probe evs /\ snd second = add_events evs (snd first).
Proof.
  destruct (make_batch_only_probes times) as [r [evs [Hevs Hb]]].
  unfold download. cbv zeta. destruct r as [batch|e].
  - rewrite (bind_ok _ _ _ _ _ (Hb w)).
    unfold _download_batches.
    destruct (storage_options (_kwargs self)) as [so|].
    + set (so0 := dict_union [("same_names", "True")] so).
      set (w1 := snd (fetch_groups env batch so0 [] (add_events evs w))).
      rewrite (bind_ok _ _ _ _ _ (Hb w1)).
      rewrite fetch_groups_cached.
      * rewrite fetch_groups_result. split; [reflexivity|].
        exists evs. split; [assumption | reflexivity].
      * intros p Hp. rewrite on_disk_add_events.
        now apply fetch_groups_stores.
    + simpl. rewrite (bind_ok _ _ _ _ _ (Hb _)). simpl.
      split; [reflexivity|]. exists evs. auto.
  - rewrite (bind_raise _ _ _ _ _ (Hb w)). simpl.
    rewrite (bind_raise _ _ _ _ _ (Hb _)). simpl.
    split; [reflexivity|]. exists evs. auto.
Qed.

Lemma group_files_length (so : dict string) (batch : dict (list string)) :
  List.length (group_files env so batch) = total_refs batch.
Proof.
  unfold group_files, total_refs.
  induction batch as [|[k urls] batch IH]; [reflexivity|].
  simpl. now rewrite !length_app, length_map, IH.
Qed.

Lemma download_batches_result (batch : dict (list string)) (w : world) :
  has_storage_options self = true ->
  fst (_download_batches env self batch w) = Ok (cached_files env self batch).
Proof.
  unfold has_storage_options, _download_batches, cached_files.
  destruct (storage_options (_kwargs self)) as [so|]; [|discriminate].
  intros _. now rewrite fetch_groups_result.
Qed.

Lemma locals_nonempty_dec (times : list Timestamp) :
  forallb (fun t => negb (String.eqb (local_path env self t) "")) times = true ->
  Forall (fun t => local_path env self t <> "") times.
Proof.
  intros H. apply Forall_forall. intros t Ht.
  rewrite forallb_forall in H. specialize (H t Ht).
  intros E. rewrite E in H. discriminate H.
Qed.

Lemma none_resolve_dec (dates : list Timestamp) :
  forallb (fun t => negb (resolves env self t)) dates = true ->
  forall x, In x dates -> resolves env self x = false.
Proof.
  intros H x Hx. rewrite forallb_forall in H. specialize (H x Hx).
  now destruct (resolves env self x).
Qed.

(** C6. Building a batch from the enumerated timestamps raises nothing
    for a timestamp whose remote reference is absent: the batch is the
    one built from the present timestamps alone, so an absent timestamp
    leaves no entry in it, nor in the list of paths that [download]
    returns.  Under each local path the batch holds the remote
    references of the present timestamps rendered to that path, in the
    order of the timestamps, as many as there are. *)
Theorem make_batch_drops_absent_and_groups
    (a : Timestamp) (l times : list Timestamp) (w w1 : world) :
  has_storage_options self = true ->
  _make_times_strided env self a (last l a) w = (Ok times, w1) ->
  Forall (fun t => local_path env self t <> "") times ->
  exists batch w2,
    _make_batch env self (TimesList (a :: l)) w = (Ok batch, w2) /\
    batch = fold_left (add_ref env self)
                      (filter (present env self) times) [] /\
    (forall k, dict_get batch k
               = match refs_for env self times k with
                 | [] => None
                 | rs => Some rs
                 end) /\
    total_refs batch = List.length (filter (present env self) times) /\
    (forall w3, fst (_download_batches env self batch w3)
                = Ok (cached_files env self batch)) /\
    List.length (cached_files env self batch)
    = List.length (filter (present env self) times).
Proof.
  intros Hso Htimes Hall.
  exists (fold_left (add_ref env self) times []).
  exists (add_events (flat_map (remote_calls env self false) times) w1).
  split.
  { rewrite make_batch_cons. rewrite (bind_ok _ _ _ _ _ Htimes).
    now apply group_by_local_view. }
  split; [now rewrite fold_add_ref_filter|].
  split.
  { intros k. rewrite fold_add_ref_get. simpl.
    now destruct (refs_for env self times k). }
  split; [now rewrite fold_add_ref_total|].
  split; [intros w3; now apply download_batches_result|].
  unfold cached_files. now rewrite group_files_length, fold_add_ref_total.
Qed.

Lemma refs_for_In (times : list Timestamp) (k r : string) :
  In r (refs_for env self times k) <->
  exists t, In t times /\ remote_ref env self false t = Some r /\
            local_path env self t = k.
Proof.
  unfold refs_for. rewrite in_flat_map. split.
  - intros [t [Ht Hr]]. exists t. split; [exact Ht|].
    destruct (remote_ref env self false t) as [r0|]; [|destruct Hr].
    destruct (String.eqb (local_path env self t) k) eqn:E; [|destruct Hr].
    destruct Hr as [<- | []]. apply String.eqb_eq in E. auto.
  - intros [t [Ht [Hr Hk]]]. exists t. split; [exact Ht|].
    rewrite Hr. subst k. rewrite String.eqb_refl. now left.
Qed.

(** C10. An explicit list or index of timestamps enters the batch only
    through its first and last elements.  With [d] the start of the
    enumeration (the first element itself on a daily source, the day
    that cadence detection finds on a strided one), the batch is the
    grouping of the closed range re-enumerated from [d] to the last
    element at the cadence: the timestamps [d + k f] up to the last
    element and no others.  So a timestamp of that range that has a
    remote reference is in the batch whether or not the sequence names
    it, nothing enters the batch from an element that is not of the
    range, and two sequences with the same first and last elements give
    the same batch. *)
Theorem make_batch_uses_only_ends
    (tp : TimeProps) (f : Timedelta) (a d : Timestamp) (l : list Timestamp)
    (w : world) :
  time (_kwargs self) = Some tp -> freq tp = Some f ->
  has_storage_options self = true ->
  (f = one_day /\ d = a) \/
  (one_day < f /\
   Forall (fun t => local_path env self t <> "") (probe_window a f) /\
   find (resolves env self) (probe_window a f) = Some d) ->
  let times := date_range d (last l a) f in
  Forall (fun t => local_path env self t <> "") times ->
  let batch := fold_left (add_ref env self) times [] in
  fst (_make_batch env self (TimesList (a :: l)) w) = Ok batch /\
  fst (_make_batch env self (TimesIndex (a :: l)) w) = Ok batch /\
  (forall t, In t times <->
             exists k : nat, t = d + Z.of_nat k * f /\ t <= last l a) /\
  (forall k, dict_get batch k
             = match refs_for env self times k with
               | [] => None
               | rs => Some rs
               end) /\
  (forall t r, In t times -> remote_ref env self false t = Some r ->
               exists rs, dict_get batch (local_path env self t) = Some rs
                          /\ In r rs) /\
  (forall k rs r, dict_get batch k = Some rs -> In r rs ->
                  exists t, In t times
                            /\ remote_ref env self false t = Some r
                            /\ local_path env self t = k) /\
  (forall l1 l2 w',
      l1 <> [] -> l2 <> [] ->
      hd_error l1 = hd_error l2 -> last l1 0 = last l2 0 ->
      _make_batch env self (TimesList l1) w'
      = _make_batch env self (TimesList l2) w' /\
      _make_batch env self (TimesIndex l1) w'
      = _make_batch env self (TimesList l2) w').
Proof.
  intros Ht Hf Hso Hstart. cbv zeta. intros Hloc.
  assert (Hpos : 0 < f).
  { destruct Hstart as [[-> _] | [Hlt _]]; unfold one_day in *; lia. }
  assert (Htimes : exists w1,
             _make_times_strided env self a (last l a) w
             = (Ok (date_range d (last l a) f), w1)).
  { destruct Hstart as [[-> ->] | [Hlt [Hwin Hfind]]].
    - exists w. unfold _make_times_strided.
      now rewrite Ht, Hf, Z.ltb_irrefl, Z.eqb_refl.
    - eexists.
      rewrite (make_times_strided_view tp f Ht Hf Hso a (last l a) w Hlt Hwin).
      now rewrite Hfind. }
  destruct Htimes as [w1 Htimes].
  set (times := date_range d (last l a) f) in *.
  assert (Hget : forall k,
             dict_get (fold_left (add_ref env self) times []) k
             = match refs_for env self times k with
               | [] => None
               | rs => Some rs
               end).
  { intros k. rewrite fold_add_ref_get. simpl.
    now destruct (refs_for env self times k). }
  assert (Hb : fst (_make_batch env self (TimesList (a :: l)) w)
               = Ok (fold_left (add_ref env self) times [])).
  { rewrite make_batch_cons, (bind_ok _ _ _ _ _ Htimes).
    now rewrite (group_by_local_view times Hso Hloc). }
  split; [exact Hb|]. split; [exact Hb|].
  split; [intros t; now apply date_range_In|].
  split; [exact Hget|]. split; [|split].
  - intros t r Hin Hr. rewrite Hget.
    assert (Hr' : In r (refs_for env self times (local_path env self t))).
    { apply refs_for_In. exists t. auto. }
    destruct (refs_for env self times (local_path env self t)) as [|x rs];
      [destruct Hr'|].
    exists (x :: rs). auto.
  - intros k rs r Hk Hr. rewrite Hget in Hk. apply refs_for_In.
    destruct (refs_for env self times k); [discriminate|].
    now injection Hk as <-.
  - intros l1 l2 w' H1 H2 Hhd Hlast.
    assert (E : _make_batch env self (TimesList l1) w'
                = _make_batch env self (TimesList l2) w').
    { destruct l1 as [|a1 l1]; [contradiction|].
      destruct l2 as [|a2 l2]; [contradiction|].
      simpl in Hhd. injection Hhd as ->.
      rewrite !make_batch_cons.
      rewrite !last_cons in Hlast.
      unfold Timestamp in *. now rewrite Hlast. }
    split; [exact E|]. rewrite <- E. reflexivity.
Qed.

End Facts.

(** The fetchers of [Demo] as instances. *)

Lemma get_remote_path_if_exists_cases_witness :
  _get_remote_path_if_exists Demo.composite_fetcher
    "https://host/20210103.nc" "filecache::" false Demo.empty_world
  = (Ok (Some "filecache::https://host/20210103.nc"), Demo.empty_world).
Proof.
  apply (get_remote_path_if_exists_cases Demo.composite_fetcher
           "https://host/20210103.nc" "filecache::" false Demo.empty_world);
    reflexivity.
Defined.

Lemma make_batch_uses_only_ends_witness :
  let files := ["https://host/20210101.nc"; "https://host/20210102.nc";
                "https://host/20210103.nc"] in
  let env := Demo.env files [] in
  let fetcher := Demo.fsspec files "filecache::https://host/{t:%Y%m%d}.nc"
                             "/cache/{t:%Y%m%d}" (Some one_day) in
  let batch := fold_left (add_ref env fetcher)
                 (date_range (Demo.on_day 2021 1 1) (Demo.on_day 2021 1 3)
                             one_day) [] in
  fst (_make_batch env fetcher
         (TimesList [Demo.on_day 2021 1 1; Demo.on_day 2021 1 3])
         Demo.empty_world) = Ok batch /\
  exists rs,
    dict_get batch (local_path env fetcher (Demo.on_day 2021 1 2)) = Some rs /\
    In "filecache::https://host/20210102.nc" rs.
Proof.
  cbv zeta.
  destruct (make_batch_uses_only_ends
              (Demo.env ["https://host/20210101.nc"; "https://host/20210102.nc";
                         "https://host/20210103.nc"] [])
              (Demo.fsspec ["https://host/20210101.nc"; "https://host/20210102.nc";
                            "https://host/20210103.nc"]
                 "filecache::https://host/{t:%Y%m%d}.nc" "/cache/{t:%Y%m%d}"
                 (Some one_day))
              (mkTimeProps (Some one_day)) one_day
              (Demo.on_day 2021 1 1) (Demo.on_day 2021 1 1)
              [Demo.on_day 2021 1 3] Demo.empty_world
              eq_refl eq_refl eq_refl (or_introl (conj eq_refl eq_refl)))
    as [H1 [_ [_ [_ [H5 _]]]]].
  - apply locals_nonempty_dec. vm_compute. reflexivity.
  - split; [exact H1|].
    apply (H5 (Demo.on_day 2021 1 2)).
    + vm_compute. right. left. reflexivity.
    + vm_compute. reflexivity.
Defined.

Lemma cadence_detection_aligns_witness :
  fst (_make_times_strided (Demo.env Demo.composites []) Demo.composite_fetcher
         (Demo.on_day 2021 1 1) (Demo.on_day 2021 1 31) Demo.empty_world)
  = Ok [Demo.on_day 2021 1 3; Demo.on_day 2021 1 11; Demo.on_day 2021 1 19;
        Demo.on_day 2021 1 27].
Proof.
  destruct (cadence_detection_aligns (Demo.env Demo.composites [])
              Demo.composite_fetcher (mkTimeProps (Some (days 8))) (days 8)
              eq_refl eq_refl eq_refl
              (Demo.on_day 2021 1 1) (Demo.on_day 2021 1 31)
              (Demo.on_day 2021 1 3) Demo.empty_world)
    as [_ [_ [_ [[before [after [_ [_ [_ [_ H]]]]]] _]]]].
  - vm_compute. reflexivity.
  - apply locals_nonempty_dec. vm_compute. reflexivity.
  - vm_compute. reflexivity.
  - rewrite H. cbn [fst]. vm_compute. reflexivity.
Defined.

Lemma cadence_detection_exhausted_witness :
  fst (download (Demo.env Demo.composites []) Demo.composite_fetcher
         (TimesList [Demo.on_day 2021 2 1; Demo.on_day 2021 2 28])
         Demo.empty_world)
  = Raise (ValueError "No data found between").
Proof.
  destruct (cadence_detection_exhausted (Demo.env Demo.composites [])
              Demo.composite_fetcher (mkTimeProps (Some (days 8))) (days 8)
              eq_refl eq_refl eq_refl
              (Demo.on_day 2021 2 1) [Demo.on_day 2021 2 28] Demo.empty_world)
    as [_ [_ [_ [H _]]]].
  - vm_compute. reflexivity.
  - apply locals_nonempty_dec. vm_compute. reflexivity.
  - apply none_resolve_dec. vm_compute. reflexivity.
  - rewrite H. reflexivity.
Defined.

Lemma make_batch_drops_absent_and_groups_witness :
  exists batch,
    fst (_make_batch (Demo.env Demo.dailies []) Demo.daily_fetcher
           (TimesList [Demo.on_day 2021 1 30; Demo.on_day 2021 2 1])
           Demo.empty_world) = Ok batch /\
    total_refs batch = 2%nat.
Proof.
  destruct (make_batch_drops_absent_and_groups (Demo.env Demo.dailies [])
              Demo.daily_fetcher
              (Demo.on_day 2021 1 30) [Demo.on_day 2021 2 1]
              [Demo.on_day 2021 1 30; Demo.on_day 2021 1 31;
               Demo.on_day 2021 2 1]
              Demo.empty_world Demo.empty_world)
    as [batch [w2 [H1 [_ [_ [H4 _]]]]]].
  - reflexivity.
  - vm_compute. reflexivity.
  - apply locals_nonempty_dec. vm_compute. reflexivity.
  - exists batch. rewrite H1. split; [reflexivity|].
    rewrite H4. vm_compute. reflexivity.
Defined.

(** A request for 1 and 3 January on a daily archive fetches
    2 January as well, and a request naming 1, 2 and 3 January in
    another order fetches the same. *)
Example make_batch_fetches_between :
  let files := ["https://host/20210101.nc"; "https://host/20210102.nc";
                "https://host/20210103.nc"] in
  let fetcher := Demo.fsspec files "filecache::https://host/{t:%Y%m%d}.nc"
                             "/cache/{t:%Y%m%d}" (Some one_day) in
  fst (_make_batch (Demo.env files []) fetcher
         (TimesList [Demo.on_day 2021 1 1; Demo.on_day 2021 1 3])
         Demo.empty_world)
  = Ok [("/cache/20210101", ["filecache::https://host/20210101.nc"]);
        ("/cache/20210102", ["filecache::https://host/20210102.nc"]);
        ("/cache/20210103", ["filecache::https://host/20210103.nc"])] /\
  fst (_make_batch (Demo.env files []) fetcher
         (TimesList [Demo.on_day 2021 1 1; Demo.on_day 2021 1 2;
                     Demo.on_day 2020 12 25; Demo.on_day 2021 1 3])
         Demo.empty_world)
  = Ok [("/cache/20210101", ["filecache::https://host/20210101.nc"]);
        ("/cache/20210102", ["filecache::https://host/20210102.nc"]);
        ("/cache/20210103", ["filecache::https://host/20210103.nc"])].
Proof. split; vm_compute; reflexivity. Qed.

(** The batch of the daily archive with a gap: 31 January has no
    entry, and the first listed version of 30 January is taken. *)
Example make_batch_with_gap :
  fst (_make_batch (Demo.env Demo.dailies []) Demo.daily_fetcher
         (TimesList [Demo.on_day 2021 1 30; Demo.on_day 2021 2 1])
         Demo.empty_world)
  = Ok [("/cache/202101", ["filecache::https://host/20210130_v2.nc"]);
        ("/cache/202102", ["filecache::https://host/20210201_v1.nc"])].
Proof. vm_compute. reflexivity. Qed.

End FsspecFacts.

(** ** Construction and dispatch *)

Module ConstructionFacts.
Import Xarray XarrayView Utils.

Lemma nodup_length_le {A} (dec : forall x y : A, {x = y} + {x <> y})
    (l : list A) :
  (List.length (nodup dec l) <= List.length l)%nat.
Proof.
  induction l as [|a l IH]; simpl; [lia|].
  destruct (in_dec dec a l); simpl; lia.
Qed.

Lemma nodup_length_NoDup {A} (dec : forall x y : A, {x = y} + {x <> y})
    (l : list A) :
  List.length (nodup dec l) = List.length l -> NoDup l.
Proof.
  induction l as [|a l IH]; simpl; intros H; [constructor|].
  destruct (in_dec dec a l) as [Hin | Hnin].
  - pose proof (nodup_length_le dec l). lia.
  - simpl in H. constructor; [assumption|]. apply IH. lia.
Qed.

Lemma NoDup_map_injective {A B} (g : A -> B) (l : list A) :
  NoDup (map g l) ->
  forall x y, In x l -> In y l -> g x = g y -> x = y.
Proof.
  induction l as [|a l IH]; simpl; intros Hnd x y Hx Hy E; [destruct Hx|].
  inversion Hnd as [|? ? Hnin Hnd']; subst.
  destruct Hx as [<- | Hx], Hy as [<- | Hy].
  - reflexivity.
  - exfalso. apply Hnin. rewrite E. now apply in_map.
  - exfalso. apply Hnin. rewrite <- E. now apply in_map.
  - now apply IH.
Qed.

Lemma re_match_nonempty (u : string) :
  re_match protocol_pattern u = true -> u <> "".
Proof. intros H ->. discriminate H. Qed.

Section Facts.
Variable env : Collaborators.

(** Construction of the Path-Template fetcher, step by step: the
    filesystem is resolved, then the URL is matched against the
    pattern. *)
Lemma fsspec_init_eq {S} (u : string) (kwargs : Config) (s : S) :
  Fsspec.__init__ env u kwargs s
  = match url_to_fs env u (fs_options kwargs) with
    | Raise e => (Raise e, s)
    | Ok r =>
        if String.eqb u "" then
          (Raise (AssertionError "url must be defined in the kwargs"), s)
        else if re_match protocol_pattern u then
          (Ok (Fsspec.mkDownloaderFsspec u kwargs (fst r) (snd r)), s)
        else
          (Raise (AssertionError
             "url must have the format filecache::[protocol]://[path that contains {t:...}]"),
           s)
    end.
Proof.
  unfold Fsspec.__init__, Fsspec._get_fs, fs_options.
  unfold bind at 1.
  destruct (url_to_fs env u _) as [r|e]; [|reflexivity].
  unfold ret at 1. unfold Fsspec._check_url_valid, bind, py_assert.
  destruct (String.eqb u ""); [reflexivity|]. simpl.
  now destruct (re_match protocol_pattern u).
Qed.

(** Once the filesystem is resolved, construction of the Path-Template
    fetcher looks at the URL alone. *)
Lemma fsspec_init_ok {S} (u : string) (kwargs : Config) (s : S)
    (fs : RemoteFS) (urlpath : string) :
  re_match protocol_pattern u = true ->
  url_to_fs env u (fs_options kwargs) = Ok (fs, urlpath) ->
  Fsspec.__init__ env u kwargs s
  = (Ok (Fsspec.mkDownloaderFsspec u kwargs fs urlpath), s).
Proof.
  intros H Hfs. rewrite fsspec_init_eq, Hfs, H.
  destruct (String.eqb u "") eqn:E; [|reflexivity].
  apply String.eqb_eq in E. now apply re_match_nonempty in H.
Qed.

(** The constructor of the Dataset-Slice fetcher leaves the state as it
    found it, whatever it returns. *)
Lemma xarray_init_state {S} (opener : Callable) (kwargs : Config) (s : S) :
  snd (Xarray.__init__ env opener kwargs s) = s.
Proof.
  unfold Xarray.__init__, _check_cache_storage_path_valid, bind, py_assert.
  destruct (storage_options kwargs) as [[|kv so]|]; try reflexivity.
  destruct (negb _); [|reflexivity].
  destruct (str_in _ _); [|reflexivity].
  destruct (Nat.eqb _ _); reflexivity.
Qed.

Lemma xarray_init_ok_opener {S} (opener : Callable) (kwargs : Config) (s : S)
    (d : DownloaderXarray) :
  fst (Xarray.__init__ env opener kwargs s) = Ok d ->
  d = mkDownloaderXarray opener kwargs None None None.
Proof.
  unfold Xarray.__init__, bind.
  destruct (_check_cache_storage_path_valid env kwargs s) as [[[]|e] s'];
    simpl; [now intros [= <-] | discriminate].
Qed.

Lemma xarray_init_collision {S} (opener : Callable) (kwargs : Config) (s : S)
    (d1 d2 : Timestamp) :
  In d1 nine_days -> In d2 nine_days -> d1 <> d2 ->
  rendered env kwargs d1 = rendered env kwargs d2 ->
  exists e, Xarray.__init__ env opener kwargs s = (Raise e, s).
Proof.
  intros H1 H2 Hne Hsame.
  unfold Xarray.__init__, _check_cache_storage_path_valid, bind, py_assert.
  unfold rendered, cache_template in Hsame.
  destruct (storage_options kwargs) as [[|kv so]|]; try (eexists; reflexivity).
  destruct (negb _); [|eexists; reflexivity].
  destruct (str_in _ _); [|eexists; reflexivity].
  fold nine_days.
  destruct (Nat.eqb _ _) eqn:E; [|eexists; reflexivity].
  exfalso. apply Hne. apply Nat.eqb_eq in E.
  rewrite <- (length_map (format env kwargs
                            (dict_get_default (kv :: so) "cache_storage" "")))
    in E.
  apply nodup_length_NoDup in E.
  exact (NoDup_map_injective _ _ E d1 d2 H1 H2 Hsame).
Qed.

Lemma xarray_init_not_unique {S} (opener : Callable) (kwargs : Config) (s : S)
    (d1 d2 : Timestamp) :
  In d1 nine_days -> In d2 nine_days -> d1 <> d2 ->
  rendered env kwargs d1 = rendered env kwargs d2 ->
  has_storage_options kwargs = true ->
  cache_template kwargs <> "" ->
  str_in "{t:" (cache_template kwargs) = true ->
  Xarray.__init__ env opener kwargs s
  = (Raise (AssertionError
       "storage_options.cache_storage must return a unique file for each day"),
     s).
Proof.
  intros H1 H2 Hne Hsame Hso Hfn Ht.
  unfold Xarray.__init__, _check_cache_storage_path_valid, bind, py_assert.
  unfold rendered, cache_template, has_storage_options in *.
  destruct (storage_options kwargs) as [[|kv so]|]; try discriminate.
  destruct (String.eqb _ "") eqn:E0.
  { apply String.eqb_eq in E0. contradiction. }
  simpl negb. cbv iota. rewrite Ht.
  fold nine_days.
  destruct (Nat.eqb _ _) eqn:E; [|reflexivity].
  exfalso. apply Hne. apply Nat.eqb_eq in E.
  rewrite <- (length_map (format env kwargs
                            (dict_get_default (kv :: so) "cache_storage" "")))
    in E.
  apply nodup_length_NoDup in E.
  exact (NoDup_map_injective _ _ E d1 d2 H1 H2 Hsame).
Qed.

(** C3 (as amended). When the cache-storage template renders the same
    string for two of the nine days from 2000-01-01 to 2000-01-09,
    constructing the Dataset-Slice fetcher raises and leaves the state
    untouched, so nothing has been fetched; when the descriptor passes
    the earlier checks the exception is the assertion on a unique file
    for each day.  The Path-Template fetcher has no such validation: with
    a URL of the required form that fsspec resolves, its construction
    succeeds on the same descriptor. *)
Theorem day_uniqueness_checked_by_xarray_only {S}
    (opener : Callable) (kwargs : Config) (u : string) (s : S)
    (d1 d2 : Timestamp) :
  In d1 nine_days -> In d2 nine_days -> d1 <> d2 ->
  rendered env kwargs d1 = rendered env kwargs d2 ->
  (exists e, Xarray.__init__ env opener kwargs s = (Raise e, s)) /\
  (has_storage_options kwargs = true ->
   cache_template kwargs <> "" ->
   str_in "{t:" (cache_template kwargs) = true ->
   Xarray.__init__ env opener kwargs s
   = (Raise (AssertionError
        "storage_options.cache_storage must return a unique file for each day"),
      s)) /\
  (re_match protocol_pattern u = true ->
   forall fs urlpath,
     url_to_fs env u (fs_options kwargs) = Ok (fs, urlpath) ->
     Fsspec.__init__ env u kwargs s
     = (Ok (Fsspec.mkDownloaderFsspec u kwargs fs urlpath), s)).
Proof.
  intros H1 H2 Hne Hsame. split; [|split].
  - now apply (xarray_init_collision opener kwargs s d1 d2).
  - now apply (xarray_init_not_unique opener kwargs s d1 d2).
  - intros Hu fs urlpath Hfs. now apply fsspec_init_ok.
Qed.

(** C9. With [url] and [storage_options] in the configuration, the URL
    decides in this order: a URL matching the filecache pattern goes to
    the constructor of the Path-Template fetcher (and the construction
    succeeds when fsspec resolves the URL); otherwise
    a URL containing [thredds] goes to the constructor of the
    Dataset-Slice fetcher with [pydap_opener]; otherwise a URL without
    a slash goes to that constructor with [cmems_opener]; otherwise the
    code raises its [TypeError].  A fetcher that the second and third
    case return carries the opener named. *)
Theorem make_downloader_priority {S}
    (config : Config) (u : string) (so : dict string) (s : S) :
  cfg_url config = Some u ->
  storage_options config = Some so ->
  (re_match protocol_pattern u = true ->
   make_downloader env config s
   = bind (Fsspec.__init__ env u (without_url config))
          (fun d => ret (IsFsspec d)) s /\
   forall fs urlpath,
     url_to_fs env u so = Ok (fs, urlpath) ->
     make_downloader env config s
     = (Ok (IsFsspec (Fsspec.mkDownloaderFsspec u (without_url config)
                        fs urlpath)), s)) /\
  (re_match protocol_pattern u = false -> str_in "thredds" u = true ->
   make_downloader env config s
   = bind (Xarray.__init__ env pydap_opener config)
          (fun d => ret (IsXarray d)) s /\
   forall d, fst (make_downloader env config s) = Ok d ->
             d = IsXarray (mkDownloaderXarray pydap_opener config
                             None None None)) /\
  (re_match protocol_pattern u = false -> str_in "thredds" u = false ->
   str_in "/" u = false ->
   make_downloader env config s
   = bind (Xarray.__init__ env cmems_opener config)
          (fun d => ret (IsXarray d)) s /\
   forall d, fst (make_downloader env config s) = Ok d ->
             d = IsXarray (mkDownloaderXarray cmems_opener config
                             None None None)) /\
  (re_match protocol_pattern u = false -> str_in "thredds" u = false ->
   str_in "/" u = true ->
   make_downloader env config s
   = (Raise (TypeError "URL is not compatible with any known downloader"),
      s)).
Proof.
  intros Hu Hso.
  assert (Hx : forall opener d,
             fst (bind (Xarray.__init__ env opener config)
                       (fun d => @ret S _ (IsXarray d)) s) = Ok d ->
             d = IsXarray (mkDownloaderXarray opener config None None None)).
  { intros opener d. unfold bind.
    pose proof (xarray_init_ok_opener opener config s) as Hok.
    destruct (Xarray.__init__ env opener config s) as [[x|e] s'];
      simpl; [|discriminate].
    intros [= <-]. now rewrite (Hok x eq_refl). }
  assert (Hopts : fs_options (without_url config) = so).
  { unfold fs_options, without_url. simpl. now rewrite Hso. }
  unfold make_downloader. rewrite Hu, Hso. cbv zeta.
  split; [|split; [|split]].
  - intros Hre. rewrite Hre. split; [reflexivity|].
    intros fs urlpath Hfs. unfold bind.
    rewrite (fsspec_init_ok u (without_url config) s fs urlpath Hre);
      [reflexivity | now rewrite Hopts].
  - intros Hre Hth. rewrite Hre, Hth. split; [reflexivity|].
    simpl. apply Hx.
  - intros Hre Hth Hsl. rewrite Hre, Hth, Hsl. split; [reflexivity|].
    simpl. apply Hx.
  - intros Hre Hth Hsl. now rewrite Hre, Hth, Hsl.
Qed.

End Facts.

(** The template that names a file by its year renders 1 and
    2 January 2000 alike, and the Path-Template fetcher is built from it
    all the same. *)
Lemma day_uniqueness_not_checked_by_fsspec :
  let cfg := Demo.config "filecache::https://host/{t:%Y%m%d}.nc"
                         "/cache/{t:%Y}" (Some one_day) in
  rendered (Demo.env [] []) cfg (Demo.on_day 2000 1 1)
  = rendered (Demo.env [] []) cfg (Demo.on_day 2000 1 2) /\
  Demo.on_day 2000 1 1 <> Demo.on_day 2000 1 2 /\
  exists d, make_downloader (Demo.env [] []) cfg Demo.empty_world
            = (Ok (IsFsspec d), Demo.empty_world).
Proof.
  split; [vm_compute; reflexivity|]. split; [discriminate|].
  eexists. vm_compute. reflexivity.
Qed.

Lemma day_uniqueness_checked_by_xarray_only_witness :
  exists e,
    Xarray.__init__ (Demo.env [] []) pydap_opener
      (Demo.config "https://thredds.host/dodsC/sst" "/cache/{t:%Y}" None)
      Demo.empty_world
    = (Raise e, Demo.empty_world).
Proof.
  apply (day_uniqueness_checked_by_xarray_only (Demo.env [] []) pydap_opener
           (Demo.config "https://thredds.host/dodsC/sst" "/cache/{t:%Y}" None)
           "" Demo.empty_world (Demo.on_day 2000 1 1) (Demo.on_day 2000 1 2)).
  - vm_compute. tauto.
  - vm_compute. tauto.
  - discriminate.
  - vm_compute. reflexivity.
Defined.

Lemma make_downloader_priority_witness :
  exists d,
    make_downloader (Demo.env [] [])
      (Demo.config "filecache::https://thredds.host/{t:%Y%m%d}.nc"
                   "/cache/{t:%Y}" (Some one_day)) Demo.empty_world
    = (Ok (IsFsspec d), Demo.empty_world).
Proof.
  destruct (make_downloader_priority (Demo.env [] [])
              (Demo.config "filecache::https://thredds.host/{t:%Y%m%d}.nc"
                           "/cache/{t:%Y}" (Some one_day))
              "filecache::https://thredds.host/{t:%Y%m%d}.nc"
              [("cache_storage", "/cache/{t:%Y}")] Demo.empty_world
              eq_refl eq_refl) as [H _].
  destruct H as [_ H]; [vm_compute; reflexivity|].
  eexists. apply (H (Demo.remote_fs []) "https://thredds.host/{t:%Y%m%d}.nc").
  vm_compute. reflexivity.
Defined.

(** The four outcomes of the dispatch on descriptors with a valid
    cache-storage template. *)
Example make_downloader_outcomes :
  let mk u := fst (make_downloader (Demo.env [] [])
                     (Demo.config u "/cache/{t:%Y%m%d}.nc" None)
                     Demo.empty_world) in
  (exists d, mk "filecache::ftp://host/{t:%Y}/sst.nc" = Ok (IsFsspec d)) /\
  (exists d, mk "https://thredds.host/dodsC/sst" = Ok (IsXarray d)
             /\ data_opener d = pydap_opener) /\
  (exists d, mk "cmems_obs-sst_glo_phy_nrt_l4_P1D-m" = Ok (IsXarray d)
             /\ data_opener d = cmems_opener) /\
  mk "https://host/sst.nc"
  = Raise (TypeError "URL is not compatible with any known downloader").
Proof.
  cbv zeta. repeat split.
  - eexists. vm_compute. reflexivity.
  - eexists. split; [vm_compute; reflexivity | reflexivity].
  - eexists. split; [vm_compute; reflexivity | reflexivity].
Qed.

End ConstructionFacts.

(** ** The Dataset-Slice fetcher *)

Module XarrayFacts.
Import Xarray XarrayView.

Lemma quiet_nil : quiet [].
Proof. constructor. Qed.

Lemma quiet_app (e1 e2 : list event) : quiet e1 -> quiet e2 -> quiet (e1 ++ e2).
Proof. intros H1 H2. apply Forall_app. now split. Qed.

(** [nearest] returns a sample of the axis, and none is closer. *)
Lemma closer_choice (t a b : Timestamp) :
  (closer t a b = a \/ closer t a b = b) /\
  Z.abs (closer t a b - t) <= Z.abs (a - t) /\
  Z.abs (closer t a b - t) <= Z.abs (b - t).
Proof.
  unfold closer.
  destruct (Z.abs (b - t) <? Z.abs (a - t)) eqn:E1.
  - apply Z.ltb_lt in E1. repeat split; auto; lia.
  - apply Z.ltb_ge in E1.
    destruct (Z.abs (b - t) =? Z.abs (a - t)) eqn:E2; simpl.
    + apply Z.eqb_eq in E2. destruct (a <? b); repeat split; auto; lia.
    + repeat split; auto; lia.
Qed.

Lemma fold_closer (t : Timestamp) (l : list Timestamp) :
  forall a,
    In (fold_left (closer t) l a) (a :: l) /\
    forall x, In x (a :: l) ->
              Z.abs (fold_left (closer t) l a - t) <= Z.abs (x - t).
Proof.
  induction l as [|b l IH]; intros a; simpl.
  - split; [now left|]. intros x [<- | []]. lia.
  - destruct (IH (closer t a b)) as [Hin Hmin].
    destruct (closer_choice t a b) as [Hc [Ha Hb]].
    split.
    + simpl in Hin. destruct Hin as [Hin | Hin].
      * rewrite <- Hin. destruct Hc as [-> | ->]; auto.
      * auto.
    + intros x Hx.
      assert (Hm : Z.abs (fold_left (closer t) l (closer t a b) - t)
                   <= Z.abs (closer t a b - t)).
      { apply Hmin. now left. }
      destruct Hx as [<- | [<- | Hx]]; try lia.
      apply Hmin. now right.
Qed.

Lemma nearest_spec (axis : list Timestamp) (t t_out : Timestamp) :
  nearest axis t = Some t_out ->
  In t_out axis /\
  forall x, In x axis -> Z.abs (t_out - t) <= Z.abs (x - t).
Proof.
  destruct axis as [|a l]; simpl; [discriminate|].
  intros [= <-]. apply fold_closer.
Qed.

Lemma nearest_nonempty (axis : list Timestamp) (t : Timestamp) :
  axis <> [] -> exists t_out, nearest axis t = Some t_out.
Proof. destruct axis; [contradiction | eexists; reflexivity]. Qed.

Section Facts.
Variable env : Collaborators.

(** What [data] changes: it may log the opening and fill [_data]. *)
Lemma data_spec (s : state) :
  data_opener (self (snd (data env s))) = data_opener (self s) /\
  _kwargs (self (snd (data env s))) = _kwargs (self s) /\
  _previous_fname (self (snd (data env s))) = _previous_fname (self s) /\
  (exists evs, outside (snd (data env s)) = add_events evs (outside s)
               /\ quiet evs) /\
  match fst (data env s) with
  | Ok d => _data (self (snd (data env s))) = Some d
  | Raise _ => _data (self (snd (data env s))) = _data (self s)
  end.
Proof.
  assert (H0 : exists evs, outside s = add_events evs (outside s) /\ quiet evs).
  { exists []. split; [now rewrite add_events_nil | apply quiet_nil]. }
  assert (H1 : forall u, exists evs,
               emit (EvOpenDataset u) (outside s) = add_events evs (outside s)
               /\ quiet evs).
  { intros u. exists [EvOpenDataset u]. split; [reflexivity|].
    constructor; [intros []|constructor]. }
  unfold data, bind, get, modify, py_assert, subset, raise, ret. simpl.
  destruct (_data (self s)) as [d|] eqn:Ed; simpl.
  { rewrite Ed. auto. }
  destruct (cfg_url (_kwargs (self s))) as [u|]; simpl.
  2:{ rewrite Ed. auto. }
  destruct (call_opener env (data_opener (self s)) u) as [all_vars|e]; simpl.
  2:{ rewrite Ed. auto. }
  destruct (Nat.ltb _ _); simpl.
  2:{ rewrite Ed. auto. }
  destruct (forallb _ _); simpl.
  - auto.
  - rewrite Ed. auto.
Qed.

(** The dataset depends on the opener, the descriptor and [_data]
    only. *)
Lemma source_indep (s1 s2 : state) :
  data_opener (self s1) = data_opener (self s2) ->
  _kwargs (self s1) = _kwargs (self s2) ->
  _data (self s1) = _data (self s2) ->
  source env s1 = source env s2.
Proof.
  intros Ho Hk Hd.
  unfold source, data, bind, get, modify, py_assert, subset, raise, ret. simpl.
  rewrite Ho, Hk, Hd.
  destruct (_data (self s2)); simpl; [reflexivity|].
  destruct (cfg_url (_kwargs (self s2))); simpl; [|reflexivity].
  destruct (call_opener _ _ _); simpl; [|reflexivity].
  destruct (Nat.ltb _ _); simpl; [|reflexivity].
  destruct (forallb _ _); reflexivity.
Qed.

Lemma data_opened (s : state) (d : Dataset) :
  _data (self s) = Some d -> data env s = (Ok d, s).
Proof.
  intros H. unfold data, bind, get. now rewrite H.
Qed.

Lemma source_after_data (s : state) :
  source env (snd (data env s)) = source env s.
Proof.
  destruct (data_spec s) as [Ho [Hk [_ [_ Hd]]]].
  fold (source env s) in Hd.
  destruct (source env s) as [d|e] eqn:E.
  - unfold source at 1. now rewrite (data_opened _ d Hd).
  - rewrite <- E. now apply source_indep.
Qed.

Lemma make_local_path_view (t : Timestamp) (s : state) :
  _make_local_path env t s
  = (target env (Ok (mkDataset "" [] [t])) (_kwargs (self s)) t, s).
Proof.
  unfold _make_local_path, target, bind, get, has_storage_options,
    rendered, cache_template.
  simpl nearest. cbv iota.
  destruct (storage_options (_kwargs (self s))) as [[|kv so]|]; try reflexivity.
  destruct (String.eqb _ ""); reflexivity.
Qed.

(** One request, step by step. *)
Lemma step_eq (t : Timestamp) (s : state) :
  _download_single_timestep env t s
  = match data env (set_previous_fname EmptyStr s) with
    | (Raise e, s1) => (Raise e, s1)
    | (Ok d, s1) =>
        match nearest (ds_time d) t with
        | None =>
            (Raise (KeyError "not all values found in index 'time'"), s1)
        | Some t_out =>
            match target env (Ok (mkDataset "" [] [t_out]))
                         (_kwargs (self s1)) t_out with
            | Raise e => (Raise e, s1)
            | Ok fname =>
                match _previous_fname (self s1) with
                | None => (Raise (AttributeError "_previous_fname"), s1)
                | Some prev =>
                    (Ok fname,
                     set_previous_fname (PathValue fname)
                       (if on_disk (outside s1) fname
                           && path_differs fname prev
                        then s1
                        else in_world (create_file fname)
                               (in_world (emit (EvToNetcdf fname))
                                  (in_world (emit (EvCompute t_out)) s1))))
                end
            end
        end
    end.
Proof.
  unfold _download_single_timestep, _get_data.
  unfold bind at 1. unfold modify at 1.
  unfold bind at 1. unfold bind at 1.
  destruct (data env (set_previous_fname EmptyStr s)) as [[d|e] s1];
    [|reflexivity].
  destruct (nearest (ds_time d) t) as [t_out|]; [|reflexivity].
  unfold ret at 1. simpl first_item. unfold bind at 1. unfold ret at 1.
  unfold bind at 1. rewrite make_local_path_view.
  destruct (target env _ (_kwargs (self s1)) t_out) as [fname|e];
    [|reflexivity].
  unfold bind at 1. unfold get at 1.
  destruct (_previous_fname (self s1)) as [prev|]; [|reflexivity].
  destruct (on_disk (outside s1) fname && path_differs fname prev);
    reflexivity.
Qed.

Lemma target_single (kwargs : Config) (d : Dataset) (t t_out : Timestamp) :
  nearest (ds_time d) t = Some t_out ->
  target env (Ok (mkDataset "" [] [t_out])) kwargs t_out
  = target env (Ok d) kwargs t.
Proof. intros H. unfold target. simpl nearest. now rewrite H. Qed.

(** One request: what it returns, what it keeps, and when it is
    quiet. *)
Lemma step_spec (t : Timestamp) (s : state) :
  let out := _download_single_timestep env t s in
  fst out = target env (source env s) (_kwargs (self s)) t /\
  data_opener (self (snd out)) = data_opener (self s) /\
  _kwargs (self (snd out)) = _kwargs (self s) /\
  source env (snd out) = source env s /\
  (forall q, on_disk (outside s) q = true ->
             on_disk (outside (snd out)) q = true) /\
  (forall p, fst out = Ok p -> on_disk (outside (snd out)) p = true) /\
  ((forall p, fst out = Ok p -> on_disk (outside s) p = true) ->
   exists evs, outside (snd out) = add_events evs (outside s) /\ quiet evs).
Proof.
  cbv zeta. rewrite step_eq.
  set (s0 := set_previous_fname EmptyStr s).
  assert (Hs0 : source env s0 = source env s) by now apply source_indep.
  destruct (data_spec s0) as [Ho [Hk [Hp [[evs [Hw Hq]] Hd]]]].
  pose proof (source_after_data s0) as Hsrc. rewrite Hs0 in Hsrc.
  assert (Hfst : fst (data env s0) = source env s) by exact Hs0.
  assert (Hkeep : forall q, on_disk (outside s) q = true ->
                            on_disk (outside (snd (data env s0))) q = true).
  { intros q Hq'. now rewrite Hw. }
  assert (Hquiet : exists evs, outside (snd (data env s0))
                               = add_events evs (outside s) /\ quiet evs).
  { exists evs. auto. }
  destruct (data env s0) as [[d|e] s1]; cbn [fst snd] in *;
    rewrite <- Hfst; simpl in Ho, Hk, Hp, Hw, Hd.
  2:{ cbn [target fst snd]. repeat split; auto; congruence. }
  destruct (nearest (ds_time d) t) as [t_out|] eqn:En.
  2:{ assert (Ht : target env (Ok d) (_kwargs (self s)) t
                   = Raise (KeyError "not all values found in index 'time'")).
      { unfold target. now rewrite En. }
      rewrite Ht. cbn [fst snd]. repeat split; auto; congruence. }
  rewrite (target_single _ d t t_out En), Hk.
  destruct (target env (Ok d) (_kwargs (self s)) t) as [fname|e].
  2:{ cbn [fst snd]. repeat split; auto; congruence. }
  rewrite Hp. cbn [path_differs]. rewrite andb_true_r. cbn [fst snd].
  destruct (on_disk (outside s1) fname) eqn:Edisk.
  - repeat split; auto.
    + rewrite Hfst, <- Hsrc. now apply source_indep.
    + intros p [= <-]. exact Edisk.
  - repeat split; auto.
    + rewrite Hfst, <- Hsrc. now apply source_indep.
    + intros q Hq'. apply on_disk_create_mono. now apply Hkeep.
    + intros p [= <-]. apply on_disk_create_same.
    + intros Hall. specialize (Hall fname eq_refl).
      rewrite Hw, on_disk_add_events in Edisk. congruence.
Qed.

(** The outcomes of the requests of one call, from the state it starts
    in. *)
Lemma run_spec (times : list Timestamp) :
  forall (flist : list string) (s : state),
    let outcomes :=
      map (target env (source env s) (_kwargs (self s))) times in
    let out := download_each env times flist s in
    fst out = collect outcomes flist /\
    data_opener (self (snd out)) = data_opener (self s) /\
    _kwargs (self (snd out)) = _kwargs (self s) /\
    source env (snd out) = source env s /\
    (forall q, on_disk (outside s) q = true ->
               on_disk (outside (snd out)) q = true) /\
    (forall p, In p (served outcomes) ->
               on_disk (outside (snd out)) p = true) /\
    ((forall p, In p (served outcomes) -> on_disk (outside s) p = true) ->
     exists evs, outside (snd out) = add_events evs (outside s) /\ quiet evs).
Proof.
  induction times as [|t times IH]; intros flist s; cbv zeta.
  - simpl. repeat split; auto; try (now intros ? []).
    intros _. exists []. split; [now rewrite add_events_nil | apply quiet_nil].
  - cbn [download_each map]. unfold bind.
    destruct (step_spec t s) as [Hr [Ho [Hk [Hsrc [Hkeep [Hstore Hquiet]]]]]].
    destruct (_download_single_timestep env t s) as [[p|e] s1];
      cbn [fst snd] in *; rewrite <- Hr; cbn [collect served].
    2:{ repeat split; auto; try (now intros ? []).
        intros _. apply Hquiet. intros p Hp. discriminate Hp. }
    specialize (IH (flist ++ [p]) s1). cbv zeta in IH.
    rewrite Hsrc, Hk in IH.
    destruct IH as [Hr' [Ho' [Hk' [Hsrc' [Hkeep' [Hstore' Hquiet']]]]]].
    repeat split; try congruence.
    + intros q Hq. apply Hkeep'. now apply Hkeep.
    + intros q [<- | Hq].
      * apply Hkeep'. now apply Hstore.
      * now apply Hstore'.
    + intros Hall.
      destruct Hquiet as [evs1 [Hw1 Hq1]].
      { intros q [= <-]. apply Hall. now left. }
      destruct Hquiet' as [evs2 [Hw2 Hq2]].
      { intros q Hq. apply Hkeep. apply Hall. now right. }
      exists (evs1 ++ evs2). split; [|now apply quiet_app].
      now rewrite Hw2, Hw1, add_events_app.
Qed.

(** Calling [download] again with the same request: the same result,
    and no slice is computed or written in between. *)
Lemma xarray_download_again (times : times_arg) (s : state) :
  let first := download env times s in
  let second := download env times (snd first) in
  fst second = fst first /\
  exists evs, outside (snd second) = add_events evs (outside (snd first))
              /\ quiet evs.
Proof.
  cbv zeta. unfold download.
  assert (Hother : forall (e : exn) (s0 : state),
             exists evs, outside s0 = add_events evs (outside s0) /\ quiet evs).
  { intros _ s0. exists []. split; [now rewrite add_events_nil | apply quiet_nil]. }
  assert (Hlist : forall l,
    fst (download_each env l [] (snd (download_each env l [] s)))
    = fst (download_each env l [] s) /\
    exists evs,
      outside (snd (download_each env l [] (snd (download_each env l [] s))))
      = add_events evs (outside (snd (download_each env l [] s)))
      /\ quiet evs).
  { intros l.
    destruct (run_spec l [] s) as [Hr [Ho [Hk [Hsrc [Hkeep [Hstore _]]]]]].
    set (s1 := snd (download_each env l [] s)) in *.
    destruct (run_spec l [] s1) as [Hr' [_ [_ [_ [_ [_ Hquiet']]]]]].
    rewrite Hsrc, Hk in Hr', Hquiet'.
    split; [congruence|]. apply Hquiet'. exact Hstore. }
  destruct times as [str|t|l|l|]; cbn [normalise_times]; unfold bind, ret, raise;
    try apply Hlist.
  split; [reflexivity|]. now apply (Hother (ValueError "")).
Qed.

(** C8. A request is served from the nearest sample of the time axis,
    whether or not it is the requested instant: the sample is one of
    the axis, no other sample is closer to the request, and the path
    returned, and present on disk afterwards, is the one rendered from
    that sample. *)
Theorem nearest_sample_names_the_file
    (t : Timestamp) (s : state) (d : Dataset) :
  source env s = Ok d ->
  ds_time d <> [] ->
  has_storage_options (_kwargs (self s)) = true ->
  (forall x, In x (ds_time d) -> rendered env (_kwargs (self s)) x <> "") ->
  exists t_out,
    nearest (ds_time d) t = Some t_out /\
    In t_out (ds_time d) /\
    (forall x, In x (ds_time d) -> Z.abs (t_out - t) <= Z.abs (x - t)) /\
    fst (_download_single_timestep env t s)
    = Ok (path_str env (rendered env (_kwargs (self s)) t_out)) /\
    on_disk (outside (snd (_download_single_timestep env t s)))
            (path_str env (rendered env (_kwargs (self s)) t_out)) = true.
Proof.
  intros Hsrc Haxis Hso Hloc.
  destruct (nearest_nonempty (ds_time d) t Haxis) as [t_out Hn].
  destruct (nearest_spec _ _ _ Hn) as [Hin Hmin].
  exists t_out. repeat split; auto.
  - destruct (step_spec t s) as [Hr _]. cbv zeta in Hr.
    rewrite Hr, Hsrc. unfold target. rewrite Hn, Hso.
    destruct (String.eqb _ "") eqn:E; [|reflexivity].
    apply String.eqb_eq in E. now apply Hloc in E.
  - destruct (step_spec t s) as [Hr [_ [_ [_ [_ [Hstore _]]]]]].
    cbv zeta in Hr, Hstore. apply Hstore.
    rewrite Hr, Hsrc. unfold target. rewrite Hn, Hso.
    destruct (String.eqb _ "") eqn:E; [|reflexivity].
    apply String.eqb_eq in E. now apply Hloc in E.
Qed.

(** C5. Asking twice for the same time gives the same local paths, and
    the second call moves no data: the Dataset-Slice fetcher computes
    and writes nothing, the Path-Template fetcher only probes, its cache
    transferring nothing.  A request whose path is already on disk is
    served without computing or writing, so an existing file is not
    written again. *)
Theorem download_twice :
  (forall (times : times_arg) (s : state),
      let first := download env times s in
      let second := download env times (snd first) in
      fst second = fst first /\
      exists evs, outside (snd second) = add_events evs (outside (snd first))
                  /\ quiet evs) /\
  (forall (fetcher : Fsspec.DownloaderFsspec) (times : times_arg) (w : world),
      let first := Fsspec.download env fetcher times w in
      let second := Fsspec.download env fetcher times (snd first) in
      fst second = fst first /\
      exists evs, Forall is_probe evs
                  /\ snd second = add_events evs (snd first)) /\
  (forall (t : Timestamp) (s : state) (p : string),
      fst (_download_single_timestep env t s) = Ok p ->
      on_disk (outside s) p = true ->
      exists evs,
        outside (snd (_download_single_timestep env t s))
        = add_events evs (outside s) /\ quiet evs).
Proof.
  split; [exact xarray_download_again|].
  split; [intros fetcher; exact (FsspecFacts.fsspec_download_again env fetcher)|].
  intros t s p Hp Hdisk.
  destruct (step_spec t s) as [_ [_ [_ [_ [_ [_ Hquiet]]]]]].
  apply Hquiet. intros q Hq. rewrite Hp in Hq. now injection Hq as <-.
Qed.

End Facts.

(** A dataset sampled at noon of 1 January 2000 only. *)

Lemma nearest_sample_names_the_file_witness :
  fst (_download_single_timestep (Demo.env [] [Demo.at_time 2000 1 1 12])
         (Demo.at_time 2000 1 1 0)
         (mkState (Demo.xarray "https://thredds.host/dodsC/sst"
                               "/cache/{t:%Y%m%d_%H}.nc") Demo.empty_world))
  = Ok "/cache/20000101_12.nc".
Proof.
  destruct (nearest_sample_names_the_file
              (Demo.env [] [Demo.at_time 2000 1 1 12])
              (Demo.at_time 2000 1 1 0)
              (mkState (Demo.xarray "https://thredds.host/dodsC/sst"
                                    "/cache/{t:%Y%m%d_%H}.nc") Demo.empty_world)
              (mkDataset "https://thredds.host/dodsC/sst" ["sst"]
                         [Demo.at_time 2000 1 1 12]))
    as [t_out [Hn [_ [_ [H _]]]]].
  - reflexivity.
  - discriminate.
  - reflexivity.
  - intros x [<- | []]. vm_compute. discriminate.
  - vm_compute in Hn. injection Hn as <-. rewrite H. vm_compute. reflexivity.
Defined.

Lemma download_twice_witness :
  let env := Demo.env [] [Demo.at_time 2000 1 1 12] in
  let s := mkState (Demo.xarray "https://thredds.host/dodsC/sst"
                                "/cache/{t:%Y%m%d}.nc") Demo.empty_world in
  let first := download env (TimesTimestamp (Demo.at_time 2000 1 1 0)) s in
  let second :=
    download env (TimesTimestamp (Demo.at_time 2000 1 1 0)) (snd first) in
  fst second = fst first.
Proof.
  cbv zeta.
  apply (download_twice (Demo.env [] [Demo.at_time 2000 1 1 12])).
Defined.

(** C1 (the code departs from the claim). Two consecutive requests of
    one call, for midnight and for six o'clock, select the same sample
    and so the same path; the file is computed and written once, for
    the first request, and the second request finds it and skips,
    although the path is the destination of the request just before.  A
    further call for the same sample, made when [_previous_fname] holds
    that very path, skips as well. *)
Theorem same_sample_twice_is_materialized_once :
  let env := Demo.env [] [Demo.at_time 2000 1 1 12] in
  let s := mkState (Demo.xarray "https://thredds.host/dodsC/sst"
                                "/cache/{t:%Y%m%d}.nc") Demo.empty_world in
  let out := download env (TimesList [Demo.at_time 2000 1 1 0;
                                      Demo.at_time 2000 1 1 6]) s in
  let again := download env (TimesTimestamp (Demo.at_time 2000 1 1 6))
                        (snd out) in
  fst out = Ok ["/cache/20000101.nc"; "/cache/20000101.nc"] /\
  log (outside (snd out))
  = [EvOpenDataset "https://thredds.host/dodsC/sst";
     EvCompute (Demo.at_time 2000 1 1 12);
     EvToNetcdf "/cache/20000101.nc"] /\
  _previous_fname (self (snd out)) = Some (PathValue "/cache/20000101.nc") /\
  fst again = Ok ["/cache/20000101.nc"] /\
  log (outside (snd again)) = log (outside (snd out)).
Proof. vm_compute. repeat split; reflexivity. Qed.

End XarrayFacts.

(** * Further properties *)

(** ** The URL check of the Path-Template fetcher *)

Module UrlFacts.

Lemma star_dot_spec (s : string) :
  matches (Star Dot) s <-> no_newline s = true.
Proof.
  split.
  - intros H. remember (Star Dot) as r eqn:Er.
    induction H as [| | | | | | |r0 s1 s2 H1 _ H2 IH2]; try discriminate.
    + reflexivity.
    + injection Er as ->. specialize (IH2 eq_refl).
      inversion H1 as [| |c Hc| | | | |]; subst. simpl.
      rewrite IH2, andb_true_r. apply negb_true_iff.
      destruct (Ascii.eqb c newline) eqn:E; [|reflexivity].
      apply Ascii.eqb_eq in E. contradiction.
  - induction s as [|c s IH]; simpl; intros H; [constructor|].
    apply andb_true_iff in H. destruct H as [Hc Hs].
    change (String c s) with (String c "" ++ s)%string.
    constructor; [|now apply IH].
    constructor. intros ->. now rewrite Ascii.eqb_refl in Hc.
Qed.

Lemma protocol_spec (p : string) :
  matches protocol p <-> In p protocol_names.
Proof.
  unfold protocol, protocol_names. split.
  - intros H.
    repeat (apply matches_alt_inv in H; destruct H as [H | H]);
      apply matches_lit in H; subst; simpl; auto.
  - intros [<- | [<- | [<- | [<- | []]]]].
    + apply MAltL. now apply matches_lit.
    + apply MAltR, MAltL. now apply matches_lit.
    + apply MAltR, MAltR, MAltL. now apply matches_lit.
    + apply MAltR, MAltR, MAltR. now apply matches_lit.
Qed.

Lemma star_spec (r : regex) (s : string) :
  matches (Star r) s <->
  exists l, Forall (matches r) l /\ s = join l.
Proof.
  split.
  - intros H. remember (Star r) as r' eqn:Er.
    induction H as [| | | | | | |r0 s1 s2 H1 _ H2 IH2]; try discriminate.
    + exists []. split; [constructor | reflexivity].
    + injection Er as ->. destruct (IH2 eq_refl) as [l [Hl ->]].
      exists (s1 :: l). split; [now constructor | reflexivity].
  - intros [l [Hl ->]]. induction Hl as [|x l Hx Hl IH]; simpl.
    + constructor.
    + now constructor.
Qed.

Lemma plus_protocol_spec (p : string) :
  matches (Plus protocol) p <->
  exists names, names <> [] /\ Forall (fun n => In n protocol_names) names
                /\ p = join names.
Proof.
  unfold Plus. split.
  - intros H. destruct (matches_cat_inv _ _ _ H) as [s1 [s2 [-> [H1 H2]]]].
    apply protocol_spec in H1. apply star_spec in H2.
    destruct H2 as [l [Hl ->]]. exists (s1 :: l).
    split; [discriminate|]. split; [|reflexivity].
    constructor; [assumption|].
    apply Forall_forall. intros x Hx. apply protocol_spec.
    rewrite Forall_forall in Hl. now apply Hl.
  - intros [names [Hne [Hall ->]]].
    destruct names as [|n names]; [contradiction|].
    inversion Hall as [|? ? Hn Hrest]; subst. simpl.
    constructor; [now apply protocol_spec|].
    apply star_spec. exists names. split; [|reflexivity].
    apply Forall_forall. intros x Hx. apply protocol_spec.
    rewrite Forall_forall in Hrest. now apply Hrest.
Qed.

Lemma re_match_url_shape (u : string) :
  re_match protocol_pattern u = true <-> url_shape u.
Proof.
  rewrite protocol_pattern_shape. unfold url_shape. split.
  - intros [proto [a [b [rest [-> [H1 [H2 H3]]]]]]].
    apply plus_protocol_spec in H1. destruct H1 as [names [Hne [Hall ->]]].
    apply star_dot_spec in H2, H3.
    exists names, a, b, rest. auto.
  - intros [names [a [b [rest [Hne [Hall [Ha [Hb ->]]]]]]]].
    exists (join names), a, b, rest.
    split; [reflexivity|]. split; [|split; now apply star_dot_spec].
    apply plus_protocol_spec. exists names. auto.
Qed.

Section Facts.
Variable env : Collaborators.

(** X1. The URL check of the Path-Template fetcher lets a URL through
    exactly when it reads [filecache::], then one or more of the names
    http, https, ftp and sftp written one after the other, then [://],
    then on the same line a [{t:] that is closed by a later [}];
    whatever follows is free.  The constructor asks fsspec for the
    filesystem before it checks the URL: when fsspec raises, the
    constructor ends with that exception whatever the URL looks like;
    when fsspec resolves the URL, the constructor succeeds exactly when
    the URL has the shape and raises an [AssertionError] when it has
    not. *)
Theorem url_accepted_iff_shape {S} (u : string) (kwargs : Config) (s : S) :
  (Fsspec._check_url_valid u s = (Ok tt, s) <-> url_shape u) /\
  (forall e,
      url_to_fs env u (fs_options kwargs) = Raise e ->
      Fsspec.__init__ env u kwargs s = (Raise e, s)) /\
  (forall fs urlpath,
      url_to_fs env u (fs_options kwargs) = Ok (fs, urlpath) ->
      (url_shape u ->
       Fsspec.__init__ env u kwargs s
       = (Ok (Fsspec.mkDownloaderFsspec u kwargs fs urlpath), s)) /\
      (~ url_shape u ->
       exists msg,
         Fsspec.__init__ env u kwargs s = (Raise (AssertionError msg), s))) /\
  ((exists d, Fsspec.__init__ env u kwargs s = (Ok d, s)) <->
   url_shape u /\ exists r, url_to_fs env u (fs_options kwargs) = Ok r).
Proof.
  assert (Hcheck : Fsspec._check_url_valid u s = (Ok tt, s) <-> url_shape u).
  { rewrite <- re_match_url_shape.
    unfold Fsspec._check_url_valid, bind, py_assert, ret, raise.
    destruct (String.eqb u "") eqn:E; simpl.
    - apply String.eqb_eq in E. subst u. split; discriminate.
    - destruct (re_match protocol_pattern u); split; try reflexivity;
        discriminate. }
  split; [exact Hcheck|].
  pose proof (re_match_url_shape u) as Hs.
  rewrite (ConstructionFacts.fsspec_init_eq env u kwargs s).
  split; [|split].
  - intros e He. now rewrite He.
  - intros fs urlpath Hfs. rewrite Hfs. cbn [fst snd]. split.
    + intros Hu. apply Hs in Hu. rewrite Hu.
      destruct (String.eqb u "") eqn:E; [|reflexivity].
      apply String.eqb_eq in E.
      now apply ConstructionFacts.re_match_nonempty in Hu.
    + intros Hn. destruct (String.eqb u ""); [eexists; reflexivity|].
      destruct (re_match protocol_pattern u);
        [exfalso; apply Hn; now apply Hs|].
      eexists. reflexivity.
  - destruct (url_to_fs env u (fs_options kwargs)) as [r|e].
    + destruct (String.eqb u "") eqn:E.
      * apply String.eqb_eq in E. subst u. split.
        -- intros [d Hd]. discriminate Hd.
        -- intros [Hu _]. apply Hs in Hu. discriminate Hu.
      * destruct (re_match protocol_pattern u); split.
        -- intros _. split; [now apply Hs | now exists r].
        -- intros _. eexists. reflexivity.
        -- intros [d Hd]. discriminate Hd.
        -- intros [Hu _]. apply Hs in Hu. discriminate Hu.
    + split.
      * intros [d Hd]. discriminate Hd.
      * intros [_ [r Hr]]. discriminate Hr.
Qed.

End Facts.

(** A URL that repeats protocol names passes the check of the package,
    and the constructor still ends with the exception of a filesystem
    layer that does not know the protocol. *)
Example url_with_two_protocols :
  @Fsspec._check_url_valid unit "filecache::httpsftp://host/{t:%Y}.nc" tt
  = (Ok tt, tt) /\
  Fsspec.__init__ (Demo.env [] []) "filecache::httpsftp://host/{t:%Y}.nc"
    (without_url (Demo.config "filecache::httpsftp://host/{t:%Y}.nc"
                              "/cache/{t:%Y}" None)) tt
  = (Raise (ValueError "Protocol not known"), tt).
Proof. split; vm_compute; reflexivity. Qed.

Lemma url_accepted_iff_shape_witness :
  exists d,
    Fsspec.__init__ (Demo.env [] []) "filecache::https://host/{t:%Y%m%d}.nc"
      (without_url (Demo.config "filecache::https://host/{t:%Y%m%d}.nc"
                                "/cache/{t:%Y}" None))
      Demo.empty_world
    = (Ok d, Demo.empty_world).
Proof.
  destruct (url_accepted_iff_shape (Demo.env [] [])
              "filecache::https://host/{t:%Y%m%d}.nc"
              (without_url (Demo.config "filecache::https://host/{t:%Y%m%d}.nc"
                                        "/cache/{t:%Y}" None))
              Demo.empty_world) as [_ [_ [_ [_ H]]]].
  apply H. split.
  - exists ["https"], "host/", "%Y%m%d", ".nc".
    split; [discriminate|].
    split; [constructor; [simpl; auto | constructor]|].
    repeat split.
  - eexists. vm_compute. reflexivity.
Defined.

End UrlFacts.

(** ** Construction of the Dataset-Slice fetcher and the dispatch *)

Module ConstructionMore.
Import Xarray XarrayView Utils ConstructionFacts.

Section Facts.
Variable env : Collaborators.

(** X2. The checks of the constructor of the Dataset-Slice fetcher,
    for a template that [str.format] renders.  When the constructor
    returns, [storage_options] is not empty, [cache_storage] is a
    non-empty string that contains [{t:], the template renders nine
    different strings for the nine days from 2000-01-01, and the object
    returned holds the opener and the configuration given and nothing
    opened.  Each check, when it is the first to fail, raises its own
    exception: a [ValueError] for empty options, an [AssertionError]
    with the message of the check for an empty template, for a template
    without [{t:], and for two days that render alike. *)
Theorem xarray_constructor_checks {S}
    (opener : Callable) (kwargs : Config) (s : S) :
  (forall d,
      fst (Xarray.__init__ env opener kwargs s) = Ok d ->
      has_storage_options kwargs = true /\
      cache_template kwargs <> "" /\
      str_in "{t:" (cache_template kwargs) = true /\
      NoDup (map (rendered env kwargs) nine_days) /\
      d = mkDownloaderXarray opener kwargs None None None) /\
  (has_storage_options kwargs = false ->
   Xarray.__init__ env opener kwargs s
   = (Raise (ValueError "storage_options must be defined in the kwargs"), s)) /\
  (has_storage_options kwargs = true -> cache_template kwargs = "" ->
   Xarray.__init__ env opener kwargs s
   = (Raise (AssertionError
        "storage_options.cache_storage must be defined in the kwargs"), s)) /\
  (has_storage_options kwargs = true -> cache_template kwargs <> "" ->
   str_in "{t:" (cache_template kwargs) = false ->
   Xarray.__init__ env opener kwargs s
   = (Raise (AssertionError
        "storage_options.cache_storage must contain '{t:...}'"), s)) /\
  (has_storage_options kwargs = true -> cache_template kwargs <> "" ->
   str_in "{t:" (cache_template kwargs) = true ->
   ~ NoDup (map (rendered env kwargs) nine_days) ->
   Xarray.__init__ env opener kwargs s
   = (Raise (AssertionError
        "storage_options.cache_storage must return a unique file for each day"),
      s)).
Proof.
  unfold Xarray.__init__, _check_cache_storage_path_valid, bind, py_assert,
    ret, raise, has_storage_options, rendered, cache_template.
  destruct (storage_options kwargs) as [[|kv so]|].
  1,3: (repeat split; try discriminate; try reflexivity;
        intros d H; discriminate H).
  set (fname := dict_get_default (kv :: so) "cache_storage" "").
  fold nine_days.
  destruct (String.eqb fname "") eqn:E0; cbn [negb].
  { apply String.eqb_eq in E0.
    split; [intros d H; discriminate H|].
    repeat split; try discriminate; try reflexivity; try contradiction. }
  assert (Hne : fname <> "").
  { intros H. rewrite H in E0. discriminate. }
  destruct (str_in "{t:" fname) eqn:E1.
  2:{ split; [intros d H; discriminate H|].
      repeat split; try discriminate; try reflexivity; try contradiction. }
  destruct (Nat.eqb _ _) eqn:E2.
  - assert (Hnd : NoDup (map (format env kwargs fname) nine_days)).
    { apply Nat.eqb_eq in E2.
      rewrite <- (length_map (format env kwargs fname)) in E2.
      now apply nodup_length_NoDup in E2. }
    split.
    + intros d [= <-]. repeat split; auto.
    + repeat split; try discriminate; try contradiction.
  - split; [intros d H; discriminate H|].
    repeat split; try discriminate; try reflexivity; try contradiction.
Qed.

(** X3. The branch of the dispatch that the code calls an impossible
    situation is one: the exceptions of [fsspec.url_to_fs] pass through
    the dispatch unchanged, and as long as it raises none with that
    very message, [make_downloader] never raises that [ValueError],
    whatever the configuration. *)
Theorem make_downloader_never_impossible {S} (config : Config) (s : S) :
  (forall u so,
      url_to_fs env u so
      <> Raise (ValueError "An impossible situation has occured")) ->
  fst (make_downloader env config s)
  <> Raise (ValueError "An impossible situation has occured").
Proof.
  intros Hfs. unfold make_downloader.
  destruct (cfg_url config) as [u|]; [|discriminate].
  destruct (storage_options config) as [so|] eqn:Eso; [|discriminate].
  cbv zeta.
  assert (Hx : forall opener,
             fst (bind (Xarray.__init__ env opener config)
                       (fun d => @ret S _ (IsXarray d)) s)
             <> Raise (ValueError "An impossible situation has occured")).
  { intros opener.
    unfold Xarray.__init__, _check_cache_storage_path_valid, bind, py_assert,
      ret, raise.
    rewrite Eso. destruct so as [|kv so]; [discriminate|].
    destruct (negb _); [|discriminate].
    destruct (str_in "{t:" _); [|discriminate].
    destruct (Nat.eqb _ _); discriminate. }
  destruct (re_match protocol_pattern u) eqn:Ere.
  - unfold bind. rewrite (fsspec_init_eq env u (without_url config) s), Ere.
    specialize (Hfs u (fs_options (without_url config))).
    destruct (url_to_fs env u (fs_options (without_url config))) as [r|e].
    + destruct (String.eqb u ""); discriminate.
    + cbn [fst]. intros H. apply Hfs. now injection H as ->.
  - destruct (str_in "thredds" u); cbn [orb]; [apply Hx|].
    destruct (negb (str_in "/" u)); [apply Hx | discriminate].
Qed.

End Facts.

Lemma nodup_fixed_NoDup (l : list string) :
  nodup string_dec l = l -> NoDup l.
Proof. intros H. rewrite <- H. apply NoDup_nodup. Qed.

Lemma xarray_constructor_checks_witness :
  Xarray.__init__ (Demo.env [] []) pydap_opener
    (Demo.config "https://thredds.host/dodsC/sst" "/cache/{t:%Y%m}.nc" None)
    Demo.empty_world
  = (Raise (AssertionError
       "storage_options.cache_storage must return a unique file for each day"),
     Demo.empty_world).
Proof.
  destruct (xarray_constructor_checks (Demo.env [] []) pydap_opener
              (Demo.config "https://thredds.host/dodsC/sst"
                           "/cache/{t:%Y%m}.nc" None)
              Demo.empty_world) as [_ [_ [_ [_ H]]]].
  apply H.
  - reflexivity.
  - discriminate.
  - reflexivity.
  - intros Hnd. apply (nodup_fixed_point string_dec) in Hnd.
    vm_compute in Hnd. discriminate Hnd.
Defined.

Lemma make_downloader_never_impossible_witness :
  fst (make_downloader (Demo.env [] [])
         (Demo.config "filecache::httpsftp://host/{t:%Y}.nc"
                      "/cache/{t:%Y%m%d}.nc" None) Demo.empty_world)
  <> Raise (ValueError "An impossible situation has occured").
Proof.
  apply (make_downloader_never_impossible (Demo.env [] [])).
  intros u so. unfold url_to_fs, Demo.env, Demo.url_to_fs.
  destruct (Demo.protocol_of _); [|discriminate].
  destruct (existsb _ _); discriminate.
Defined.

End ConstructionMore.

(** ** The Path-Template fetcher: resolution, batches and downloads *)

Module FsspecMore.
Import Fsspec FsspecView BatchView FsspecFacts.

Lemma dict_keys_set {V} (d : dict V) (k : string) (v : V) :
  dict_keys (dict_set d k v)
  = if existsb (String.eqb k) (dict_keys d) then dict_keys d
    else dict_keys d ++ [k].
Proof.
  induction d as [|[k' v'] d IH]; simpl; [reflexivity|].
  destruct (String.eqb k k') eqn:E; simpl; [reflexivity|].
  rewrite IH. now destruct (existsb (String.eqb k) (dict_keys d)).
Qed.

Lemma dict_keys_set_nodup {V} (d : dict V) (k : string) (v : V) :
  NoDup (dict_keys d) -> NoDup (dict_keys (dict_set d k v)).
Proof.
  intros H. rewrite dict_keys_set.
  destruct (existsb (String.eqb k) (dict_keys d)) eqn:E; [assumption|].
  apply NoDup_app; [assumption | repeat constructor; intros [] |].
  intros x Hx [Hk | []]. subst x.
  assert (Hex : existsb (String.eqb k) (dict_keys d) = true).
  { apply existsb_exists. exists k. split; [assumption | apply String.eqb_refl]. }
  congruence.
Qed.

Lemma dict_set_absent {V} (d : dict V) (k : string) (v : V) :
  ~ In k (dict_keys d) -> dict_set d k v = d ++ [(k, v)].
Proof.
  induction d as [|[k' v'] d IH]; simpl; intros H; [reflexivity|].
  destruct (String.eqb k k') eqn:E.
  - apply String.eqb_eq in E. subst. exfalso. apply H. now left.
  - rewrite IH; [reflexivity|]. intros Hin. apply H. now right.
Qed.

Lemma dict_get_absent {V} (d : dict V) (k : string) :
  ~ In k (dict_keys d) -> dict_get d k = None.
Proof.
  induction d as [|[k' v'] d IH]; simpl; intros H; [reflexivity|].
  destruct (String.eqb k k') eqn:E.
  - apply String.eqb_eq in E. subst. exfalso. apply H. now left.
  - apply IH. intros Hin. apply H. now right.
Qed.

(** [a | b] answers with [b] where [b] has the key. *)
Lemma dict_get_union {V} (b : dict V) :
  NoDup (dict_keys b) ->
  forall (a : dict V) (k : string),
    dict_get (dict_union a b) k
    = match dict_get b k with
      | Some v => Some v
      | None => dict_get a k
      end.
Proof.
  unfold dict_union.
  induction b as [|[k' v'] b IH]; intros Hnd a k; simpl; [reflexivity|].
  inversion Hnd as [|? ? Hnin Hnd']; subst.
  rewrite (IH Hnd'). simpl.
  destruct (String.eqb k k') eqn:E.
  - apply String.eqb_eq in E. subst k'.
    rewrite (dict_get_absent b k Hnin). apply dict_get_set_same.
  - destruct (dict_get b k); [reflexivity|].
    apply dict_get_set_other. intros ->. now rewrite String.eqb_refl in E.
Qed.

Lemma ensure_local_log (env : Collaborators) (opts : dict string)
    (u : string) (w : world) :
  exists evs, Forall is_transfer evs /\
              log (snd (ensure_local env opts u w)) = log w ++ evs.
Proof.
  unfold ensure_local. destruct (on_disk w (cached_name env opts u)); simpl.
  - exists []. split; [constructor | now rewrite app_nil_r].
  - unfold create_file, emit. simpl.
    exists [EvTransfer u (cached_name env opts u)].
    split; [repeat constructor | reflexivity].
Qed.

Lemma open_local_log (env : Collaborators) (opts : dict string)
    (urls : list string) :
  forall w, exists evs, Forall is_transfer evs /\
                        log (snd (open_local env urls opts w)) = log w ++ evs.
Proof.
  induction urls as [|u urls IH]; intros w.
  - exists []. split; [constructor | simpl; now rewrite app_nil_r].
  - cbn [open_local]. unfold bind at 1.
    pose proof (ensure_local_result env opts u w) as H1.
    destruct (ensure_local_log env opts u w) as [e1 [He1 Hl1]].
    destruct (ensure_local env opts u w) as [r1 w1]. simpl in H1, Hl1. subst r1.
    unfold bind.
    pose proof (open_local_result env opts urls w1) as H2.
    destruct (IH w1) as [e2 [He2 Hl2]].
    destruct (open_local env urls opts w1) as [r2 w2]. simpl in H2, Hl2. subst r2.
    simpl. exists (e1 ++ e2). split; [now apply Forall_app|].
    now rewrite Hl2, Hl1, app_assoc.
Qed.

Lemma fetch_groups_log (env : Collaborators) (batches : dict (list string)) :
  forall so flist w,
  exists evs, Forall is_transfer evs /\
              log (snd (fetch_groups env batches so flist w)) = log w ++ evs.
Proof.
  induction batches as [|[local urls] batches IH]; intros so flist w.
  - exists []. split; [constructor | simpl; now rewrite app_nil_r].
  - cbn [fetch_groups]. unfold bind.
    pose proof (open_local_result env (dict_set so "cache_storage" local) urls w) as H1.
    destruct (open_local_log env (dict_set so "cache_storage" local) urls w)
      as [e1 [He1 Hl1]].
    destruct (open_local env urls _ w) as [r1 w1]. simpl in H1, Hl1. subst r1.
    destruct (IH (dict_set so "cache_storage" local)
                 (flist ++ map (cached_name env (dict_set so "cache_storage" local)) urls)
                 w1) as [e2 [He2 Hl2]].
    exists (e1 ++ e2). split; [now apply Forall_app|].
    now rewrite Hl2, Hl1, app_assoc.
Qed.

Section Facts.
Variable env : Collaborators.
Variable self : DownloaderFsspec.

(** X4. Resolving a timestamp returns its remote reference, [None]
    when absent, with its local path, after the remote calls that the
    reference needs and without touching the disk.  It raises a
    [ValueError] when [storage_options] is missing or empty and when
    the local path renders to the empty string, in both cases only
    after the remote has been consulted. *)
Theorem make_path_outcomes (t : Timestamp) (check_exists : bool) (w : world) :
  let w' := add_events (remote_calls env self check_exists t) w in
  (has_storage_options self = false ->
   _make_path env self t check_exists w
   = (Raise (ValueError "storage_options must be defined in the kwargs"), w')) /\
  (has_storage_options self = true -> local_path env self t = "" ->
   _make_path env self t check_exists w
   = (Raise (ValueError
        "storage_options.cache_storage must be defined in the kwargs"), w')) /\
  (has_storage_options self = true -> local_path env self t <> "" ->
   _make_path env self t check_exists w
   = (Ok (remote_ref env self check_exists t, local_path env self t), w')) /\
  disk w' = disk w /\
  (List.length (remote_calls env self check_exists t) <= 1)%nat.
Proof.
  cbv zeta. split; [|split; [|split; [|split]]].
  - intros Hso. unfold _make_path.
    erewrite bind_ok by apply get_remote_path_view.
    unfold has_storage_options in Hso.
    destruct (storage_options (_kwargs self)) as [[|kv so]|];
      try discriminate; reflexivity.
  - intros Hso Hloc. unfold _make_path.
    erewrite bind_ok by apply get_remote_path_view.
    unfold has_storage_options in Hso. unfold local_path, cache_template in Hloc.
    destruct (storage_options (_kwargs self)) as [[|kv so]|];
      try discriminate.
    now rewrite Hloc.
  - intros Hso Hloc. now apply make_path_view.
  - reflexivity.
  - unfold remote_calls.
    destruct (str_in "*" _); [simpl; lia|].
    destruct check_exists; simpl; lia.
Qed.

(** X5. Building a batch consults the remote filesystem and nothing
    else: whatever the request, the world afterwards is the world
    before with listing and existence probes added to the log, the disk
    is untouched, and the batch or the exception that comes out is the
    same from every world. *)
Theorem make_batch_only_consults (times : times_arg) (w : world) :
  exists evs,
    Forall is_probe evs /\
    snd (_make_batch env self times w) = add_events evs w /\
    disk (snd (_make_batch env self times w)) = disk w /\
    forall w2, fst (_make_batch env self times w2)
               = fst (_make_batch env self times w).
Proof.
  destruct (make_batch_only_probes env self times) as [r [evs [Hevs H]]].
  exists evs. rewrite H. repeat split; auto.
  intros w2. now rewrite H.
Qed.

(** X6. A cadence that is missing or below one day, and a request that
    is empty or of an unsupported kind, end [download] with the
    exception of the first check that fails, before the remote
    filesystem or the disk has been touched. *)
Theorem download_rejects_before_remote
    (a : Timestamp) (l : list Timestamp) (w : world) :
  (download env self (TimesList []) w
   = (Raise (IndexError "list index out of range"), w)) /\
  (download env self TimesOther w
   = (Raise (ValueError
        "times must be a string, a pd.Timestamp or a list of pd.Timestamp"),
      w)) /\
  (time (_kwargs self) = None ->
   download env self (TimesList (a :: l)) w
   = (Raise (TypeError "argument of type 'NoneType' is not iterable"), w)) /\
  (forall tp, time (_kwargs self) = Some tp -> freq tp = None ->
   download env self (TimesList (a :: l)) w
   = (Raise (ValueError "time.freq must be defined in the kwargs"), w)) /\
  (forall tp f, time (_kwargs self) = Some tp -> freq tp = Some f ->
   f < one_day ->
   download env self (TimesList (a :: l)) w
   = (Raise (ValueError "time.freq must be at least 1 day"), w)).
Proof.
  repeat split.
  - intros Ht. unfold download. unfold bind at 1. rewrite make_batch_cons.
    unfold _make_times_strided, bind. now rewrite Ht.
  - intros tp Ht Hf. unfold download. unfold bind at 1. rewrite make_batch_cons.
    unfold _make_times_strided, bind. now rewrite Ht, Hf.
  - intros tp f Ht Hf Hlt. unfold download. unfold bind at 1.
    rewrite make_batch_cons.
    unfold _make_times_strided, bind. rewrite Ht, Hf.
    apply Z.ltb_lt in Hlt. now rewrite Hlt.
Qed.

(** The world after [_make_path], whatever it returns. *)
Lemma make_path_world (t : Timestamp) (check_exists : bool) (w : world) :
  snd (_make_path env self t check_exists w)
  = add_events (remote_calls env self check_exists t) w.
Proof.
  unfold _make_path.
  erewrite bind_ok by apply get_remote_path_view.
  destruct (storage_options (_kwargs self)) as [[|kv so]|]; try reflexivity.
  now destruct (String.eqb _ "").
Qed.

Lemma make_path_ok (t : Timestamp) (check_exists : bool) (w w1 : world)
    (r : option string) (local : string) :
  _make_path env self t check_exists w = (Ok (r, local), w1) ->
  r = remote_ref env self check_exists t /\
  local = local_path env self t /\ local <> "".
Proof.
  unfold _make_path.
  erewrite bind_ok by apply get_remote_path_view.
  unfold local_path, cache_template.
  destruct (storage_options (_kwargs self)) as [[|kv so]|]; try discriminate.
  destruct (String.eqb _ "") eqn:E; [discriminate|].
  intros [= <- <- _]. repeat split.
  intros H. rewrite H in E. discriminate.
Qed.

Lemma remote_calls_check_length (t : Timestamp) :
  List.length (remote_calls env self true t) = 1%nat.
Proof. unfold remote_calls. now destruct (str_in "*" _). Qed.

Lemma remote_calls_probes (check_exists : bool) (t : Timestamp) :
  Forall is_probe (remote_calls env self check_exists t).
Proof.
  unfold remote_calls. destruct (str_in "*" _); [repeat constructor|].
  destruct check_exists; repeat constructor.
Qed.

Lemma probe_dates_bound (dates : list Timestamp) :
  forall w, exists evs,
    snd (probe_dates env self dates w) = add_events evs w /\
    Forall is_probe evs /\
    (List.length evs <= List.length dates)%nat.
Proof.
  induction dates as [|t dates IH]; intros w.
  - exists []. simpl. rewrite add_events_nil. repeat split; auto.
  - cbn [probe_dates]. unfold bind at 1.
    pose proof (make_path_world t true w) as Hw.
    destruct (_make_path env self t true w) as [[[r local]|e] w1];
      simpl in Hw; subst w1.
    + destruct r as [r|]; cbn [fst].
      * exists (remote_calls env self true t).
        split; [reflexivity|]. split; [apply remote_calls_probes|].
        rewrite remote_calls_check_length. simpl. lia.
      * destruct (IH (add_events (remote_calls env self true t) w))
          as [evs [H1 [H2 H3]]].
        exists (remote_calls env self true t ++ evs).
        split; [now rewrite H1, add_events_app|].
        split; [apply Forall_app; split; [apply remote_calls_probes | exact H2]|].
        rewrite length_app, remote_calls_check_length. simpl. lia.
    + exists (remote_calls env self true t).
      split; [reflexivity|]. split; [apply remote_calls_probes|].
      rewrite remote_calls_check_length. simpl. lia.
Qed.

Lemma date_range_length (a b f : Z) :
  a <= b ->
  List.length (date_range a b f) = S (Z.to_nat ((b - a) / f)).
Proof.
  intros H. unfold date_range.
  destruct (b <? a) eqn:E; [apply Z.ltb_lt in E; lia|].
  now rewrite length_map, length_seq.
Qed.

(** X7. Cadence detection asks the remote filesystem one question a
    day and never more than the days of its window: for a cadence [f]
    that is at most [2 f / 1 day + 1] listing or existence probes
    (17 for an eight-day cadence), whatever the archive holds, and no
    file is touched. *)
Theorem cadence_detection_probe_bound
    (tp : TimeProps) (f : Timedelta) (t0 : Timestamp) (w : world) :
  time (_kwargs self) = Some tp -> freq tp = Some f -> 0 <= f ->
  exists evs,
    snd (_get_t0_for_strided_dates env self t0 w) = add_events evs w /\
    Forall is_probe evs /\
    Z.of_nat (List.length evs) <= f * 2 / one_day + 1.
Proof.
  intros Ht Hf Hpos. unfold _get_t0_for_strided_dates. rewrite Ht, Hf.
  cbv zeta. unfold bind.
  destruct (probe_dates_bound (date_range t0 (t0 + f * 2) one_day) w)
    as [evs [H1 [H2 H3]]].
  exists evs.
  destruct (probe_dates env self _ w) as [[[d|]|e] w1]; simpl in H1; subst w1;
    (split; [reflexivity|]; split; [exact H2|]);
    rewrite date_range_length in H3 by lia;
    replace (t0 + f * 2 - t0) with (f * 2) in H3 by lia;
    assert (0 <= f * 2 / one_day) by (apply Z.div_pos; unfold one_day; lia);
    lia.
Qed.

(** A daily source whose remote paths hold no wildcard. *)
Lemma no_wildcard_calls (times : list Timestamp) :
  Forall (fun t => str_in "*" (rendered_remote env self t) = false) times ->
  flat_map (remote_calls env self false) times = [] /\
  filter (present env self) times = times.
Proof.
  induction 1 as [|t times Ht Hall [IH1 IH2]]; [split; reflexivity|].
  cbn [flat_map filter]. unfold remote_calls at 1, present at 1, remote_ref.
  rewrite Ht. simpl. now rewrite IH1, IH2.
Qed.

(** X8. A daily source whose remote paths hold no wildcard is
    downloaded without one question to the remote filesystem: the only
    events are transfers, one cached file is returned for every day
    from the first to the last requested timestamp, and every returned
    file is on disk afterwards. *)
Theorem daily_download_without_probe
    (tp : TimeProps) (a : Timestamp) (l : list Timestamp) (w : world) :
  time (_kwargs self) = Some tp -> freq tp = Some one_day ->
  has_storage_options self = true ->
  Forall (fun t => local_path env self t <> "")
         (date_range a (last l a) one_day) ->
  Forall (fun t => str_in "*" (rendered_remote env self t) = false)
         (date_range a (last l a) one_day) ->
  exists flist w' evs,
    download env self (TimesList (a :: l)) w = (Ok flist, w') /\
    List.length flist = List.length (date_range a (last l a) one_day) /\
    log w' = log w ++ evs /\ Forall is_transfer evs /\
    Forall (fun p => on_disk w' p = true) flist.
Proof.
  intros Ht Hf Hso Hloc Hwild.
  destruct (no_wildcard_calls _ Hwild) as [Hcalls Hpres].
  set (times := date_range a (last l a) one_day) in *.
  set (batch := fold_left (add_ref env self) times []).
  assert (Hb : _make_batch env self (TimesList (a :: l)) w = (Ok batch, w)).
  { rewrite make_batch_cons. unfold _make_times_strided. rewrite Ht, Hf.
    rewrite Z.ltb_irrefl, Z.eqb_refl.
    unfold bind at 1. unfold ret at 1. fold times.
    rewrite (group_by_local_view env self times Hso Hloc).
    rewrite Hcalls. now rewrite add_events_nil. }
  unfold download. rewrite (bind_ok _ _ _ _ _ Hb).
  pose proof (download_batches_result env self batch w Hso) as Hres.
  unfold _download_batches in *. unfold has_storage_options in Hso.
  destruct (storage_options (_kwargs self)) as [so|] eqn:Eso; [|discriminate].
  set (so0 := dict_union [("same_names", "True")] so) in *.
  destruct (fetch_groups_log env batch so0 [] w) as [evs [Hevs Hlog]].
  pose proof (fetch_groups_stores env batch so0 [] w) as Hst.
  destruct (fetch_groups env batch so0 [] w) as [r w'] eqn:E.
  simpl in Hres, Hlog, Hst. subst r.
  exists (cached_files env self batch), w', evs.
  split; [reflexivity|]. split.
  { unfold cached_files. rewrite group_files_length. unfold batch.
    rewrite fold_add_ref_total, Hpres. reflexivity. }
  split; [exact Hlog|]. split; [exact Hevs|].
  apply Forall_forall. intros p Hp. apply Hst.
  unfold cached_files in Hp. now rewrite Eso in Hp.
Qed.

(** X9. On a strided source, when the first day with data that
    cadence detection finds lies after the last requested timestamp,
    [download] returns the empty list: the remote filesystem has been
    probed, nothing is transferred and the disk is as before.  A single
    timestamp that is not itself a day with data is such a request. *)
Theorem strided_request_before_first_data_day
    (tp : TimeProps) (f : Timedelta) (a d : Timestamp) (l : list Timestamp)
    (w : world) :
  time (_kwargs self) = Some tp -> freq tp = Some f -> one_day < f ->
  has_storage_options self = true ->
  Forall (fun t => local_path env self t <> "") (probe_window a f) ->
  find (resolves env self) (probe_window a f) = Some d ->
  last l a < d ->
  download env self (TimesList (a :: l)) w
  = (Ok [], add_events (flat_map (remote_calls env self true)
                                 (probed env self (probe_window a f))) w).
Proof.
  intros Ht Hf Hlt Hso Hloc Hfind Hd.
  unfold download. unfold bind at 1. rewrite make_batch_cons.
  unfold bind at 1.
  rewrite (make_times_strided_view env self tp f Ht Hf Hso a (last l a) w Hlt Hloc).
  rewrite Hfind. unfold date_range.
  apply Z.ltb_lt in Hd. rewrite Hd. cbn [group_by_local]. unfold ret at 1.
  unfold _download_batches. unfold has_storage_options in Hso.
  destruct (storage_options (_kwargs self)) as [so|]; [|discriminate].
  reflexivity.
Qed.

Lemma remote_ref_prefix (check_exists : bool) (t : Timestamp) (r : string) :
  remote_ref env self check_exists t = Some r ->
  prefixb "filecache::" r = true.
Proof.
  unfold remote_ref.
  destruct (str_in "*" _).
  - destruct (hd_error _); simpl; [|discriminate]. now intros [= <-].
  - destruct (check_exists && negb _); [discriminate|]. now intros [= <-].
Qed.

Lemma Forall_dict_set {V} (P : string * V -> Prop) (d : dict V) (k : string)
    (v : V) :
  Forall P d -> P (k, v) -> Forall P (dict_set d k v).
Proof.
  intros Hd Hkv. induction Hd as [|[k' v'] d Hx Hd IH]; simpl.
  - now constructor.
  - destruct (String.eqb k k') eqn:E.
    + apply String.eqb_eq in E. subst k'. now constructor.
    + now constructor.
Qed.

Lemma dict_get_default_Forall {V} (P : V -> Prop) (Q : string * V -> Prop)
    (d : dict V) (k : string) (dflt : V) :
  (forall kv, Q kv -> P (snd kv)) -> Forall Q d -> P dflt ->
  P (dict_get_default d k dflt).
Proof.
  intros HQ Hd Hdflt. unfold dict_get_default.
  induction Hd as [|[k' v'] d Hx Hd IH]; simpl; [assumption|].
  destruct (String.eqb k k'); [exact (HQ _ Hx) | exact IH].
Qed.

Lemma group_by_local_invariant (times : list Timestamp) :
  forall batch w batch',
    fst (group_by_local env self times batch w) = Ok batch' ->
    NoDup (dict_keys batch) -> Forall well_formed_group batch ->
    NoDup (dict_keys batch') /\ Forall well_formed_group batch'.
Proof.
  induction times as [|t times IH]; intros batch w batch' H Hnd Hwf.
  - simpl in H. injection H as <-. now split.
  - cbn [group_by_local] in H. unfold bind at 1 in H.
    destruct (_make_path env self t false w) as [[[r local]|e] w1] eqn:E;
      [|discriminate].
    destruct (make_path_ok _ _ _ _ _ _ E) as [Hr [Hl Hne]].
    destruct r as [r|]; [|now apply (IH _ _ _ H)].
    apply (IH _ _ _ H); [now apply dict_keys_set_nodup|].
    assert (Hnew : well_formed_group
                     (local, dict_get_default batch local [] ++ [r])).
    { split; [exact Hne|]. split.
      - intros Habs. apply app_eq_nil in Habs. destruct Habs; discriminate.
      - apply Forall_app. split.
        + apply (dict_get_default_Forall _ well_formed_group);
            [now intros kv [_ [_ Hkv]] | exact Hwf | constructor].
        + constructor; [|constructor].
          symmetry in Hr. now apply remote_ref_prefix in Hr. }
    apply Forall_dict_set; auto.
Qed.

(** X10. Every batch that [_make_batch] returns is well formed: no
    local path occurs twice among its keys, no key is the empty string,
    no group is empty, and every remote reference in it starts with
    [filecache::]. *)
Theorem make_batch_well_formed
    (times : times_arg) (w : world) (batch : dict (list string)) :
  fst (_make_batch env self times w) = Ok batch ->
  NoDup (dict_keys batch) /\
  Forall (fun kv => fst kv <> "" /\ snd kv <> [] /\
                    Forall (fun r => prefixb "filecache::" r = true) (snd kv))
         batch.
Proof.
  unfold _make_batch. unfold bind at 1.
  destruct (normalise_times env times w) as [[l|e] w0]; [|discriminate].
  unfold bind at 1.
  destruct (first_item l w0) as [[t0|e] w1]; [|discriminate].
  unfold bind at 1.
  destruct (last_item l w1) as [[t1|e] w2]; [|discriminate].
  unfold bind at 1.
  destruct (_make_times_strided env self t0 t1 w2) as [[ts|e] w3];
    [|discriminate].
  intros H.
  apply (group_by_local_invariant ts [] w3 batch H); constructor.
Qed.

Lemma fold_add_ref_distinct (times : list Timestamp) :
  forall acc,
    NoDup (map (local_path env self) times) ->
    (forall t, In t times -> ~ In (local_path env self t) (dict_keys acc)) ->
    fold_left (add_ref env self) times acc = acc ++ singles env self times.
Proof.
  induction times as [|t times IH]; intros acc Hnd Hacc.
  - simpl. now rewrite app_nil_r.
  - cbn [fold_left map] in *. inversion Hnd as [|? ? Hnin Hnd']; subst.
    unfold singles. cbn [flat_map]. fold (singles env self times).
    unfold add_ref at 2.
    destruct (remote_ref env self false t) as [r|].
    + assert (Ht : ~ In (local_path env self t) (dict_keys acc))
        by (apply Hacc; now left).
      unfold dict_get_default. rewrite (dict_get_absent _ _ Ht).
      rewrite (dict_set_absent _ _ _ Ht). cbn [app].
      rewrite IH; [now rewrite <- app_assoc | exact Hnd' |].
      intros t' Ht'. unfold dict_keys. rewrite map_app, in_app_iff.
      intros [Hin | [Heq | []]].
      * apply (Hacc t'); [now right | exact Hin].
      * simpl in Heq. apply Hnin. rewrite Heq. now apply in_map.
    + cbn [app]. apply IH; [exact Hnd'|].
      intros t' Ht'. apply Hacc. now right.
Qed.

Lemma group_files_singles (so : dict string) (times : list Timestamp) :
  group_files env so (singles env self times)
  = flat_map (fun t =>
                match remote_ref env self false t with
                | Some r =>
                    [cached_name env
                       (dict_set so "cache_storage" (local_path env self t)) r]
                | None => []
                end) times.
Proof.
  unfold group_files, singles.
  induction times as [|t times IH]; [reflexivity|].
  cbn [flat_map]. rewrite flat_map_app, IH.
  now destruct (remote_ref env self false t).
Qed.

(** X11. When no two of the enumerated timestamps render to the same
    local path, the batch holds one group per present timestamp, each
    with that timestamp's single remote reference, in the order of the
    timestamps; [download] then returns one cached file per present
    timestamp, in that order, each fetched into its own local path. *)
Theorem make_batch_distinct_local_paths
    (a : Timestamp) (l times : list Timestamp) (w w1 : world) :
  has_storage_options self = true ->
  _make_times_strided env self a (last l a) w = (Ok times, w1) ->
  Forall (fun t => local_path env self t <> "") times ->
  NoDup (map (local_path env self) times) ->
  let so := match storage_options (_kwargs self) with
            | Some so => so
            | None => []
            end in
  let batch :=
    flat_map (fun t =>
                match remote_ref env self false t with
                | Some r => [(local_path env self t, [r])]
                | None => []
                end) times in
  let files :=
    flat_map (fun t =>
                match remote_ref env self false t with
                | Some r =>
                    [cached_name env
                       (dict_set (dict_union [("same_names", "True")] so)
                                 "cache_storage" (local_path env self t)) r]
                | None => []
                end) times in
  fst (_make_batch env self (TimesList (a :: l)) w) = Ok batch /\
  fst (download env self (TimesList (a :: l)) w) = Ok files.
Proof.
  intros Hso Htimes Hloc Hnd. cbv zeta. fold (singles env self times).
  assert (Hb : _make_batch env self (TimesList (a :: l)) w
               = (Ok (singles env self times),
                  add_events (flat_map (remote_calls env self false) times) w1)).
  { rewrite make_batch_cons. rewrite (bind_ok _ _ _ _ _ Htimes).
    rewrite (group_by_local_view env self times Hso Hloc).
    rewrite fold_add_ref_distinct; [reflexivity | exact Hnd | now intros]. }
  split; [now rewrite Hb|].
  unfold download. rewrite (bind_ok _ _ _ _ _ Hb).
  rewrite (download_batches_result env self _ _ Hso).
  unfold cached_files. now rewrite group_files_singles.
Qed.

(** X12. A daily request whose last timestamp lies before its first
    enumerates no day at all: [download] returns the empty list and
    leaves the world as it found it, with no remote call made. *)
Theorem daily_request_backwards
    (tp : TimeProps) (so : dict string) (a : Timestamp) (l : list Timestamp)
    (w : world) :
  time (_kwargs self) = Some tp -> freq tp = Some one_day ->
  storage_options (_kwargs self) = Some so ->
  last l a < a ->
  download env self (TimesList (a :: l)) w = (Ok [], w).
Proof.
  intros Ht Hf Hso Hlt.
  unfold download. unfold bind at 1. rewrite make_batch_cons.
  unfold _make_times_strided. rewrite Ht, Hf.
  rewrite Z.ltb_irrefl, Z.eqb_refl.
  unfold bind at 1. unfold ret at 1. unfold date_range.
  apply Z.ltb_lt in Hlt. rewrite Hlt. cbn [group_by_local]. unfold ret at 1.
  unfold _download_batches. now rewrite Hso.
Qed.

(** X13. The options under which each group is fetched: the
    descriptor's storage options, with [cache_storage] replaced by the
    group's own local path (the path of an earlier group does not leak
    into a later one) and [same_names] set to [True] unless the
    descriptor sets it. *)
Theorem download_batches_options
    (so : dict string) (batch : dict (list string)) (w : world) :
  storage_options (_kwargs self) = Some so ->
  NoDup (dict_keys so) ->
  exists opts : string -> dict string,
    fst (_download_batches env self batch w)
    = Ok (flat_map (fun kv => map (cached_name env (opts (fst kv))) (snd kv))
                   batch) /\
    forall local,
      dict_get (opts local) "cache_storage" = Some local /\
      dict_get (opts local) "same_names"
      = Some (dict_get_default so "same_names" "True") /\
      forall k, k <> "cache_storage" -> k <> "same_names" ->
                dict_get (opts local) k = dict_get so k.
Proof.
  intros Hso Hnd.
  exists (fun local =>
            dict_set (dict_union [("same_names", "True")] so)
                     "cache_storage" local).
  split.
  { unfold _download_batches. rewrite Hso. now rewrite fetch_groups_result. }
  intros local. split; [apply dict_get_set_same|]. split.
  - rewrite dict_get_set_other by discriminate.
    rewrite (dict_get_union so Hnd). unfold dict_get_default.
    now destruct (dict_get so "same_names").
  - intros k Hk1 Hk2. rewrite dict_get_set_other by congruence.
    rewrite (dict_get_union so Hnd).
    destruct (dict_get so k); [reflexivity|]. simpl.
    destruct (String.eqb k "same_names") eqn:E; [|reflexivity].
    apply String.eqb_eq in E. contradiction.
Qed.

End Facts.

Lemma no_wildcard_dec (env : Collaborators) (self : DownloaderFsspec)
    (times : list Timestamp) :
  forallb (fun t => negb (str_in "*" (rendered_remote env self t))) times = true ->
  Forall (fun t => str_in "*" (rendered_remote env self t) = false) times.
Proof.
  intros H. apply Forall_forall. intros x Hx.
  rewrite forallb_forall in H. specialize (H x Hx).
  now destruct (str_in "*" _).
Qed.

(** Instances over the archives of [Demo]. *)

Lemma make_path_outcomes_witness :
  _make_path (Demo.env Demo.composites []) Demo.composite_fetcher
    (Demo.on_day 2021 1 3) true Demo.empty_world
  = (Ok (remote_ref (Demo.env Demo.composites []) Demo.composite_fetcher true
           (Demo.on_day 2021 1 3),
         local_path (Demo.env Demo.composites []) Demo.composite_fetcher
           (Demo.on_day 2021 1 3)),
     add_events (remote_calls (Demo.env Demo.composites [])
                   Demo.composite_fetcher true (Demo.on_day 2021 1 3))
                Demo.empty_world).
Proof.
  destruct (make_path_outcomes (Demo.env Demo.composites [])
              Demo.composite_fetcher (Demo.on_day 2021 1 3) true
              Demo.empty_world) as [_ [_ [H _]]].
  apply H; [reflexivity | vm_compute; discriminate].
Defined.

Lemma download_rejects_before_remote_witness :
  download (Demo.env Demo.composites [])
    (Demo.fsspec Demo.composites "filecache::https://host/{t:%Y%m%d}.nc"
       "/cache/{t:%Y}" None)
    (TimesList [Demo.on_day 2021 1 3]) Demo.empty_world
  = (Raise (TypeError "argument of type 'NoneType' is not iterable"),
     Demo.empty_world).
Proof.
  destruct (download_rejects_before_remote (Demo.env Demo.composites [])
              (Demo.fsspec Demo.composites
                 "filecache::https://host/{t:%Y%m%d}.nc" "/cache/{t:%Y}" None)
              (Demo.on_day 2021 1 3) [] Demo.empty_world) as [_ [_ [H _]]].
  apply H. reflexivity.
Defined.

Lemma cadence_detection_probe_bound_witness :
  exists evs,
    snd (_get_t0_for_strided_dates (Demo.env Demo.composites [])
           Demo.composite_fetcher (Demo.on_day 2021 1 1) Demo.empty_world)
    = add_events evs Demo.empty_world /\
    Forall is_probe evs /\
    Z.of_nat (List.length evs) <= days 8 * 2 / one_day + 1.
Proof.
  apply (cadence_detection_probe_bound (Demo.env Demo.composites [])
           Demo.composite_fetcher (mkTimeProps (Some (days 8))) (days 8)
           (Demo.on_day 2021 1 1) Demo.empty_world eq_refl eq_refl).
  vm_compute. discriminate.
Defined.

Lemma daily_download_without_probe_witness :
  let files := ["https://host/20210130.nc"; "https://host/20210131.nc";
                "https://host/20210201.nc"] in
  let request := [Demo.on_day 2021 1 30; Demo.on_day 2021 2 1] in
  exists flist w' evs,
    download (Demo.env files [])
      (Demo.fsspec files "filecache::https://host/{t:%Y%m%d}.nc"
         "/cache/{t:%Y%m}" (Some one_day))
      (TimesList request) Demo.empty_world = (Ok flist, w') /\
    List.length flist
    = List.length (date_range (Demo.on_day 2021 1 30)
                     (last [Demo.on_day 2021 2 1] (Demo.on_day 2021 1 30))
                     one_day) /\
    log w' = log Demo.empty_world ++ evs /\ Forall is_transfer evs /\
    Forall (fun p => on_disk w' p = true) flist.
Proof.
  cbv zeta.
  apply (daily_download_without_probe _ _ (mkTimeProps (Some one_day))).
  - reflexivity.
  - reflexivity.
  - reflexivity.
  - apply locals_nonempty_dec. vm_compute. reflexivity.
  - apply no_wildcard_dec. vm_compute. reflexivity.
Defined.

Lemma strided_request_before_first_data_day_witness :
  download (Demo.env Demo.composites []) Demo.composite_fetcher
    (TimesList [Demo.on_day 2021 1 1]) Demo.empty_world
  = (Ok [],
     add_events
       (flat_map (remote_calls (Demo.env Demo.composites [])
                    Demo.composite_fetcher true)
          (probed (Demo.env Demo.composites []) Demo.composite_fetcher
             (probe_window (Demo.on_day 2021 1 1) (days 8))))
       Demo.empty_world).
Proof.
  apply (strided_request_before_first_data_day (Demo.env Demo.composites [])
           Demo.composite_fetcher (mkTimeProps (Some (days 8))) (days 8)
           (Demo.on_day 2021 1 1) (Demo.on_day 2021 1 3) []).
  - reflexivity.
  - reflexivity.
  - vm_compute. reflexivity.
  - reflexivity.
  - apply locals_nonempty_dec. vm_compute. reflexivity.
  - vm_compute. reflexivity.
  - vm_compute. reflexivity.
Defined.

Lemma make_batch_well_formed_witness :
  let batch := [("/cache/202101", ["filecache::https://host/20210130_v2.nc"]);
                ("/cache/202102", ["filecache::https://host/20210201_v1.nc"])] in
  NoDup (dict_keys batch) /\
  Forall (fun kv => fst kv <> "" /\ snd kv <> [] /\
                    Forall (fun r => prefixb "filecache::" r = true) (snd kv))
         batch.
Proof.
  cbv zeta.
  apply (make_batch_well_formed (Demo.env Demo.dailies []) Demo.daily_fetcher
           (TimesList [Demo.on_day 2021 1 30; Demo.on_day 2021 2 1])
           Demo.empty_world).
  vm_compute. reflexivity.
Defined.

Lemma make_batch_distinct_local_paths_witness :
  let files := ["https://host/20210130.nc"; "https://host/20210201.nc"] in
  let env := Demo.env files [] in
  let self := Demo.fsspec files "filecache::https://host/{t:%Y%m%d}*.nc"
                "/cache/{t:%Y%m%d}" (Some one_day) in
  fst (download env self
         (TimesList [Demo.on_day 2021 1 30; Demo.on_day 2021 2 1])
         Demo.empty_world)
  = Ok ["/cache/20210130/20210130.nc"; "/cache/20210201/20210201.nc"].
Proof.
  cbv zeta.
  destruct (make_batch_distinct_local_paths
              (Demo.env ["https://host/20210130.nc"; "https://host/20210201.nc"] [])
              (Demo.fsspec ["https://host/20210130.nc"; "https://host/20210201.nc"]
                 "filecache::https://host/{t:%Y%m%d}*.nc" "/cache/{t:%Y%m%d}"
                 (Some one_day))
              (Demo.on_day 2021 1 30) [Demo.on_day 2021 2 1]
              [Demo.on_day 2021 1 30; Demo.on_day 2021 1 31; Demo.on_day 2021 2 1]
              Demo.empty_world Demo.empty_world) as [_ H].
  - reflexivity.
  - vm_compute. reflexivity.
  - apply locals_nonempty_dec. vm_compute. reflexivity.
  - vm_compute. repeat constructor; simpl; intuition discriminate.
  - rewrite H. vm_compute. reflexivity.
Defined.

Lemma daily_request_backwards_witness :
  download (Demo.env Demo.dailies []) Demo.daily_fetcher
    (TimesList [Demo.on_day 2021 2 1; Demo.on_day 2021 1 30]) Demo.empty_world
  = (Ok [], Demo.empty_world).
Proof.
  apply (daily_request_backwards (Demo.env Demo.dailies []) Demo.daily_fetcher
           (mkTimeProps (Some one_day)) [("cache_storage", "/cache/{t:%Y%m}")]).
  - reflexivity.
  - reflexivity.
  - reflexivity.
  - vm_compute. reflexivity.
Defined.

Lemma download_batches_options_witness :
  exists opts : string -> dict string,
    fst (_download_batches (Demo.env Demo.dailies []) Demo.daily_fetcher
           [("/cache/202101", ["filecache::https://host/20210130_v2.nc"])]
           Demo.empty_world)
    = Ok (flat_map
            (fun kv => map (cached_name (Demo.env Demo.dailies [])
                              (opts (fst kv))) (snd kv))
            [("/cache/202101", ["filecache::https://host/20210130_v2.nc"])]) /\
    forall local,
      dict_get (opts local) "cache_storage" = Some local /\
      dict_get (opts local) "same_names"
      = Some (dict_get_default [("cache_storage", "/cache/{t:%Y%m}")]
                "same_names" "True") /\
      forall k, k <> "cache_storage" -> k <> "same_names" ->
                dict_get (opts local) k
                = dict_get [("cache_storage", "/cache/{t:%Y%m}")] k.
Proof.
  apply (download_batches_options (Demo.env Demo.dailies []) Demo.daily_fetcher
           [("cache_storage", "/cache/{t:%Y%m}")]).
  - reflexivity.
  - repeat constructor. simpl. intuition.
Defined.

End FsspecMore.

(** ** The Dataset-Slice fetcher: opening, requests and their effects *)

Module XarrayMore.
Import Xarray XarrayView XarrayFacts.

Lemma opens_emit (e : event) (w : world) :
  opens (emit e w) = (opens w + (if is_open e then 1 else 0))%nat.
Proof.
  unfold opens, emit. simpl. rewrite filter_app, length_app. simpl.
  now destruct (is_open e).
Qed.

Lemma opens_create (p : string) (w : world) :
  opens (create_file p w) = opens w.
Proof. reflexivity. Qed.

Lemma collect_ok (outcomes : list (result string)) :
  forall acc flist,
    collect outcomes acc = Ok flist ->
    flist = acc ++ served outcomes /\ outcomes = map Ok (served outcomes).
Proof.
  induction outcomes as [|[p|e] outcomes IH]; intros acc flist H; simpl in *.
  - injection H as <-. now rewrite app_nil_r.
  - destruct (IH _ _ H) as [-> Hmap]. rewrite <- app_assoc. simpl.
    split; [reflexivity | now rewrite <- Hmap].
  - discriminate.
Qed.

Section Facts.
Variable env : Collaborators.

(** The property [data], case by case. *)
Lemma data_eq (s : state) :
  data env s
  = match _data (self s) with
    | Some d => (Ok d, s)
    | None =>
        match cfg_url (_kwargs (self s)) with
        | None => (Raise (KeyError "url"), s)
        | Some u =>
            let s1 := in_world (emit (EvOpenDataset u)) s in
            match call_opener env (data_opener (self s)) u with
            | Raise e => (Raise e, s1)
            | Ok all_vars =>
                let s2 := set_data_all_vars all_vars s1 in
                let vars := match variables (_kwargs (self s)) with
                            | Some l => l
                            | None => []
                            end in
                match vars with
                | [] =>
                    (Raise (AssertionError "variables must be defined in config"),
                     s2)
                | _ :: _ =>
                    if forallb (fun v => existsb (String.eqb v) (ds_vars all_vars))
                               vars
                    then
                      let d := mkDataset (ds_source all_vars) vars
                                         (ds_time all_vars) in
                      (Ok d, set_data d s2)
                    else (Raise (KeyError "No variable named"), s2)
                end
            end
        end
    end.
Proof.
  unfold data, bind, get, modify, py_assert, subset, raise, ret. simpl.
  destruct (_data (self s)) as [d|]; [reflexivity|].
  destruct (cfg_url (_kwargs (self s))) as [u|]; [|reflexivity].
  destruct (call_opener env (data_opener (self s)) u) as [all_vars|e];
    [|reflexivity].
  destruct (variables (_kwargs (self s))) as [[|v vars]|]; try reflexivity.
  simpl. now destruct (_ && _).
Qed.

(** How many times [data] opens the source, and what it leaves in
    [_data]. *)
Lemma data_opens (s : state) :
  let out := data env s in
  opens (outside (snd out))
  = (opens (outside s)
     + match _data (self s), cfg_url (_kwargs (self s)) with
       | None, Some _ => 1
       | _, _ => 0
       end)%nat /\
  (forall d, fst out = Ok d -> _data (self (snd out)) = Some d) /\
  (_data (self s) <> None -> _data (self (snd out)) = _data (self s)).
Proof.
  cbv zeta. rewrite data_eq.
  destruct (_data (self s)) as [d|] eqn:Ed.
  { cbn [fst snd]. rewrite Ed. repeat split; [lia | congruence]. }
  destruct (cfg_url (_kwargs (self s))) as [u|].
  2:{ cbn [fst snd]. repeat split; [lia | discriminate | congruence]. }
  cbv zeta.
  destruct (call_opener env (data_opener (self s)) u) as [all_vars|e].
  2:{ cbn [fst snd]. unfold in_world. cbn [outside].
      rewrite opens_emit. repeat split; [discriminate | congruence]. }
  destruct (match variables (_kwargs (self s)) with
            | Some l => l
            | None => []
            end) as [|v vars].
  { cbn [fst snd]. unfold set_data_all_vars, in_world. cbn [outside self].
    rewrite opens_emit. repeat split; [discriminate | congruence]. }
  destruct (forallb _ _); cbn [fst snd];
    unfold set_data, set_data_all_vars, in_world; cbn [outside self _data];
    rewrite opens_emit; repeat split; try discriminate; try congruence.
Qed.

(** One request opens the source when [_data] is not set and a URL is
    there, and not otherwise. *)
Lemma step_opens (t : Timestamp) (s : state) :
  let out := _download_single_timestep env t s in
  opens (outside (snd out))
  = (opens (outside s)
     + match _data (self s), cfg_url (_kwargs (self s)) with
       | None, Some _ => 1
       | _, _ => 0
       end)%nat /\
  (forall p, fst out = Ok p -> _data (self (snd out)) <> None) /\
  (_data (self s) <> None -> _data (self (snd out)) <> None).
Proof.
  cbv zeta. rewrite step_eq.
  destruct (data_opens (set_previous_fname EmptyStr s)) as [Ho [Hok Hkeep]].
  cbv zeta in Ho, Hok, Hkeep.
  change (outside (set_previous_fname EmptyStr s)) with (outside s) in Ho.
  change (_data (self (set_previous_fname EmptyStr s))) with (_data (self s))
    in Ho, Hkeep.
  change (_kwargs (self (set_previous_fname EmptyStr s)))
    with (_kwargs (self s)) in Ho.
  destruct (data env (set_previous_fname EmptyStr s)) as [[d|e] s1];
    cbn [fst snd] in *.
  2:{ repeat split; [exact Ho | discriminate |].
      intros H. rewrite (Hkeep H). exact H. }
  specialize (Hok d eq_refl).
  destruct (nearest (ds_time d) t) as [t_out|]; cbn [fst snd].
  2:{ repeat split; [exact Ho | discriminate | congruence]. }
  destruct (target env _ (_kwargs (self s1)) t_out) as [fname|e]; cbn [fst snd].
  2:{ repeat split; [exact Ho | discriminate | congruence]. }
  destruct (_previous_fname (self s1)) as [prev|]; cbn [fst snd].
  2:{ repeat split; [exact Ho | discriminate | congruence]. }
  destruct (on_disk (outside s1) fname && path_differs fname prev);
    unfold set_previous_fname, in_world; cbn [outside self _data];
    rewrite ?opens_create, ?opens_emit; cbn [is_open];
    rewrite ?Nat.add_0_r; repeat split; try exact Ho; congruence.
Qed.

Lemma run_opens (times : list Timestamp) :
  forall (flist : list string) (s : state),
    let out := download_each env times flist s in
    (opens (outside (snd out)) <= opens (outside s) + 1)%nat /\
    (_data (self s) <> None ->
     opens (outside (snd out)) = opens (outside s)) /\
    (times <> [] -> _data (self s) = None ->
     cfg_url (_kwargs (self s)) <> None ->
     opens (outside (snd out)) = (opens (outside s) + 1)%nat).
Proof.
  induction times as [|t times IH]; intros flist s; cbv zeta.
  - simpl. repeat split; [lia | congruence].
  - cbn [download_each]. unfold bind.
    destruct (step_opens t s) as [Ho [Hok Hkeep]]. cbv zeta in Ho, Hok, Hkeep.
    destruct (_download_single_timestep env t s) as [[p|e] s1];
      cbn [fst snd] in *.
    + specialize (Hok p eq_refl).
      destruct (IH (flist ++ [p]) s1) as [_ [Hsame _]]. cbv zeta in Hsame.
      rewrite (Hsame Hok), Ho.
      destruct (_data (self s)) as [d|]; [|destruct (cfg_url _)];
        repeat split; try lia; try congruence.
    + rewrite Ho.
      destruct (_data (self s)) as [d|]; [|destruct (cfg_url _)];
        repeat split; try lia; try congruence.
Qed.

(** X14. One call of [download] opens the source at most once,
    whatever is requested and however the call ends; it does not open
    it at all when the fetcher holds its dataset already, and it opens
    it exactly once when it does not and there is something to
    request. *)
Theorem download_opens_at_most_once (times : times_arg) (s : state) :
  let out := download env times s in
  (opens (outside (snd out)) <= opens (outside s) + 1)%nat /\
  (_data (self s) <> None ->
   opens (outside (snd out)) = opens (outside s)) /\
  (forall t l, times = TimesList (t :: l) -> _data (self s) = None ->
               cfg_url (_kwargs (self s)) <> None ->
               opens (outside (snd out)) = (opens (outside s) + 1)%nat).
Proof.
  cbv zeta. unfold download.
  destruct times as [str|t|l|l|]; cbn [normalise_times]; unfold bind, ret, raise;
    try (destruct (run_opens [pd_Timestamp env str] [] s) as [H1 [H2 _]]);
    try (destruct (run_opens [t] [] s) as [H1 [H2 _]]);
    try (destruct (run_opens l [] s) as [H1 [H2 H3]]);
    cbv zeta in *; cbn [snd];
    repeat split; auto; try lia; try discriminate.
  intros t0 l0 [= ->]. apply H3. discriminate.
Qed.

(** X15. With no variable declared ([variables] missing or empty) a
    request fails with the assertion of [data], but only after the
    source has been opened: the log gains that one opening, nothing is
    computed or written, and [_data] stays unset. *)
Theorem missing_variables_rejected_after_open
    (s : state) (u : string) (all_vars : Dataset)
    (t : Timestamp) (l : list Timestamp) :
  _data (self s) = None ->
  cfg_url (_kwargs (self s)) = Some u ->
  call_opener env (data_opener (self s)) u = Ok all_vars ->
  variables (_kwargs (self s)) = None \/ variables (_kwargs (self s)) = Some [] ->
  let out := download env (TimesList (t :: l)) s in
  fst out = Raise (AssertionError "variables must be defined in config") /\
  outside (snd out) = emit (EvOpenDataset u) (outside s) /\
  _data (self (snd out)) = None /\
  _data_all_vars (self (snd out)) = Some all_vars.
Proof.
  intros Hd Hu Hopen Hvars. cbv zeta.
  assert (E : download env (TimesList (t :: l)) s
              = (Raise (AssertionError "variables must be defined in config"),
                 set_data_all_vars all_vars
                   (in_world (emit (EvOpenDataset u))
                             (set_previous_fname EmptyStr s)))).
  { unfold download. cbn [normalise_times]. unfold bind at 1, ret at 1.
    cbn [download_each]. unfold bind at 1. rewrite step_eq, data_eq.
    change (_data (self (set_previous_fname EmptyStr s)))
      with (_data (self s)).
    change (_kwargs (self (set_previous_fname EmptyStr s)))
      with (_kwargs (self s)).
    change (data_opener (self (set_previous_fname EmptyStr s)))
      with (data_opener (self s)).
    rewrite Hd, Hu. cbv zeta. rewrite Hopen.
    destruct Hvars as [-> | ->]; reflexivity. }
  rewrite E. cbn [fst snd].
  unfold set_data_all_vars, in_world, set_previous_fname.
  cbn [outside self _data _data_all_vars]. auto.
Qed.

(** X16. A failed access to [data] is not remembered: when the source
    was opened and the access raised, [_data] is still unset, and the
    next access opens the source again and raises the same exception. *)
Theorem failed_access_is_retried (s : state) (u : string) (e : exn) :
  _data (self s) = None ->
  cfg_url (_kwargs (self s)) = Some u ->
  fst (data env s) = Raise e ->
  let s1 := snd (data env s) in
  _data (self s1) = None /\
  outside s1 = emit (EvOpenDataset u) (outside s) /\
  fst (data env s1) = Raise e /\
  outside (snd (data env s1)) = emit (EvOpenDataset u) (outside s1).
Proof.
  intros Hd Hu. cbv zeta. rewrite (data_eq s). rewrite Hd, Hu. cbv zeta.
  destruct (call_opener env (data_opener (self s)) u) as [all_vars|e0] eqn:Eo.
  2:{ cbn [fst snd]. intros [= <-]. rewrite data_eq.
      unfold in_world. cbn [self outside]. rewrite Hd, Hu. cbv zeta.
      rewrite Eo. now cbn [fst snd outside]. }
  destruct (match variables (_kwargs (self s)) with
            | Some l => l
            | None => []
            end) as [|v vars] eqn:Ev.
  { cbn [fst snd]. intros [= <-]. rewrite data_eq.
    unfold set_data_all_vars, in_world.
    cbn [self outside _data _kwargs data_opener].
    rewrite Hd, Hu. cbv zeta. rewrite Eo, Ev. now cbn [fst snd outside]. }
  destruct (forallb _ _) eqn:Ef; cbn [fst snd]; [discriminate|].
  intros [= <-]. rewrite data_eq.
  unfold set_data_all_vars, in_world.
  cbn [self outside _data _kwargs data_opener].
  rewrite Hd, Hu. cbv zeta. rewrite Eo, Ev, Ef. now cbn [fst snd outside].
Qed.

(** X17. What a successful [download] returns: one path for every
    requested timestamp, in the order of the request and with
    repetitions kept, each the path of its nearest sample, and each on
    disk when the call returns.  An empty request returns the empty
    list and leaves the fetcher and the world as they were. *)
Theorem download_one_path_per_request
    (l : list Timestamp) (s : state) (flist : list string) :
  fst (download env (TimesList l) s) = Ok flist ->
  Forall2 (fun t p => target env (source env s) (_kwargs (self s)) t = Ok p)
          l flist /\
  List.length flist = List.length l /\
  Forall (fun p => on_disk (outside (snd (download env (TimesList l) s))) p
                   = true) flist /\
  download env (TimesList []) s = (Ok [], s).
Proof.
  assert (Hdl : forall l0, download env (TimesList l0) s
                           = download_each env l0 [] s) by reflexivity.
  rewrite !Hdl. intros H.
  destruct (run_spec env l [] s) as [Hr [_ [_ [_ [_ [Hstore _]]]]]].
  cbv zeta in Hr, Hstore. rewrite Hr in H.
  destruct (collect_ok _ _ _ H) as [Hfl Hmap]. simpl in Hfl. subst flist.
  set (outcomes := map (target env (source env s) (_kwargs (self s))) l) in *.
  assert (HF : Forall2
                 (fun t p => target env (source env s) (_kwargs (self s)) t = Ok p)
                 l (served outcomes)).
  { clear -Hmap. unfold outcomes in *.
    generalize dependent (served (map (target env (source env s)
                                         (_kwargs (self s))) l)).
    induction l as [|t l IH]; intros ps Hmap; destruct ps as [|p ps];
      simpl in Hmap; try discriminate; constructor.
    - now injection Hmap.
    - apply IH. now injection Hmap. }
  split; [exact HF|]. split; [symmetry; exact (Forall2_length HF)|].
  split; [|reflexivity].
  apply Forall_forall. exact Hstore.
Qed.

(** The world after an access to [data]. *)
Lemma data_world (s : state) :
  outside (snd (data env s))
  = add_events match _data (self s), cfg_url (_kwargs (self s)) with
               | None, Some u => [EvOpenDataset u]
               | _, _ => []
               end (outside s).
Proof.
  rewrite data_eq.
  destruct (_data (self s)) as [d|]; [now rewrite add_events_nil|].
  destruct (cfg_url (_kwargs (self s))) as [u|]; [|now rewrite add_events_nil].
  cbv zeta.
  destruct (call_opener env (data_opener (self s)) u) as [all_vars|e];
    [|reflexivity].
  destruct (match variables (_kwargs (self s)) with
            | Some l => l
            | None => []
            end) as [|v vars]; [reflexivity|].
  now destruct (forallb _ _).
Qed.

(** X18. What one successful request does.  [_previous_fname] ends
    up holding the returned path.  When that path was on disk the world
    changes by the opening of the source at most; when it was not, the
    nearest sample is computed and then written, in this order and once
    each, after the opening if there is one, and the path is added to
    the disk. *)
Theorem single_timestep_effects (t : Timestamp) (s : state) (p : string) :
  fst (_download_single_timestep env t s) = Ok p ->
  let s' := snd (_download_single_timestep env t s) in
  let opening := match _data (self s), cfg_url (_kwargs (self s)) with
                 | None, Some u => [EvOpenDataset u]
                 | _, _ => []
                 end in
  _previous_fname (self s') = Some (PathValue p) /\
  (on_disk (outside s) p = true ->
   outside s' = add_events opening (outside s)) /\
  (on_disk (outside s) p = false ->
   exists d t_out,
     source env s = Ok d /\ nearest (ds_time d) t = Some t_out /\
     log (outside s')
     = log (outside s) ++ opening ++ [EvCompute t_out; EvToNetcdf p] /\
     disk (outside s') = disk (outside s) ++ [p]).
Proof.
  cbv zeta. rewrite step_eq.
  set (s0 := set_previous_fname EmptyStr s).
  pose proof (data_world s0) as Hw.
  change (outside s0) with (outside s) in Hw.
  change (_data (self s0)) with (_data (self s)) in Hw.
  change (_kwargs (self s0)) with (_kwargs (self s)) in Hw.
  destruct (data_spec env s0) as [_ [_ [Hp _]]].
  change (_previous_fname (self s0)) with (Some EmptyStr) in Hp.
  assert (Hsrc : fst (data env s0) = source env s)
    by (now apply source_indep).
  destruct (data env s0) as [[d|e] s1]; cbn [fst snd] in *; [|discriminate].
  destruct (nearest (ds_time d) t) as [t_out|] eqn:En; [|discriminate].
  destruct (target env _ (_kwargs (self s1)) t_out) as [fname|e];
    [|discriminate].
  rewrite Hp. cbn [path_differs]. rewrite andb_true_r.
  assert (Hon : on_disk (outside s1) fname = on_disk (outside s) fname)
    by (rewrite Hw; apply on_disk_add_events).
  destruct (on_disk (outside s1) fname) eqn:Ed; cbn [fst snd];
    intros [= <-].
  - split; [reflexivity|]. split; [intros _; exact Hw|].
    intros Hoff. congruence.
  - split; [reflexivity|]. split; [intros Hyes; congruence|].
    intros _. exists d, t_out. split; [now symmetry|]. split; [exact En|].
    unfold set_previous_fname, in_world, create_file, emit.
    cbn [outside self log disk].
    unfold on_disk in *. cbn [disk]. rewrite Ed, Hw.
    cbn [add_events log disk]. now rewrite <- !app_assoc.
Qed.

(** X19. After a successful construction the local path of a
    timestamp can fail in one way only: [_make_local_path] returns the
    rendered cache-storage template as a path, leaving the state alone,
    and raises just when the template renders to the empty string; the
    error for missing storage options cannot occur any more. *)
Theorem constructed_fetcher_local_path {S}
    (opener : Callable) (kwargs : Config) (s0 : S) (d : DownloaderXarray)
    (w : world) (t : Timestamp) :
  fst (__init__ env opener kwargs s0) = Ok d ->
  _make_local_path env t (mkState d w)
  = (if String.eqb (rendered env kwargs t) ""
     then Raise (ValueError
                   "storage_options.cache_storage must be defined in the kwargs")
     else Ok (path_str env (rendered env kwargs t)),
     mkState d w).
Proof.
  intros H. rewrite make_local_path_view. f_equal.
  assert (Hk : _kwargs d = kwargs /\ has_storage_options kwargs = true).
  { revert H. unfold __init__, _check_cache_storage_path_valid, bind,
      has_storage_options.
    destruct (storage_options kwargs) as [[|kv so]|]; try discriminate.
    destruct (py_assert _ _ s0) as [[[]|e] s1]; [|discriminate].
    destruct (py_assert _ _ s1) as [[[]|e] s2]; [|discriminate].
    destruct (py_assert _ _ s2) as [[[]|e] s3]; [|discriminate].
    cbn [fst ret]. now intros [= <-]. }
  destruct Hk as [Hk Hso]. unfold target. cbn [nearest ds_time fold_left self].
  now rewrite Hk, Hso.
Qed.

End Facts.

(** Instances over a dataset sampled at noon of 1 January 2000. *)

Lemma download_opens_at_most_once_witness :
  let env := Demo.env [] [Demo.at_time 2000 1 1 12] in
  let s := mkState (Demo.xarray "https://thredds.host/dodsC/sst"
                                "/cache/{t:%Y%m%d}.nc") Demo.empty_world in
  opens (outside (snd (download env
                         (TimesList [Demo.at_time 2000 1 1 0;
                                     Demo.at_time 2000 1 1 6]) s)))
  = (opens (outside s) + 1)%nat.
Proof.
  cbv zeta.
  destruct (download_opens_at_most_once
              (Demo.env [] [Demo.at_time 2000 1 1 12])
              (TimesList [Demo.at_time 2000 1 1 0; Demo.at_time 2000 1 1 6])
              (mkState (Demo.xarray "https://thredds.host/dodsC/sst"
                                    "/cache/{t:%Y%m%d}.nc") Demo.empty_world))
    as [_ [_ H]].
  apply (H (Demo.at_time 2000 1 1 0) [Demo.at_time 2000 1 1 6]);
    [reflexivity | reflexivity | discriminate].
Defined.

Lemma missing_variables_rejected_after_open_witness :
  let env := Demo.env [] [Demo.at_time 2000 1 1 12] in
  let s := mkState
             (mkDownloaderXarray pydap_opener
                (mkConfig (Some "https://thredds.host/dodsC/sst")
                   (Some [("cache_storage", "/cache/{t:%Y%m%d}.nc")])
                   None None None)
                None None None) Demo.empty_world in
  let out := download env (TimesList [Demo.at_time 2000 1 1 0]) s in
  fst out = Raise (AssertionError "variables must be defined in config") /\
  outside (snd out)
  = emit (EvOpenDataset "https://thredds.host/dodsC/sst") (outside s) /\
  _data (self (snd out)) = None /\
  _data_all_vars (self (snd out))
  = Some (mkDataset "https://thredds.host/dodsC/sst" ["sst"]
            [Demo.at_time 2000 1 1 12]).
Proof.
  cbv zeta.
  apply (missing_variables_rejected_after_open
           (Demo.env [] [Demo.at_time 2000 1 1 12])).
  - reflexivity.
  - reflexivity.
  - reflexivity.
  - left. reflexivity.
Defined.

Lemma failed_access_is_retried_witness :
  let env := Demo.env [] [Demo.at_time 2000 1 1 12] in
  let s := mkState
             (mkDownloaderXarray pydap_opener
                (mkConfig (Some "https://thredds.host/dodsC/sst")
                   (Some [("cache_storage", "/cache/{t:%Y%m%d}.nc")])
                   None None (Some ["chl"]))
                None None None) Demo.empty_world in
  let s1 := snd (data env s) in
  _data (self s1) = None /\
  outside s1
  = emit (EvOpenDataset "https://thredds.host/dodsC/sst") (outside s) /\
  fst (data env s1) = Raise (KeyError "No variable named") /\
  outside (snd (data env s1))
  = emit (EvOpenDataset "https://thredds.host/dodsC/sst") (outside s1).
Proof.
  cbv zeta.
  apply (failed_access_is_retried (Demo.env [] [Demo.at_time 2000 1 1 12])).
  - reflexivity.
  - reflexivity.
  - reflexivity.
Defined.

Lemma download_one_path_per_request_witness :
  let env := Demo.env [] [Demo.at_time 2000 1 1 12; Demo.at_time 2000 1 2 12] in
  let s := mkState (Demo.xarray "https://thredds.host/dodsC/sst"
                                "/cache/{t:%Y%m%d}.nc") Demo.empty_world in
  let request := [Demo.at_time 2000 1 2 0; Demo.at_time 2000 1 1 0;
                  Demo.at_time 2000 1 2 6] in
  List.length ["/cache/20000102.nc"; "/cache/20000101.nc"; "/cache/20000102.nc"]
  = List.length request.
Proof.
  cbv zeta.
  apply (download_one_path_per_request
           (Demo.env [] [Demo.at_time 2000 1 1 12; Demo.at_time 2000 1 2 12])
           [Demo.at_time 2000 1 2 0; Demo.at_time 2000 1 1 0;
            Demo.at_time 2000 1 2 6]
           (mkState (Demo.xarray "https://thredds.host/dodsC/sst"
                                 "/cache/{t:%Y%m%d}.nc") Demo.empty_world)).
  vm_compute. reflexivity.
Defined.

Lemma single_timestep_effects_witness :
  let env := Demo.env [] [Demo.at_time 2000 1 1 12] in
  let s := mkState (Demo.xarray "https://thredds.host/dodsC/sst"
                                "/cache/{t:%Y%m%d}.nc") Demo.empty_world in
  _previous_fname
    (self (snd (_download_single_timestep env (Demo.at_time 2000 1 1 0) s)))
  = Some (PathValue "/cache/20000101.nc").
Proof.
  cbv zeta.
  apply (single_timestep_effects (Demo.env [] [Demo.at_time 2000 1 1 12])).
  vm_compute. reflexivity.
Defined.

Lemma constructed_fetcher_local_path_witness :
  let env := Demo.env [] [] in
  let kwargs := Demo.config "https://thredds.host/dodsC/sst"
                            "/cache/{t:%Y%m%d}.nc" None in
  _make_local_path env (Demo.on_day 2021 1 3)
    (mkState (Demo.xarray "https://thredds.host/dodsC/sst"
                          "/cache/{t:%Y%m%d}.nc") Demo.empty_world)
  = (if String.eqb (rendered env kwargs (Demo.on_day 2021 1 3)) ""
     then Raise (ValueError
                   "storage_options.cache_storage must be defined in the kwargs")
     else Ok (path_str env (rendered env kwargs (Demo.on_day 2021 1 3))),
     mkState (Demo.xarray "https://thredds.host/dodsC/sst"
                          "/cache/{t:%Y%m%d}.nc") Demo.empty_world).
Proof.
  cbv zeta.
  apply (constructed_fetcher_local_path (Demo.env [] []) pydap_opener
           (Demo.config "https://thredds.host/dodsC/sst"
                        "/cache/{t:%Y%m%d}.nc" None) tt).
  vm_compute. reflexivity.
Defined.

End XarrayMore.

(** ** Dispatch: which URLs get the Path-Template fetcher *)

Module DispatchMore.
Import Utils ConstructionFacts UrlFacts.

Section Facts.
Variable env : Collaborators.

(** X20. [make_downloader] returns a Path-Template fetcher exactly
    when the configuration has [storage_options] and a [url] of the
    filecache shape that fsspec resolves.  A URL of that shape never
    falls through to the Dataset-Slice fetcher: when fsspec raises on
    it, the dispatch ends with that exception. *)
Theorem make_downloader_path_template_iff {S} (config : Config) (s : S) :
  ((exists d, fst (make_downloader env config s) = Ok (IsFsspec d)) <->
   exists u so,
     cfg_url config = Some u /\ storage_options config = Some so /\
     url_shape u /\ exists r, url_to_fs env u so = Ok r) /\
  (forall u so e,
      cfg_url config = Some u -> storage_options config = Some so ->
      url_shape u -> url_to_fs env u so = Raise e ->
      make_downloader env config s = (Raise e, s)).
Proof.
  unfold make_downloader.
  destruct (cfg_url config) as [u|].
  2:{ split.
      - split.
        + intros [d H]. discriminate H.
        + intros [u [so [H _]]]. discriminate H.
      - intros u so e H. discriminate H. }
  destruct (storage_options config) as [so|] eqn:Eso.
  2:{ split.
      - split.
        + intros [d H]. discriminate H.
        + intros [u0 [so [_ [H _]]]]. discriminate H.
      - intros u0 so e _ H. discriminate H. }
  assert (Hopts : fs_options (without_url config) = so).
  { unfold fs_options, without_url. simpl. now rewrite Eso. }
  cbv zeta.
  destruct (re_match protocol_pattern u) eqn:Em.
  - unfold bind. rewrite (fsspec_init_eq env u (without_url config) s).
    rewrite Hopts, Em.
    assert (Hne : String.eqb u "" = false).
    { destruct (String.eqb u "") eqn:E; [|reflexivity].
      apply String.eqb_eq in E. now apply re_match_nonempty in Em. }
    rewrite Hne. split.
    + destruct (url_to_fs env u so) as [r|e] eqn:Efs; split.
      * intros _. exists u, so.
        repeat split; [now apply re_match_url_shape | now exists r].
      * intros _. eexists. reflexivity.
      * intros [d H]. discriminate H.
      * intros [u0 [so0 [[= <-] [[= <-] [_ [r Hr]]]]]]. congruence.
    + intros u0 so0 e [= <-] [= <-] _ He. now rewrite He.
  - assert (Hno : forall u0, Some u = Some u0 -> ~ url_shape u0).
    { intros u0 [= <-] Hs. apply re_match_url_shape in Hs. congruence. }
    assert (Hx : forall opener,
      ((exists d, fst (bind (Xarray.__init__ env opener config)
                            (fun d => @ret S _ (IsXarray d)) s)
                  = Ok (IsFsspec d)) <->
       exists u0 so0,
         Some u = Some u0 /\ Some so = Some so0 /\
         url_shape u0 /\ exists r, url_to_fs env u0 so0 = Ok r)).
    { intros opener. unfold bind.
      destruct (Xarray.__init__ env opener config s) as [[x|e] s']; split;
        try (intros [d H]; discriminate H);
        intros [u0 [so0 [Hu [_ [Hs _]]]]]; now apply (Hno u0 Hu) in Hs. }
    split.
    + destruct (str_in "thredds" u); cbn [orb]; [apply Hx|].
      destruct (negb (str_in "/" u)); [apply Hx|].
      split.
      * intros [d H]. discriminate H.
      * intros [u0 [so0 [Hu [_ [Hs _]]]]]. now apply (Hno u0 Hu) in Hs.
    + intros u0 so0 e Hu _ Hs. now apply (Hno u0 Hu) in Hs.
Qed.

End Facts.

Lemma make_downloader_path_template_iff_witness :
  exists d,
    fst (make_downloader (Demo.env [] [])
           (Demo.config "filecache::ftp://host/{t:%Y}/sst.nc"
                        "/cache/{t:%Y%m%d}.nc" None) Demo.empty_world)
    = Ok (IsFsspec d).
Proof.
  destruct (make_downloader_path_template_iff (Demo.env [] [])
              (Demo.config "filecache::ftp://host/{t:%Y}/sst.nc"
                           "/cache/{t:%Y%m%d}.nc" None) Demo.empty_world)
    as [[_ H] _].
  apply H.
  exists "filecache::ftp://host/{t:%Y}/sst.nc",
         [("cache_storage", "/cache/{t:%Y%m%d}.nc")].
  split; [reflexivity|]. split; [reflexivity|]. split.
  - exists ["ftp"], "host/", "%Y", "/sst.nc".
    split; [discriminate|].
    split; [constructor; [simpl; auto | constructor]|].
    repeat split.
  - eexists. vm_compute. reflexivity.
Defined.

End DispatchMore.
